(** * PatientConnectAPI: the patient routes and their request models

    A shallow embedding of [src/api/patients/patient_routes.py]
    ([get_patient], [add_visit]) and of the request models of
    [src/api/patients/patient_models.py], together with the properties of
    the name matcher, the visibility filter, the visit writer and the
    request validators.

    Conventions of the embedding.
    - Python [str] values are Rocq strings read as UTF-8 text; [str.lower],
      [str.split] and [str.title] act on the code points, with the case
      tables of the interpreter.
    - A Python [set] of strings is a [gset string].
    - The patients collection is the list of its documents in natural
      order; [find_one] and [update_one] act on the first document their
      filter selects.
    - A handler is a function of the store that returns its outcome, the
      store afterwards and the store calls it awaited, in order. *)

From Stdlib Require Import ZArith QArith.QArith_base Ascii String.
From stdpp Require Import base decidable option list strings pretty gmap.

Local Open Scope string_scope.
Local Open Scope list_scope.

(** ** Python string operations

    A [str] is a sequence of code points.  A Rocq string stands for the
    [str] of which it is the UTF-8 encoding, so a string literal of this
    file reads as it would in the source; [lower], [split] and [title] are
    those of CPython 3.11 on the code points (Unicode 14.0.0).  A byte that
    begins no encoding stands for U+FFFD; no request carries such a
    string. *)

Module PyStr.

Local Open Scope Z_scope.

Definition byte (a : ascii) : Z := Z.of_N (N_of_ascii a).

Definition chr8 (b : Z) : ascii := ascii_of_N (Z.to_N b).

Definition continuation (b : Z) : bool := (128 <=? b) && (b <? 192).

Fixpoint decode (s : string) : list Z :=
  match s with
  | EmptyString => []
  | String a0 s1 =>
      let b0 := byte a0 in
      if b0 <? 128 then b0 :: decode s1
      else
        match s1 with
        | EmptyString => [65533]
        | String a1 s2 =>
            let b1 := byte a1 in
            if (194 <=? b0) && (b0 <? 224) && continuation b1
            then ((b0 - 192) * 64 + (b1 - 128)) :: decode s2
            else
              match s2 with
              | EmptyString => 65533 :: decode s1
              | String a2 s3 =>
                  let b2 := byte a2 in
                  let c3 := (b0 - 224) * 4096 + (b1 - 128) * 64 + (b2 - 128) in
                  if (224 <=? b0) && (b0 <? 240) && continuation b1 && continuation b2 &&
                     (2048 <=? c3)
                  then c3 :: decode s3
                  else
                    match s3 with
                    | EmptyString => 65533 :: decode s1
                    | String a3 s4 =>
                        let b3 := byte a3 in
                        let c4 := (b0 - 240) * 262144 + (b1 - 128) * 4096
                                  + (b2 - 128) * 64 + (b3 - 128) in
                        if (240 <=? b0) && (b0 <? 245) && continuation b1 &&
                           continuation b2 && continuation b3 &&
                           (65536 <=? c4) && (c4 <=? 1114111)
                        then c4 :: decode s4
                        else 65533 :: decode s1
                    end
              end
        end
  end.

Definition encode_char (c : Z) : string :=
  if c <? 128 then String (chr8 c) EmptyString
  else if c <? 2048 then
    String (chr8 (192 + c / 64)) (String (chr8 (128 + c mod 64)) EmptyString)
  else if c <? 65536 then
    String (chr8 (224 + c / 4096))
      (String (chr8 (128 + c / 64 mod 64)) (String (chr8 (128 + c mod 64)) EmptyString))
  else
    String (chr8 (240 + c / 262144))
      (String (chr8 (128 + c / 4096 mod 64))
         (String (chr8 (128 + c / 64 mod 64)) (String (chr8 (128 + c mod 64)) EmptyString))).

Fixpoint encode (u : list Z) : string :=
  match u with
  | [] => EmptyString
  | c :: rest => encode_char c +:+ encode rest
  end.

(** A code point of a [str]. *)
Definition valid (c : Z) : Prop := 0 <= c <= 1114111.

(** The code points that [str.lower] changes, each with what it becomes. *)
Definition lower_table : list (Z * list Z) :=
  [(65, [97]); (66, [98]); (67, [99]); (68, [100]); (69, [101]); (70, [102]); (71, [103]);
   (72, [104]); (73, [105]); (74, [106]); (75, [107]); (76, [108]); (77, [109]);
   (78, [110]); (79, [111]); (80, [112]); (81, [113]); (82, [114]); (83, [115]);
   (84, [116]); (85, [117]); (86, [118]); (87, [119]); (88, [120]); (89, [121]);
   (90, [122]); (192, [224]); (193, [225]); (194, [226]); (195, [227]); (196, [228]);
   (197, [229]); (198, [230]); (199, [231]); (200, [232]); (201, [233]); (202, [234]);
   (203, [235]); (204, [236]); (205, [237]); (206, [238]); (207, [239]); (208, [240]);
   (209, [241]); (210, [242]); (211, [243]); (212, [244]); (213, [245]); (214, [246]);
   (216, [248]); (217, [249]); (218, [250]); (219, [251]); (220, [252]); (221, [253]);
   (222, [254]); (256, [257]); (258, [259]); (260, [261]); (262, [263]); (264, [265]);
   (266, [267]); (268, [269]); (270, [271]); (272, [273]); (274, [275]); (276, [277]);
   (278, [279]); (280, [281]); (282, [283]); (284, [285]); (286, [287]); (288, [289]);
   (290, [291]); (292, [293]); (294, [295]); (296, [297]); (298, [299]); (300, [301]);
   (302, [303]); (304, [105; 775]); (306, [307]); (308, [309]); (310, [311]); (313, [314]);
   (315, [316]); (317, [318]); (319, [320]); (321, [322]); (323, [324]); (325, [326]);
   (327, [328]); (330, [331]); (332, [333]); (334, [335]); (336, [337]); (338, [339]);
   (340, [341]); (342, [343]); (344, [345]); (346, [347]); (348, [349]); (350, [351]);
   (352, [353]); (354, [355]); (356, [357]); (358, [359]); (360, [361]); (362, [363]);
   (364, [365]); (366, [367]); (368, [369]); (370, [371]); (372, [373]); (374, [375]);
   (376, [255]); (377, [378]); (379, [380]); (381, [382]); (385, [595]); (386, [387]);
   (388, [389]); (390, [596]); (391, [392]); (393, [598]); (394, [599]); (395, [396]);
   (398, [477]); (399, [601]); (400, [603]); (401, [402]); (403, [608]); (404, [611]);
   (406, [617]); (407, [616]); (408, [409]); (412, [623]); (413, [626]); (415, [629]);
   (416, [417]); (418, [419]); (420, [421]); (422, [640]); (423, [424]); (425, [643]);
   (428, [429]); (430, [648]); (431, [432]); (433, [650]); (434, [651]); (435, [436]);
   (437, [438]); (439, [658]); (440, [441]); (444, [445]); (452, [454]); (453, [454]);
   (455, [457]); (456, [457]); (458, [460]); (459, [460]); (461, [462]); (463, [464]);
   (465, [466]); (467, [468]); (469, [470]); (471, [472]); (473, [474]); (475, [476]);
   (478, [479]); (480, [481]); (482, [483]); (484, [485]); (486, [487]); (488, [489]);
   (490, [491]); (492, [493]); (494, [495]); (497, [499]); (498, [499]); (500, [501]);
   (502, [405]); (503, [447]); (504, [505]); (506, [507]); (508, [509]); (510, [511]);
   (512, [513]); (514, [515]); (516, [517]); (518, [519]); (520, [521]); (522, [523]);
   (524, [525]); (526, [527]); (528, [529]); (530, [531]); (532, [533]); (534, [535]);
   (536, [537]); (538, [539]); (540, [541]); (542, [543]); (544, [414]); (546, [547]);
   (548, [549]); (550, [551]); (552, [553]); (554, [555]); (556, [557]); (558, [559]);
   (560, [561]); (562, [563]); (570, [11365]); (571, [572]); (573, [410]); (574, [11366]);
   (577, [578]); (579, [384]); (580, [649]); (581, [652]); (582, [583]); (584, [585]);
   (586, [587]); (588, [589]); (590, [591]); (880, [881]); (882, [883]); (886, [887]);
   (895, [1011]); (902, [940]); (904, [941]); (905, [942]); (906, [943]); (908, [972]);
   (910, [973]); (911, [974]); (913, [945]); (914, [946]); (915, [947]); (916, [948]);
   (917, [949]); (918, [950]); (919, [951]); (920, [952]); (921, [953]); (922, [954]);
   (923, [955]); (924, [956]); (925, [957]); (926, [958]); (927, [959]); (928, [960]);
   (929, [961]); (931, [963]); (932, [964]); (933, [965]); (934, [966]); (935, [967]);
   (936, [968]); (937, [969]); (938, [970]); (939, [971]); (975, [983]); (984, [985]);
   (986, [987]); (988, [989]); (990, [991]); (992, [993]); (994, [995]); (996, [997]);
   (998, [999]); (1000, [1001]); (1002, [1003]); (1004, [1005]); (1006, [1007]);
   (1012, [952]); (1015, [1016]); (1017, [1010]); (1018, [1019]); (1021, [891]);
   (1022, [892]); (1023, [893]); (1024, [1104]); (1025, [1105]); (1026, [1106]);
   (1027, [1107]); (1028, [1108]); (1029, [1109]); (1030, [1110]); (1031, [1111]);
   (1032, [1112]); (1033, [1113]); (1034, [1114]); (1035, [1115]); (1036, [1116]);
   (1037, [1117]); (1038, [1118]); (1039, [1119]); (1040, [1072]); (1041, [1073]);
   (1042, [1074]); (1043, [1075]); (1044, [1076]); (1045, [1077]); (1046, [1078]);
   (1047, [1079]); (1048, [1080]); (1049, [1081]); (1050, [1082]); (1051, [1083]);
   (1052, [1084]); (1053, [1085]); (1054, [1086]); (1055, [1087]); (1056, [1088]);
   (1057, [1089]); (1058, [1090]); (1059, [1091]); (1060, [1092]); (1061, [1093]);
   (1062, [1094]); (1063, [1095]); (1064, [1096]); (1065, [1097]); (1066, [1098]);
   (1067, [1099]); (1068, [1100]); (1069, [1101]); (1070, [1102]); (1071, [1103]);
   (1120, [1121]); (1122, [1123]); (1124, [1125]); (1126, [1127]); (1128, [1129]);
   (1130, [1131]); (1132, [1133]); (1134, [1135]); (1136, [1137]); (1138, [1139]);
   (1140, [1141]); (1142, [1143]); (1144, [1145]); (1146, [1147]); (1148, [1149]);
   (1150, [1151]); (1152, [1153]); (1162, [1163]); (1164, [1165]); (1166, [1167]);
   (1168, [1169]); (1170, [1171]); (1172, [1173]); (1174, [1175]); (1176, [1177]);
   (1178, [1179]); (1180, [1181]); (1182, [1183]); (1184, [1185]); (1186, [1187]);
   (1188, [1189]); (1190, [1191]); (1192, [1193]); (1194, [1195]); (1196, [1197]);
   (1198, [1199]); (1200, [1201]); (1202, [1203]); (1204, [1205]); (1206, [1207]);
   (1208, [1209]); (1210, [1211]); (1212, [1213]); (1214, [1215]); (1216, [1231]);
   (1217, [1218]); (1219, [1220]); (1221, [1222]); (1223, [1224]); (1225, [1226]);
   (1227, [1228]); (1229, [1230]); (1232, [1233]); (1234, [1235]); (1236, [1237]);
   (1238, [1239]); (1240, [1241]); (1242, [1243]); (1244, [1245]); (1246, [1247]);
   (1248, [1249]); (1250, [1251]); (1252, [1253]); (1254, [1255]); (1256, [1257]);
   (1258, [1259]); (1260, [1261]); (1262, [1263]); (1264, [1265]); (1266, [1267]);
   (1268, [1269]); (1270, [1271]); (1272, [1273]); (1274, [1275]); (1276, [1277]);
   (1278, [1279]); (1280, [1281]); (1282, [1283]); (1284, [1285]); (1286, [1287]);
   (1288, [1289]); (1290, [1291]); (1292, [1293]); (1294, [1295]); (1296, [1297]);
   (1298, [1299]); (1300, [1301]); (1302, [1303]); (1304, [1305]); (1306, [1307]);
   (1308, [1309]); (1310, [1311]); (1312, [1313]); (1314, [1315]); (1316, [1317]);
   (1318, [1319]); (1320, [1321]); (1322, [1323]); (1324, [1325]); (1326, [1327]);
   (1329, [1377]); (1330, [1378]); (1331, [1379]); (1332, [1380]); (1333, [1381]);
   (1334, [1382]); (1335, [1383]); (1336, [1384]); (1337, [1385]); (1338, [1386]);
   (1339, [1387]); (1340, [1388]); (1341, [1389]); (1342, [1390]); (1343, [1391]);
   (1344, [1392]); (1345, [1393]); (1346, [1394]); (1347, [1395]); (1348, [1396]);
   (1349, [1397]); (1350, [1398]); (1351, [1399]); (1352, [1400]); (1353, [1401]);
   (1354, [1402]); (1355, [1403]); (1356, [1404]); (1357, [1405]); (1358, [1406]);
   (1359, [1407]); (1360, [1408]); (1361, [1409]); (1362, [1410]); (1363, [1411]);
   (1364, [1412]); (1365, [1413]); (1366, [1414]); (4256, [11520]); (4257, [11521]);
   (4258, [11522]); (4259, [11523]); (4260, [11524]); (4261, [11525]); (4262, [11526]);
   (4263, [11527]); (4264, [11528]); (4265, [11529]); (4266, [11530]); (4267, [11531]);
   (4268, [11532]); (4269, [11533]); (4270, [11534]); (4271, [11535]); (4272, [11536]);
   (4273, [11537]); (4274, [11538]); (4275, [11539]); (4276, [11540]); (4277, [11541]);
   (4278, [11542]); (4279, [11543]); (4280, [11544]); (4281, [11545]); (4282, [11546]);
   (4283, [11547]); (4284, [11548]); (4285, [11549]); (4286, [11550]); (4287, [11551]);
   (4288, [11552]); (4289, [11553]); (4290, [11554]); (4291, [11555]); (4292, [11556]);
   (4293, [11557]); (4295, [11559]); (4301, [11565]); (5024, [43888]); (5025, [43889]);
   (5026, [43890]); (5027, [43891]); (5028, [43892]); (5029, [43893]); (5030, [43894]);
   (5031, [43895]); (5032, [43896]); (5033, [43897]); (5034, [43898]); (5035, [43899]);
   (5036, [43900]); (5037, [43901]); (5038, [43902]); (5039, [43903]); (5040, [43904]);
   (5041, [43905]); (5042, [43906]); (5043, [43907]); (5044, [43908]); (5045, [43909]);
   (5046, [43910]); (5047, [43911]); (5048, [43912]); (5049, [43913]); (5050, [43914]);
   (5051, [43915]); (5052, [43916]); (5053, [43917]); (5054, [43918]); (5055, [43919]);
   (5056, [43920]); (5057, [43921]); (5058, [43922]); (5059, [43923]); (5060, [43924]);
   (5061, [43925]); (5062, [43926]); (5063, [43927]); (5064, [43928]); (5065, [43929]);
   (5066, [43930]); (5067, [43931]); (5068, [43932]); (5069, [43933]); (5070, [43934]);
   (5071, [43935]); (5072, [43936]); (5073, [43937]); (5074, [43938]); (5075, [43939]);
   (5076, [43940]); (5077, [43941]); (5078, [43942]); (5079, [43943]); (5080, [43944]);
   (5081, [43945]); (5082, [43946]); (5083, [43947]); (5084, [43948]); (5085, [43949]);
   (5086, [43950]); (5087, [43951]); (5088, [43952]); (5089, [43953]); (5090, [43954]);
   (5091, [43955]); (5092, [43956]); (5093, [43957]); (5094, [43958]); (5095, [43959]);
   (5096, [43960]); (5097, [43961]); (5098, [43962]); (5099, [43963]); (5100, [43964]);
   (5101, [43965]); (5102, [43966]); (5103, [43967]); (5104, [5112]); (5105, [5113]);
   (5106, [5114]); (5107, [5115]); (5108, [5116]); (5109, [5117]); (7312, [4304]);
   (7313, [4305]); (7314, [4306]); (7315, [4307]); (7316, [4308]); (7317, [4309]);
   (7318, [4310]); (7319, [4311]); (7320, [4312]); (7321, [4313]); (7322, [4314]);
   (7323, [4315]); (7324, [4316]); (7325, [4317]); (7326, [4318]); (7327, [4319]);
   (7328, [4320]); (7329, [4321]); (7330, [4322]); (7331, [4323]); (7332, [4324]);
   (7333, [4325]); (7334, [4326]); (7335, [4327]); (7336, [4328]); (7337, [4329]);
   (7338, [4330]); (7339, [4331]); (7340, [4332]); (7341, [4333]); (7342, [4334]);
   (7343, [4335]); (7344, [4336]); (7345, [4337]); (7346, [4338]); (7347, [4339]);
   (7348, [4340]); (7349, [4341]); (7350, [4342]); (7351, [4343]); (7352, [4344]);
   (7353, [4345]); (7354, [4346]); (7357, [4349]); (7358, [4350]); (7359, [4351]);
   (7680, [7681]); (7682, [7683]); (7684, [7685]); (7686, [7687]); (7688, [7689]);
   (7690, [7691]); (7692, [7693]); (7694, [7695]); (7696, [7697]); (7698, [7699]);
   (7700, [7701]); (7702, [7703]); (7704, [7705]); (7706, [7707]); (7708, [7709]);
   (7710, [7711]); (7712, [7713]); (7714, [7715]); (7716, [7717]); (7718, [7719]);
   (7720, [7721]); (7722, [7723]); (7724, [7725]); (7726, [7727]); (7728, [7729]);
   (7730, [7731]); (7732, [7733]); (7734, [7735]); (7736, [7737]); (7738, [7739]);
   (7740, [7741]); (7742, [7743]); (7744, [7745]); (7746, [7747]); (7748, [7749]);
   (7750, [7751]); (7752, [7753]); (7754, [7755]); (7756, [7757]); (7758, [7759]);
   (7760, [7761]); (7762, [7763]); (7764, [7765]); (7766, [7767]); (7768, [7769]);
   (7770, [7771]); (7772, [7773]); (7774, [7775]); (7776, [7777]); (7778, [7779]);
   (7780, [7781]); (7782, [7783]); (7784, [7785]); (7786, [7787]); (7788, [7789]);
   (7790, [7791]); (7792, [7793]); (7794, [7795]); (7796, [7797]); (7798, [7799]);
   (7800, [7801]); (7802, [7803]); (7804, [7805]); (7806, [7807]); (7808, [7809]);
   (7810, [7811]); (7812, [7813]); (7814, [7815]); (7816, [7817]); (7818, [7819]);
   (7820, [7821]); (7822, [7823]); (7824, [7825]); (7826, [7827]); (7828, [7829]);
   (7838, [223]); (7840, [7841]); (7842, [7843]); (7844, [7845]); (7846, [7847]);
   (7848, [7849]); (7850, [7851]); (7852, [7853]); (7854, [7855]); (7856, [7857]);
   (7858, [7859]); (7860, [7861]); (7862, [7863]); (7864, [7865]); (7866, [7867]);
   (7868, [7869]); (7870, [7871]); (7872, [7873]); (7874, [7875]); (7876, [7877]);
   (7878, [7879]); (7880, [7881]); (7882, [7883]); (7884, [7885]); (7886, [7887]);
   (7888, [7889]); (7890, [7891]); (7892, [7893]); (7894, [7895]); (7896, [7897]);
   (7898, [7899]); (7900, [7901]); (7902, [7903]); (7904, [7905]); (7906, [7907]);
   (7908, [7909]); (7910, [7911]); (7912, [7913]); (7914, [7915]); (7916, [7917]);
   (7918, [7919]); (7920, [7921]); (7922, [7923]); (7924, [7925]); (7926, [7927]);
   (7928, [7929]); (7930, [7931]); (7932, [7933]); (7934, [7935]); (7944, [7936]);
   (7945, [7937]); (7946, [7938]); (7947, [7939]); (7948, [7940]); (7949, [7941]);
   (7950, [7942]); (7951, [7943]); (7960, [7952]); (7961, [7953]); (7962, [7954]);
   (7963, [7955]); (7964, [7956]); (7965, [7957]); (7976, [7968]); (7977, [7969]);
   (7978, [7970]); (7979, [7971]); (7980, [7972]); (7981, [7973]); (7982, [7974]);
   (7983, [7975]); (7992, [7984]); (7993, [7985]); (7994, [7986]); (7995, [7987]);
   (7996, [7988]); (7997, [7989]); (7998, [7990]); (7999, [7991]); (8008, [8000]);
   (8009, [8001]); (8010, [8002]); (8011, [8003]); (8012, [8004]); (8013, [8005]);
   (8025, [8017]); (8027, [8019]); (8029, [8021]); (8031, [8023]); (8040, [8032]);
   (8041, [8033]); (8042, [8034]); (8043, [8035]); (8044, [8036]); (8045, [8037]);
   (8046, [8038]); (8047, [8039]); (8072, [8064]); (8073, [8065]); (8074, [8066]);
   (8075, [8067]); (8076, [8068]); (8077, [8069]); (8078, [8070]); (8079, [8071]);
   (8088, [8080]); (8089, [8081]); (8090, [8082]); (8091, [8083]); (8092, [8084]);
   (8093, [8085]); (8094, [8086]); (8095, [8087]); (8104, [8096]); (8105, [8097]);
   (8106, [8098]); (8107, [8099]); (8108, [8100]); (8109, [8101]); (8110, [8102]);
   (8111, [8103]); (8120, [8112]); (8121, [8113]); (8122, [8048]); (8123, [8049]);
   (8124, [8115]); (8136, [8050]); (8137, [8051]); (8138, [8052]); (8139, [8053]);
   (8140, [8131]); (8152, [8144]); (8153, [8145]); (8154, [8054]); (8155, [8055]);
   (8168, [8160]); (8169, [8161]); (8170, [8058]); (8171, [8059]); (8172, [8165]);
   (8184, [8056]); (8185, [8057]); (8186, [8060]); (8187, [8061]); (8188, [8179]);
   (8486, [969]); (8490, [107]); (8491, [229]); (8498, [8526]); (8544, [8560]);
   (8545, [8561]); (8546, [8562]); (8547, [8563]); (8548, [8564]); (8549, [8565]);
   (8550, [8566]); (8551, [8567]); (8552, [8568]); (8553, [8569]); (8554, [8570]);
   (8555, [8571]); (8556, [8572]); (8557, [8573]); (8558, [8574]); (8559, [8575]);
   (8579, [8580]); (9398, [9424]); (9399, [9425]); (9400, [9426]); (9401, [9427]);
   (9402, [9428]); (9403, [9429]); (9404, [9430]); (9405, [9431]); (9406, [9432]);
   (9407, [9433]); (9408, [9434]); (9409, [9435]); (9410, [9436]); (9411, [9437]);
   (9412, [9438]); (9413, [9439]); (9414, [9440]); (9415, [9441]); (9416, [9442]);
   (9417, [9443]); (9418, [9444]); (9419, [9445]); (9420, [9446]); (9421, [9447]);
   (9422, [9448]); (9423, [9449]); (11264, [11312]); (11265, [11313]); (11266, [11314]);
   (11267, [11315]); (11268, [11316]); (11269, [11317]); (11270, [11318]);
   (11271, [11319]); (11272, [11320]); (11273, [11321]); (11274, [11322]);
   (11275, [11323]); (11276, [11324]); (11277, [11325]); (11278, [11326]);
   (11279, [11327]); (11280, [11328]); (11281, [11329]); (11282, [11330]);
   (11283, [11331]); (11284, [11332]); (11285, [11333]); (11286, [11334]);
   (11287, [11335]); (11288, [11336]); (11289, [11337]); (11290, [11338]);
   (11291, [11339]); (11292, [11340]); (11293, [11341]); (11294, [11342]);
   (11295, [11343]); (11296, [11344]); (11297, [11345]); (11298, [11346]);
   (11299, [11347]); (11300, [11348]); (11301, [11349]); (11302, [11350]);
   (11303, [11351]); (11304, [11352]); (11305, [11353]); (11306, [11354]);
   (11307, [11355]); (11308, [11356]); (11309, [11357]); (11310, [11358]);
   (11311, [11359]); (11360, [11361]); (11362, [619]); (11363, [7549]); (11364, [637]);
   (11367, [11368]); (11369, [11370]); (11371, [11372]); (11373, [593]); (11374, [625]);
   (11375, [592]); (11376, [594]); (11378, [11379]); (11381, [11382]); (11390, [575]);
   (11391, [576]); (11392, [11393]); (11394, [11395]); (11396, [11397]); (11398, [11399]);
   (11400, [11401]); (11402, [11403]); (11404, [11405]); (11406, [11407]);
   (11408, [11409]); (11410, [11411]); (11412, [11413]); (11414, [11415]);
   (11416, [11417]); (11418, [11419]); (11420, [11421]); (11422, [11423]);
   (11424, [11425]); (11426, [11427]); (11428, [11429]); (11430, [11431]);
   (11432, [11433]); (11434, [11435]); (11436, [11437]); (11438, [11439]);
   (11440, [11441]); (11442, [11443]); (11444, [11445]); (11446, [11447]);
   (11448, [11449]); (11450, [11451]); (11452, [11453]); (11454, [11455]);
   (11456, [11457]); (11458, [11459]); (11460, [11461]); (11462, [11463]);
   (11464, [11465]); (11466, [11467]); (11468, [11469]); (11470, [11471]);
   (11472, [11473]); (11474, [11475]); (11476, [11477]); (11478, [11479]);
   (11480, [11481]); (11482, [11483]); (11484, [11485]); (11486, [11487]);
   (11488, [11489]); (11490, [11491]); (11499, [11500]); (11501, [11502]);
   (11506, [11507]); (42560, [42561]); (42562, [42563]); (42564, [42565]);
   (42566, [42567]); (42568, [42569]); (42570, [42571]); (42572, [42573]);
   (42574, [42575]); (42576, [42577]); (42578, [42579]); (42580, [42581]);
   (42582, [42583]); (42584, [42585]); (42586, [42587]); (42588, [42589]);
   (42590, [42591]); (42592, [42593]); (42594, [42595]); (42596, [42597]);
   (42598, [42599]); (42600, [42601]); (42602, [42603]); (42604, [42605]);
   (42624, [42625]); (42626, [42627]); (42628, [42629]); (42630, [42631]);
   (42632, [42633]); (42634, [42635]); (42636, [42637]); (42638, [42639]);
   (42640, [42641]); (42642, [42643]); (42644, [42645]); (42646, [42647]);
   (42648, [42649]); (42650, [42651]); (42786, [42787]); (42788, [42789]);
   (42790, [42791]); (42792, [42793]); (42794, [42795]); (42796, [42797]);
   (42798, [42799]); (42802, [42803]); (42804, [42805]); (42806, [42807]);
   (42808, [42809]); (42810, [42811]); (42812, [42813]); (42814, [42815]);
   (42816, [42817]); (42818, [42819]); (42820, [42821]); (42822, [42823]);
   (42824, [42825]); (42826, [42827]); (42828, [42829]); (42830, [42831]);
   (42832, [42833]); (42834, [42835]); (42836, [42837]); (42838, [42839]);
   (42840, [42841]); (42842, [42843]); (42844, [42845]); (42846, [42847]);
   (42848, [42849]); (42850, [42851]); (42852, [42853]); (42854, [42855]);
   (42856, [42857]); (42858, [42859]); (42860, [42861]); (42862, [42863]);
   (42873, [42874]); (42875, [42876]); (42877, [7545]); (42878, [42879]); (42880, [42881]);
   (42882, [42883]); (42884, [42885]); (42886, [42887]); (42891, [42892]); (42893, [613]);
   (42896, [42897]); (42898, [42899]); (42902, [42903]); (42904, [42905]);
   (42906, [42907]); (42908, [42909]); (42910, [42911]); (42912, [42913]);
   (42914, [42915]); (42916, [42917]); (42918, [42919]); (42920, [42921]); (42922, [614]);
   (42923, [604]); (42924, [609]); (42925, [620]); (42926, [618]); (42928, [670]);
   (42929, [647]); (42930, [669]); (42931, [43859]); (42932, [42933]); (42934, [42935]);
   (42936, [42937]); (42938, [42939]); (42940, [42941]); (42942, [42943]);
   (42944, [42945]); (42946, [42947]); (42948, [42900]); (42949, [642]); (42950, [7566]);
   (42951, [42952]); (42953, [42954]); (42960, [42961]); (42966, [42967]);
   (42968, [42969]); (42997, [42998]); (65313, [65345]); (65314, [65346]);
   (65315, [65347]); (65316, [65348]); (65317, [65349]); (65318, [65350]);
   (65319, [65351]); (65320, [65352]); (65321, [65353]); (65322, [65354]);
   (65323, [65355]); (65324, [65356]); (65325, [65357]); (65326, [65358]);
   (65327, [65359]); (65328, [65360]); (65329, [65361]); (65330, [65362]);
   (65331, [65363]); (65332, [65364]); (65333, [65365]); (65334, [65366]);
   (65335, [65367]); (65336, [65368]); (65337, [65369]); (65338, [65370]);
   (66560, [66600]); (66561, [66601]); (66562, [66602]); (66563, [66603]);
   (66564, [66604]); (66565, [66605]); (66566, [66606]); (66567, [66607]);
   (66568, [66608]); (66569, [66609]); (66570, [66610]); (66571, [66611]);
   (66572, [66612]); (66573, [66613]); (66574, [66614]); (66575, [66615]);
   (66576, [66616]); (66577, [66617]); (66578, [66618]); (66579, [66619]);
   (66580, [66620]); (66581, [66621]); (66582, [66622]); (66583, [66623]);
   (66584, [66624]); (66585, [66625]); (66586, [66626]); (66587, [66627]);
   (66588, [66628]); (66589, [66629]); (66590, [66630]); (66591, [66631]);
   (66592, [66632]); (66593, [66633]); (66594, [66634]); (66595, [66635]);
   (66596, [66636]); (66597, [66637]); (66598, [66638]); (66599, [66639]);
   (66736, [66776]); (66737, [66777]); (66738, [66778]); (66739, [66779]);
   (66740, [66780]); (66741, [66781]); (66742, [66782]); (66743, [66783]);
   (66744, [66784]); (66745, [66785]); (66746, [66786]); (66747, [66787]);
   (66748, [66788]); (66749, [66789]); (66750, [66790]); (66751, [66791]);
   (66752, [66792]); (66753, [66793]); (66754, [66794]); (66755, [66795]);
   (66756, [66796]); (66757, [66797]); (66758, [66798]); (66759, [66799]);
   (66760, [66800]); (66761, [66801]); (66762, [66802]); (66763, [66803]);
   (66764, [66804]); (66765, [66805]); (66766, [66806]); (66767, [66807]);
   (66768, [66808]); (66769, [66809]); (66770, [66810]); (66771, [66811]);
   (66928, [66967]); (66929, [66968]); (66930, [66969]); (66931, [66970]);
   (66932, [66971]); (66933, [66972]); (66934, [66973]); (66935, [66974]);
   (66936, [66975]); (66937, [66976]); (66938, [66977]); (66940, [66979]);
   (66941, [66980]); (66942, [66981]); (66943, [66982]); (66944, [66983]);
   (66945, [66984]); (66946, [66985]); (66947, [66986]); (66948, [66987]);
   (66949, [66988]); (66950, [66989]); (66951, [66990]); (66952, [66991]);
   (66953, [66992]); (66954, [66993]); (66956, [66995]); (66957, [66996]);
   (66958, [66997]); (66959, [66998]); (66960, [66999]); (66961, [67000]);
   (66962, [67001]); (66964, [67003]); (66965, [67004]); (68736, [68800]);
   (68737, [68801]); (68738, [68802]); (68739, [68803]); (68740, [68804]);
   (68741, [68805]); (68742, [68806]); (68743, [68807]); (68744, [68808]);
   (68745, [68809]); (68746, [68810]); (68747, [68811]); (68748, [68812]);
   (68749, [68813]); (68750, [68814]); (68751, [68815]); (68752, [68816]);
   (68753, [68817]); (68754, [68818]); (68755, [68819]); (68756, [68820]);
   (68757, [68821]); (68758, [68822]); (68759, [68823]); (68760, [68824]);
   (68761, [68825]); (68762, [68826]); (68763, [68827]); (68764, [68828]);
   (68765, [68829]); (68766, [68830]); (68767, [68831]); (68768, [68832]);
   (68769, [68833]); (68770, [68834]); (68771, [68835]); (68772, [68836]);
   (68773, [68837]); (68774, [68838]); (68775, [68839]); (68776, [68840]);
   (68777, [68841]); (68778, [68842]); (68779, [68843]); (68780, [68844]);
   (68781, [68845]); (68782, [68846]); (68783, [68847]); (68784, [68848]);
   (68785, [68849]); (68786, [68850]); (71840, [71872]); (71841, [71873]);
   (71842, [71874]); (71843, [71875]); (71844, [71876]); (71845, [71877]);
   (71846, [71878]); (71847, [71879]); (71848, [71880]); (71849, [71881]);
   (71850, [71882]); (71851, [71883]); (71852, [71884]); (71853, [71885]);
   (71854, [71886]); (71855, [71887]); (71856, [71888]); (71857, [71889]);
   (71858, [71890]); (71859, [71891]); (71860, [71892]); (71861, [71893]);
   (71862, [71894]); (71863, [71895]); (71864, [71896]); (71865, [71897]);
   (71866, [71898]); (71867, [71899]); (71868, [71900]); (71869, [71901]);
   (71870, [71902]); (71871, [71903]); (93760, [93792]); (93761, [93793]);
   (93762, [93794]); (93763, [93795]); (93764, [93796]); (93765, [93797]);
   (93766, [93798]); (93767, [93799]); (93768, [93800]); (93769, [93801]);
   (93770, [93802]); (93771, [93803]); (93772, [93804]); (93773, [93805]);
   (93774, [93806]); (93775, [93807]); (93776, [93808]); (93777, [93809]);
   (93778, [93810]); (93779, [93811]); (93780, [93812]); (93781, [93813]);
   (93782, [93814]); (93783, [93815]); (93784, [93816]); (93785, [93817]);
   (93786, [93818]); (93787, [93819]); (93788, [93820]); (93789, [93821]);
   (93790, [93822]); (93791, [93823]); (125184, [125218]); (125185, [125219]);
   (125186, [125220]); (125187, [125221]); (125188, [125222]); (125189, [125223]);
   (125190, [125224]); (125191, [125225]); (125192, [125226]); (125193, [125227]);
   (125194, [125228]); (125195, [125229]); (125196, [125230]); (125197, [125231]);
   (125198, [125232]); (125199, [125233]); (125200, [125234]); (125201, [125235]);
   (125202, [125236]); (125203, [125237]); (125204, [125238]); (125205, [125239]);
   (125206, [125240]); (125207, [125241]); (125208, [125242]); (125209, [125243]);
   (125210, [125244]); (125211, [125245]); (125212, [125246]); (125213, [125247]);
   (125214, [125248]); (125215, [125249]); (125216, [125250]); (125217, [125251])]%Z.

(** The code points that begin a word differently in [str.title], each with
    what it becomes. *)
Definition title_table : list (Z * list Z) :=
  [(97, [65]); (98, [66]); (99, [67]); (100, [68]); (101, [69]); (102, [70]); (103, [71]);
   (104, [72]); (105, [73]); (106, [74]); (107, [75]); (108, [76]); (109, [77]);
   (110, [78]); (111, [79]); (112, [80]); (113, [81]); (114, [82]); (115, [83]);
   (116, [84]); (117, [85]); (118, [86]); (119, [87]); (120, [88]); (121, [89]);
   (122, [90]); (181, [924]); (223, [83; 115]); (224, [192]); (225, [193]); (226, [194]);
   (227, [195]); (228, [196]); (229, [197]); (230, [198]); (231, [199]); (232, [200]);
   (233, [201]); (234, [202]); (235, [203]); (236, [204]); (237, [205]); (238, [206]);
   (239, [207]); (240, [208]); (241, [209]); (242, [210]); (243, [211]); (244, [212]);
   (245, [213]); (246, [214]); (248, [216]); (249, [217]); (250, [218]); (251, [219]);
   (252, [220]); (253, [221]); (254, [222]); (255, [376]); (257, [256]); (259, [258]);
   (261, [260]); (263, [262]); (265, [264]); (267, [266]); (269, [268]); (271, [270]);
   (273, [272]); (275, [274]); (277, [276]); (279, [278]); (281, [280]); (283, [282]);
   (285, [284]); (287, [286]); (289, [288]); (291, [290]); (293, [292]); (295, [294]);
   (297, [296]); (299, [298]); (301, [300]); (303, [302]); (305, [73]); (307, [306]);
   (309, [308]); (311, [310]); (314, [313]); (316, [315]); (318, [317]); (320, [319]);
   (322, [321]); (324, [323]); (326, [325]); (328, [327]); (329, [700; 78]); (331, [330]);
   (333, [332]); (335, [334]); (337, [336]); (339, [338]); (341, [340]); (343, [342]);
   (345, [344]); (347, [346]); (349, [348]); (351, [350]); (353, [352]); (355, [354]);
   (357, [356]); (359, [358]); (361, [360]); (363, [362]); (365, [364]); (367, [366]);
   (369, [368]); (371, [370]); (373, [372]); (375, [374]); (378, [377]); (380, [379]);
   (382, [381]); (383, [83]); (384, [579]); (387, [386]); (389, [388]); (392, [391]);
   (396, [395]); (402, [401]); (405, [502]); (409, [408]); (410, [573]); (414, [544]);
   (417, [416]); (419, [418]); (421, [420]); (424, [423]); (429, [428]); (432, [431]);
   (436, [435]); (438, [437]); (441, [440]); (445, [444]); (447, [503]); (452, [453]);
   (454, [453]); (455, [456]); (457, [456]); (458, [459]); (460, [459]); (462, [461]);
   (464, [463]); (466, [465]); (468, [467]); (470, [469]); (472, [471]); (474, [473]);
   (476, [475]); (477, [398]); (479, [478]); (481, [480]); (483, [482]); (485, [484]);
   (487, [486]); (489, [488]); (491, [490]); (493, [492]); (495, [494]); (496, [74; 780]);
   (497, [498]); (499, [498]); (501, [500]); (505, [504]); (507, [506]); (509, [508]);
   (511, [510]); (513, [512]); (515, [514]); (517, [516]); (519, [518]); (521, [520]);
   (523, [522]); (525, [524]); (527, [526]); (529, [528]); (531, [530]); (533, [532]);
   (535, [534]); (537, [536]); (539, [538]); (541, [540]); (543, [542]); (547, [546]);
   (549, [548]); (551, [550]); (553, [552]); (555, [554]); (557, [556]); (559, [558]);
   (561, [560]); (563, [562]); (572, [571]); (575, [11390]); (576, [11391]); (578, [577]);
   (583, [582]); (585, [584]); (587, [586]); (589, [588]); (591, [590]); (592, [11375]);
   (593, [11373]); (594, [11376]); (595, [385]); (596, [390]); (598, [393]); (599, [394]);
   (601, [399]); (603, [400]); (604, [42923]); (608, [403]); (609, [42924]); (611, [404]);
   (613, [42893]); (614, [42922]); (616, [407]); (617, [406]); (618, [42926]);
   (619, [11362]); (620, [42925]); (623, [412]); (625, [11374]); (626, [413]);
   (629, [415]); (637, [11364]); (640, [422]); (642, [42949]); (643, [425]);
   (647, [42929]); (648, [430]); (649, [580]); (650, [433]); (651, [434]); (652, [581]);
   (658, [439]); (669, [42930]); (670, [42928]); (837, [921]); (881, [880]); (883, [882]);
   (887, [886]); (891, [1021]); (892, [1022]); (893, [1023]); (912, [921; 776; 769]);
   (940, [902]); (941, [904]); (942, [905]); (943, [906]); (944, [933; 776; 769]);
   (945, [913]); (946, [914]); (947, [915]); (948, [916]); (949, [917]); (950, [918]);
   (951, [919]); (952, [920]); (953, [921]); (954, [922]); (955, [923]); (956, [924]);
   (957, [925]); (958, [926]); (959, [927]); (960, [928]); (961, [929]); (962, [931]);
   (963, [931]); (964, [932]); (965, [933]); (966, [934]); (967, [935]); (968, [936]);
   (969, [937]); (970, [938]); (971, [939]); (972, [908]); (973, [910]); (974, [911]);
   (976, [914]); (977, [920]); (981, [934]); (982, [928]); (983, [975]); (985, [984]);
   (987, [986]); (989, [988]); (991, [990]); (993, [992]); (995, [994]); (997, [996]);
   (999, [998]); (1001, [1000]); (1003, [1002]); (1005, [1004]); (1007, [1006]);
   (1008, [922]); (1009, [929]); (1010, [1017]); (1011, [895]); (1013, [917]);
   (1016, [1015]); (1019, [1018]); (1072, [1040]); (1073, [1041]); (1074, [1042]);
   (1075, [1043]); (1076, [1044]); (1077, [1045]); (1078, [1046]); (1079, [1047]);
   (1080, [1048]); (1081, [1049]); (1082, [1050]); (1083, [1051]); (1084, [1052]);
   (1085, [1053]); (1086, [1054]); (1087, [1055]); (1088, [1056]); (1089, [1057]);
   (1090, [1058]); (1091, [1059]); (1092, [1060]); (1093, [1061]); (1094, [1062]);
   (1095, [1063]); (1096, [1064]); (1097, [1065]); (1098, [1066]); (1099, [1067]);
   (1100, [1068]); (1101, [1069]); (1102, [1070]); (1103, [1071]); (1104, [1024]);
   (1105, [1025]); (1106, [1026]); (1107, [1027]); (1108, [1028]); (1109, [1029]);
   (1110, [1030]); (1111, [1031]); (1112, [1032]); (1113, [1033]); (1114, [1034]);
   (1115, [1035]); (1116, [1036]); (1117, [1037]); (1118, [1038]); (1119, [1039]);
   (1121, [1120]); (1123, [1122]); (1125, [1124]); (1127, [1126]); (1129, [1128]);
   (1131, [1130]); (1133, [1132]); (1135, [1134]); (1137, [1136]); (1139, [1138]);
   (1141, [1140]); (1143, [1142]); (1145, [1144]); (1147, [1146]); (1149, [1148]);
   (1151, [1150]); (1153, [1152]); (1163, [1162]); (1165, [1164]); (1167, [1166]);
   (1169, [1168]); (1171, [1170]); (1173, [1172]); (1175, [1174]); (1177, [1176]);
   (1179, [1178]); (1181, [1180]); (1183, [1182]); (1185, [1184]); (1187, [1186]);
   (1189, [1188]); (1191, [1190]); (1193, [1192]); (1195, [1194]); (1197, [1196]);
   (1199, [1198]); (1201, [1200]); (1203, [1202]); (1205, [1204]); (1207, [1206]);
   (1209, [1208]); (1211, [1210]); (1213, [1212]); (1215, [1214]); (1218, [1217]);
   (1220, [1219]); (1222, [1221]); (1224, [1223]); (1226, [1225]); (1228, [1227]);
   (1230, [1229]); (1231, [1216]); (1233, [1232]); (1235, [1234]); (1237, [1236]);
   (1239, [1238]); (1241, [1240]); (1243, [1242]); (1245, [1244]); (1247, [1246]);
   (1249, [1248]); (1251, [1250]); (1253, [1252]); (1255, [1254]); (1257, [1256]);
   (1259, [1258]); (1261, [1260]); (1263, [1262]); (1265, [1264]); (1267, [1266]);
   (1269, [1268]); (1271, [1270]); (1273, [1272]); (1275, [1274]); (1277, [1276]);
   (1279, [1278]); (1281, [1280]); (1283, [1282]); (1285, [1284]); (1287, [1286]);
   (1289, [1288]); (1291, [1290]); (1293, [1292]); (1295, [1294]); (1297, [1296]);
   (1299, [1298]); (1301, [1300]); (1303, [1302]); (1305, [1304]); (1307, [1306]);
   (1309, [1308]); (1311, [1310]); (1313, [1312]); (1315, [1314]); (1317, [1316]);
   (1319, [1318]); (1321, [1320]); (1323, [1322]); (1325, [1324]); (1327, [1326]);
   (1377, [1329]); (1378, [1330]); (1379, [1331]); (1380, [1332]); (1381, [1333]);
   (1382, [1334]); (1383, [1335]); (1384, [1336]); (1385, [1337]); (1386, [1338]);
   (1387, [1339]); (1388, [1340]); (1389, [1341]); (1390, [1342]); (1391, [1343]);
   (1392, [1344]); (1393, [1345]); (1394, [1346]); (1395, [1347]); (1396, [1348]);
   (1397, [1349]); (1398, [1350]); (1399, [1351]); (1400, [1352]); (1401, [1353]);
   (1402, [1354]); (1403, [1355]); (1404, [1356]); (1405, [1357]); (1406, [1358]);
   (1407, [1359]); (1408, [1360]); (1409, [1361]); (1410, [1362]); (1411, [1363]);
   (1412, [1364]); (1413, [1365]); (1414, [1366]); (1415, [1333; 1410]); (5112, [5104]);
   (5113, [5105]); (5114, [5106]); (5115, [5107]); (5116, [5108]); (5117, [5109]);
   (7296, [1042]); (7297, [1044]); (7298, [1054]); (7299, [1057]); (7300, [1058]);
   (7301, [1058]); (7302, [1066]); (7303, [1122]); (7304, [42570]); (7545, [42877]);
   (7549, [11363]); (7566, [42950]); (7681, [7680]); (7683, [7682]); (7685, [7684]);
   (7687, [7686]); (7689, [7688]); (7691, [7690]); (7693, [7692]); (7695, [7694]);
   (7697, [7696]); (7699, [7698]); (7701, [7700]); (7703, [7702]); (7705, [7704]);
   (7707, [7706]); (7709, [7708]); (7711, [7710]); (7713, [7712]); (7715, [7714]);
   (7717, [7716]); (7719, [7718]); (7721, [7720]); (7723, [7722]); (7725, [7724]);
   (7727, [7726]); (7729, [7728]); (7731, [7730]); (7733, [7732]); (7735, [7734]);
   (7737, [7736]); (7739, [7738]); (7741, [7740]); (7743, [7742]); (7745, [7744]);
   (7747, [7746]); (7749, [7748]); (7751, [7750]); (7753, [7752]); (7755, [7754]);
   (7757, [7756]); (7759, [7758]); (7761, [7760]); (7763, [7762]); (7765, [7764]);
   (7767, [7766]); (7769, [7768]); (7771, [7770]); (7773, [7772]); (7775, [7774]);
   (7777, [7776]); (7779, [7778]); (7781, [7780]); (7783, [7782]); (7785, [7784]);
   (7787, [7786]); (7789, [7788]); (7791, [7790]); (7793, [7792]); (7795, [7794]);
   (7797, [7796]); (7799, [7798]); (7801, [7800]); (7803, [7802]); (7805, [7804]);
   (7807, [7806]); (7809, [7808]); (7811, [7810]); (7813, [7812]); (7815, [7814]);
   (7817, [7816]); (7819, [7818]); (7821, [7820]); (7823, [7822]); (7825, [7824]);
   (7827, [7826]); (7829, [7828]); (7830, [72; 817]); (7831, [84; 776]); (7832, [87; 778]);
   (7833, [89; 778]); (7834, [65; 702]); (7835, [7776]); (7841, [7840]); (7843, [7842]);
   (7845, [7844]); (7847, [7846]); (7849, [7848]); (7851, [7850]); (7853, [7852]);
   (7855, [7854]); (7857, [7856]); (7859, [7858]); (7861, [7860]); (7863, [7862]);
   (7865, [7864]); (7867, [7866]); (7869, [7868]); (7871, [7870]); (7873, [7872]);
   (7875, [7874]); (7877, [7876]); (7879, [7878]); (7881, [7880]); (7883, [7882]);
   (7885, [7884]); (7887, [7886]); (7889, [7888]); (7891, [7890]); (7893, [7892]);
   (7895, [7894]); (7897, [7896]); (7899, [7898]); (7901, [7900]); (7903, [7902]);
   (7905, [7904]); (7907, [7906]); (7909, [7908]); (7911, [7910]); (7913, [7912]);
   (7915, [7914]); (7917, [7916]); (7919, [7918]); (7921, [7920]); (7923, [7922]);
   (7925, [7924]); (7927, [7926]); (7929, [7928]); (7931, [7930]); (7933, [7932]);
   (7935, [7934]); (7936, [7944]); (7937, [7945]); (7938, [7946]); (7939, [7947]);
   (7940, [7948]); (7941, [7949]); (7942, [7950]); (7943, [7951]); (7952, [7960]);
   (7953, [7961]); (7954, [7962]); (7955, [7963]); (7956, [7964]); (7957, [7965]);
   (7968, [7976]); (7969, [7977]); (7970, [7978]); (7971, [7979]); (7972, [7980]);
   (7973, [7981]); (7974, [7982]); (7975, [7983]); (7984, [7992]); (7985, [7993]);
   (7986, [7994]); (7987, [7995]); (7988, [7996]); (7989, [7997]); (7990, [7998]);
   (7991, [7999]); (8000, [8008]); (8001, [8009]); (8002, [8010]); (8003, [8011]);
   (8004, [8012]); (8005, [8013]); (8016, [933; 787]); (8017, [8025]);
   (8018, [933; 787; 768]); (8019, [8027]); (8020, [933; 787; 769]); (8021, [8029]);
   (8022, [933; 787; 834]); (8023, [8031]); (8032, [8040]); (8033, [8041]); (8034, [8042]);
   (8035, [8043]); (8036, [8044]); (8037, [8045]); (8038, [8046]); (8039, [8047]);
   (8048, [8122]); (8049, [8123]); (8050, [8136]); (8051, [8137]); (8052, [8138]);
   (8053, [8139]); (8054, [8154]); (8055, [8155]); (8056, [8184]); (8057, [8185]);
   (8058, [8170]); (8059, [8171]); (8060, [8186]); (8061, [8187]); (8064, [8072]);
   (8065, [8073]); (8066, [8074]); (8067, [8075]); (8068, [8076]); (8069, [8077]);
   (8070, [8078]); (8071, [8079]); (8080, [8088]); (8081, [8089]); (8082, [8090]);
   (8083, [8091]); (8084, [8092]); (8085, [8093]); (8086, [8094]); (8087, [8095]);
   (8096, [8104]); (8097, [8105]); (8098, [8106]); (8099, [8107]); (8100, [8108]);
   (8101, [8109]); (8102, [8110]); (8103, [8111]); (8112, [8120]); (8113, [8121]);
   (8114, [8122; 837]); (8115, [8124]); (8116, [902; 837]); (8118, [913; 834]);
   (8119, [913; 834; 837]); (8126, [921]); (8130, [8138; 837]); (8131, [8140]);
   (8132, [905; 837]); (8134, [919; 834]); (8135, [919; 834; 837]); (8144, [8152]);
   (8145, [8153]); (8146, [921; 776; 768]); (8147, [921; 776; 769]); (8150, [921; 834]);
   (8151, [921; 776; 834]); (8160, [8168]); (8161, [8169]); (8162, [933; 776; 768]);
   (8163, [933; 776; 769]); (8164, [929; 787]); (8165, [8172]); (8166, [933; 834]);
   (8167, [933; 776; 834]); (8178, [8186; 837]); (8179, [8188]); (8180, [911; 837]);
   (8182, [937; 834]); (8183, [937; 834; 837]); (8526, [8498]); (8560, [8544]);
   (8561, [8545]); (8562, [8546]); (8563, [8547]); (8564, [8548]); (8565, [8549]);
   (8566, [8550]); (8567, [8551]); (8568, [8552]); (8569, [8553]); (8570, [8554]);
   (8571, [8555]); (8572, [8556]); (8573, [8557]); (8574, [8558]); (8575, [8559]);
   (8580, [8579]); (9424, [9398]); (9425, [9399]); (9426, [9400]); (9427, [9401]);
   (9428, [9402]); (9429, [9403]); (9430, [9404]); (9431, [9405]); (9432, [9406]);
   (9433, [9407]); (9434, [9408]); (9435, [9409]); (9436, [9410]); (9437, [9411]);
   (9438, [9412]); (9439, [9413]); (9440, [9414]); (9441, [9415]); (9442, [9416]);
   (9443, [9417]); (9444, [9418]); (9445, [9419]); (9446, [9420]); (9447, [9421]);
   (9448, [9422]); (9449, [9423]); (11312, [11264]); (11313, [11265]); (11314, [11266]);
   (11315, [11267]); (11316, [11268]); (11317, [11269]); (11318, [11270]);
   (11319, [11271]); (11320, [11272]); (11321, [11273]); (11322, [11274]);
   (11323, [11275]); (11324, [11276]); (11325, [11277]); (11326, [11278]);
   (11327, [11279]); (11328, [11280]); (11329, [11281]); (11330, [11282]);
   (11331, [11283]); (11332, [11284]); (11333, [11285]); (11334, [11286]);
   (11335, [11287]); (11336, [11288]); (11337, [11289]); (11338, [11290]);
   (11339, [11291]); (11340, [11292]); (11341, [11293]); (11342, [11294]);
   (11343, [11295]); (11344, [11296]); (11345, [11297]); (11346, [11298]);
   (11347, [11299]); (11348, [11300]); (11349, [11301]); (11350, [11302]);
   (11351, [11303]); (11352, [11304]); (11353, [11305]); (11354, [11306]);
   (11355, [11307]); (11356, [11308]); (11357, [11309]); (11358, [11310]);
   (11359, [11311]); (11361, [11360]); (11365, [570]); (11366, [574]); (11368, [11367]);
   (11370, [11369]); (11372, [11371]); (11379, [11378]); (11382, [11381]);
   (11393, [11392]); (11395, [11394]); (11397, [11396]); (11399, [11398]);
   (11401, [11400]); (11403, [11402]); (11405, [11404]); (11407, [11406]);
   (11409, [11408]); (11411, [11410]); (11413, [11412]); (11415, [11414]);
   (11417, [11416]); (11419, [11418]); (11421, [11420]); (11423, [11422]);
   (11425, [11424]); (11427, [11426]); (11429, [11428]); (11431, [11430]);
   (11433, [11432]); (11435, [11434]); (11437, [11436]); (11439, [11438]);
   (11441, [11440]); (11443, [11442]); (11445, [11444]); (11447, [11446]);
   (11449, [11448]); (11451, [11450]); (11453, [11452]); (11455, [11454]);
   (11457, [11456]); (11459, [11458]); (11461, [11460]); (11463, [11462]);
   (11465, [11464]); (11467, [11466]); (11469, [11468]); (11471, [11470]);
   (11473, [11472]); (11475, [11474]); (11477, [11476]); (11479, [11478]);
   (11481, [11480]); (11483, [11482]); (11485, [11484]); (11487, [11486]);
   (11489, [11488]); (11491, [11490]); (11500, [11499]); (11502, [11501]);
   (11507, [11506]); (11520, [4256]); (11521, [4257]); (11522, [4258]); (11523, [4259]);
   (11524, [4260]); (11525, [4261]); (11526, [4262]); (11527, [4263]); (11528, [4264]);
   (11529, [4265]); (11530, [4266]); (11531, [4267]); (11532, [4268]); (11533, [4269]);
   (11534, [4270]); (11535, [4271]); (11536, [4272]); (11537, [4273]); (11538, [4274]);
   (11539, [4275]); (11540, [4276]); (11541, [4277]); (11542, [4278]); (11543, [4279]);
   (11544, [4280]); (11545, [4281]); (11546, [4282]); (11547, [4283]); (11548, [4284]);
   (11549, [4285]); (11550, [4286]); (11551, [4287]); (11552, [4288]); (11553, [4289]);
   (11554, [4290]); (11555, [4291]); (11556, [4292]); (11557, [4293]); (11559, [4295]);
   (11565, [4301]); (42561, [42560]); (42563, [42562]); (42565, [42564]); (42567, [42566]);
   (42569, [42568]); (42571, [42570]); (42573, [42572]); (42575, [42574]);
   (42577, [42576]); (42579, [42578]); (42581, [42580]); (42583, [42582]);
   (42585, [42584]); (42587, [42586]); (42589, [42588]); (42591, [42590]);
   (42593, [42592]); (42595, [42594]); (42597, [42596]); (42599, [42598]);
   (42601, [42600]); (42603, [42602]); (42605, [42604]); (42625, [42624]);
   (42627, [42626]); (42629, [42628]); (42631, [42630]); (42633, [42632]);
   (42635, [42634]); (42637, [42636]); (42639, [42638]); (42641, [42640]);
   (42643, [42642]); (42645, [42644]); (42647, [42646]); (42649, [42648]);
   (42651, [42650]); (42787, [42786]); (42789, [42788]); (42791, [42790]);
   (42793, [42792]); (42795, [42794]); (42797, [42796]); (42799, [42798]);
   (42803, [42802]); (42805, [42804]); (42807, [42806]); (42809, [42808]);
   (42811, [42810]); (42813, [42812]); (42815, [42814]); (42817, [42816]);
   (42819, [42818]); (42821, [42820]); (42823, [42822]); (42825, [42824]);
   (42827, [42826]); (42829, [42828]); (42831, [42830]); (42833, [42832]);
   (42835, [42834]); (42837, [42836]); (42839, [42838]); (42841, [42840]);
   (42843, [42842]); (42845, [42844]); (42847, [42846]); (42849, [42848]);
   (42851, [42850]); (42853, [42852]); (42855, [42854]); (42857, [42856]);
   (42859, [42858]); (42861, [42860]); (42863, [42862]); (42874, [42873]);
   (42876, [42875]); (42879, [42878]); (42881, [42880]); (42883, [42882]);
   (42885, [42884]); (42887, [42886]); (42892, [42891]); (42897, [42896]);
   (42899, [42898]); (42900, [42948]); (42903, [42902]); (42905, [42904]);
   (42907, [42906]); (42909, [42908]); (42911, [42910]); (42913, [42912]);
   (42915, [42914]); (42917, [42916]); (42919, [42918]); (42921, [42920]);
   (42933, [42932]); (42935, [42934]); (42937, [42936]); (42939, [42938]);
   (42941, [42940]); (42943, [42942]); (42945, [42944]); (42947, [42946]);
   (42952, [42951]); (42954, [42953]); (42961, [42960]); (42967, [42966]);
   (42969, [42968]); (42998, [42997]); (43859, [42931]); (43888, [5024]); (43889, [5025]);
   (43890, [5026]); (43891, [5027]); (43892, [5028]); (43893, [5029]); (43894, [5030]);
   (43895, [5031]); (43896, [5032]); (43897, [5033]); (43898, [5034]); (43899, [5035]);
   (43900, [5036]); (43901, [5037]); (43902, [5038]); (43903, [5039]); (43904, [5040]);
   (43905, [5041]); (43906, [5042]); (43907, [5043]); (43908, [5044]); (43909, [5045]);
   (43910, [5046]); (43911, [5047]); (43912, [5048]); (43913, [5049]); (43914, [5050]);
   (43915, [5051]); (43916, [5052]); (43917, [5053]); (43918, [5054]); (43919, [5055]);
   (43920, [5056]); (43921, [5057]); (43922, [5058]); (43923, [5059]); (43924, [5060]);
   (43925, [5061]); (43926, [5062]); (43927, [5063]); (43928, [5064]); (43929, [5065]);
   (43930, [5066]); (43931, [5067]); (43932, [5068]); (43933, [5069]); (43934, [5070]);
   (43935, [5071]); (43936, [5072]); (43937, [5073]); (43938, [5074]); (43939, [5075]);
   (43940, [5076]); (43941, [5077]); (43942, [5078]); (43943, [5079]); (43944, [5080]);
   (43945, [5081]); (43946, [5082]); (43947, [5083]); (43948, [5084]); (43949, [5085]);
   (43950, [5086]); (43951, [5087]); (43952, [5088]); (43953, [5089]); (43954, [5090]);
   (43955, [5091]); (43956, [5092]); (43957, [5093]); (43958, [5094]); (43959, [5095]);
   (43960, [5096]); (43961, [5097]); (43962, [5098]); (43963, [5099]); (43964, [5100]);
   (43965, [5101]); (43966, [5102]); (43967, [5103]); (64256, [70; 102]);
   (64257, [70; 105]); (64258, [70; 108]); (64259, [70; 102; 105]);
   (64260, [70; 102; 108]); (64261, [83; 116]); (64262, [83; 116]); (64275, [1348; 1398]);
   (64276, [1348; 1381]); (64277, [1348; 1387]); (64278, [1358; 1398]);
   (64279, [1348; 1389]); (65345, [65313]); (65346, [65314]); (65347, [65315]);
   (65348, [65316]); (65349, [65317]); (65350, [65318]); (65351, [65319]);
   (65352, [65320]); (65353, [65321]); (65354, [65322]); (65355, [65323]);
   (65356, [65324]); (65357, [65325]); (65358, [65326]); (65359, [65327]);
   (65360, [65328]); (65361, [65329]); (65362, [65330]); (65363, [65331]);
   (65364, [65332]); (65365, [65333]); (65366, [65334]); (65367, [65335]);
   (65368, [65336]); (65369, [65337]); (65370, [65338]); (66600, [66560]);
   (66601, [66561]); (66602, [66562]); (66603, [66563]); (66604, [66564]);
   (66605, [66565]); (66606, [66566]); (66607, [66567]); (66608, [66568]);
   (66609, [66569]); (66610, [66570]); (66611, [66571]); (66612, [66572]);
   (66613, [66573]); (66614, [66574]); (66615, [66575]); (66616, [66576]);
   (66617, [66577]); (66618, [66578]); (66619, [66579]); (66620, [66580]);
   (66621, [66581]); (66622, [66582]); (66623, [66583]); (66624, [66584]);
   (66625, [66585]); (66626, [66586]); (66627, [66587]); (66628, [66588]);
   (66629, [66589]); (66630, [66590]); (66631, [66591]); (66632, [66592]);
   (66633, [66593]); (66634, [66594]); (66635, [66595]); (66636, [66596]);
   (66637, [66597]); (66638, [66598]); (66639, [66599]); (66776, [66736]);
   (66777, [66737]); (66778, [66738]); (66779, [66739]); (66780, [66740]);
   (66781, [66741]); (66782, [66742]); (66783, [66743]); (66784, [66744]);
   (66785, [66745]); (66786, [66746]); (66787, [66747]); (66788, [66748]);
   (66789, [66749]); (66790, [66750]); (66791, [66751]); (66792, [66752]);
   (66793, [66753]); (66794, [66754]); (66795, [66755]); (66796, [66756]);
   (66797, [66757]); (66798, [66758]); (66799, [66759]); (66800, [66760]);
   (66801, [66761]); (66802, [66762]); (66803, [66763]); (66804, [66764]);
   (66805, [66765]); (66806, [66766]); (66807, [66767]); (66808, [66768]);
   (66809, [66769]); (66810, [66770]); (66811, [66771]); (66967, [66928]);
   (66968, [66929]); (66969, [66930]); (66970, [66931]); (66971, [66932]);
   (66972, [66933]); (66973, [66934]); (66974, [66935]); (66975, [66936]);
   (66976, [66937]); (66977, [66938]); (66979, [66940]); (66980, [66941]);
   (66981, [66942]); (66982, [66943]); (66983, [66944]); (66984, [66945]);
   (66985, [66946]); (66986, [66947]); (66987, [66948]); (66988, [66949]);
   (66989, [66950]); (66990, [66951]); (66991, [66952]); (66992, [66953]);
   (66993, [66954]); (66995, [66956]); (66996, [66957]); (66997, [66958]);
   (66998, [66959]); (66999, [66960]); (67000, [66961]); (67001, [66962]);
   (67003, [66964]); (67004, [66965]); (68800, [68736]); (68801, [68737]);
   (68802, [68738]); (68803, [68739]); (68804, [68740]); (68805, [68741]);
   (68806, [68742]); (68807, [68743]); (68808, [68744]); (68809, [68745]);
   (68810, [68746]); (68811, [68747]); (68812, [68748]); (68813, [68749]);
   (68814, [68750]); (68815, [68751]); (68816, [68752]); (68817, [68753]);
   (68818, [68754]); (68819, [68755]); (68820, [68756]); (68821, [68757]);
   (68822, [68758]); (68823, [68759]); (68824, [68760]); (68825, [68761]);
   (68826, [68762]); (68827, [68763]); (68828, [68764]); (68829, [68765]);
   (68830, [68766]); (68831, [68767]); (68832, [68768]); (68833, [68769]);
   (68834, [68770]); (68835, [68771]); (68836, [68772]); (68837, [68773]);
   (68838, [68774]); (68839, [68775]); (68840, [68776]); (68841, [68777]);
   (68842, [68778]); (68843, [68779]); (68844, [68780]); (68845, [68781]);
   (68846, [68782]); (68847, [68783]); (68848, [68784]); (68849, [68785]);
   (68850, [68786]); (71872, [71840]); (71873, [71841]); (71874, [71842]);
   (71875, [71843]); (71876, [71844]); (71877, [71845]); (71878, [71846]);
   (71879, [71847]); (71880, [71848]); (71881, [71849]); (71882, [71850]);
   (71883, [71851]); (71884, [71852]); (71885, [71853]); (71886, [71854]);
   (71887, [71855]); (71888, [71856]); (71889, [71857]); (71890, [71858]);
   (71891, [71859]); (71892, [71860]); (71893, [71861]); (71894, [71862]);
   (71895, [71863]); (71896, [71864]); (71897, [71865]); (71898, [71866]);
   (71899, [71867]); (71900, [71868]); (71901, [71869]); (71902, [71870]);
   (71903, [71871]); (93792, [93760]); (93793, [93761]); (93794, [93762]);
   (93795, [93763]); (93796, [93764]); (93797, [93765]); (93798, [93766]);
   (93799, [93767]); (93800, [93768]); (93801, [93769]); (93802, [93770]);
   (93803, [93771]); (93804, [93772]); (93805, [93773]); (93806, [93774]);
   (93807, [93775]); (93808, [93776]); (93809, [93777]); (93810, [93778]);
   (93811, [93779]); (93812, [93780]); (93813, [93781]); (93814, [93782]);
   (93815, [93783]); (93816, [93784]); (93817, [93785]); (93818, [93786]);
   (93819, [93787]); (93820, [93788]); (93821, [93789]); (93822, [93790]);
   (93823, [93791]); (125218, [125184]); (125219, [125185]); (125220, [125186]);
   (125221, [125187]); (125222, [125188]); (125223, [125189]); (125224, [125190]);
   (125225, [125191]); (125226, [125192]); (125227, [125193]); (125228, [125194]);
   (125229, [125195]); (125230, [125196]); (125231, [125197]); (125232, [125198]);
   (125233, [125199]); (125234, [125200]); (125235, [125201]); (125236, [125202]);
   (125237, [125203]); (125238, [125204]); (125239, [125205]); (125240, [125206]);
   (125241, [125207]); (125242, [125208]); (125243, [125209]); (125244, [125210]);
   (125245, [125211]); (125246, [125212]); (125247, [125213]); (125248, [125214]);
   (125249, [125215]); (125250, [125216]); (125251, [125217])]%Z.

(** The cased code points, as inclusive ranges. *)
Definition cased_ranges : list (Z * Z) :=
  [(65, 90); (97, 122); (170, 170); (181, 181); (186, 186); (192, 214); (216, 246);
   (248, 442); (444, 447); (452, 659); (661, 696); (704, 705); (736, 740); (837, 837);
   (880, 883); (886, 887); (890, 893); (895, 895); (902, 902); (904, 906); (908, 908);
   (910, 929); (931, 1013); (1015, 1153); (1162, 1327); (1329, 1366); (1376, 1416);
   (4256, 4293); (4295, 4295); (4301, 4301); (4304, 4346); (4349, 4351); (5024, 5109);
   (5112, 5117); (7296, 7304); (7312, 7354); (7357, 7359); (7424, 7615); (7680, 7957);
   (7960, 7965); (7968, 8005); (8008, 8013); (8016, 8023); (8025, 8025); (8027, 8027);
   (8029, 8029); (8031, 8061); (8064, 8116); (8118, 8124); (8126, 8126); (8130, 8132);
   (8134, 8140); (8144, 8147); (8150, 8155); (8160, 8172); (8178, 8180); (8182, 8188);
   (8305, 8305); (8319, 8319); (8336, 8348); (8450, 8450); (8455, 8455); (8458, 8467);
   (8469, 8469); (8473, 8477); (8484, 8484); (8486, 8486); (8488, 8488); (8490, 8493);
   (8495, 8500); (8505, 8505); (8508, 8511); (8517, 8521); (8526, 8526); (8544, 8575);
   (8579, 8580); (9398, 9449); (11264, 11492); (11499, 11502); (11506, 11507);
   (11520, 11557); (11559, 11559); (11565, 11565); (42560, 42605); (42624, 42653);
   (42786, 42887); (42891, 42894); (42896, 42954); (42960, 42961); (42963, 42963);
   (42965, 42969); (42997, 42998); (43000, 43002); (43824, 43866); (43868, 43880);
   (43888, 43967); (64256, 64262); (64275, 64279); (65313, 65338); (65345, 65370);
   (66560, 66639); (66736, 66771); (66776, 66811); (66928, 66938); (66940, 66954);
   (66956, 66962); (66964, 66965); (66967, 66977); (66979, 66993); (66995, 67001);
   (67003, 67004); (67456, 67456); (67459, 67461); (67463, 67504); (67506, 67514);
   (68736, 68786); (68800, 68850); (71840, 71903); (93760, 93823); (119808, 119892);
   (119894, 119964); (119966, 119967); (119970, 119970); (119973, 119974);
   (119977, 119980); (119982, 119993); (119995, 119995); (119997, 120003);
   (120005, 120069); (120071, 120074); (120077, 120084); (120086, 120092);
   (120094, 120121); (120123, 120126); (120128, 120132); (120134, 120134);
   (120138, 120144); (120146, 120485); (120488, 120512); (120514, 120538);
   (120540, 120570); (120572, 120596); (120598, 120628); (120630, 120654);
   (120656, 120686); (120688, 120712); (120714, 120744); (120746, 120770);
   (120772, 120779); (122624, 122633); (122635, 122654); (125184, 125251);
   (127280, 127305); (127312, 127337); (127344, 127369)]%Z.

(** The case-ignorable code points, as inclusive ranges. *)
Definition case_ignorable_ranges : list (Z * Z) :=
  [(39, 39); (46, 46); (58, 58); (94, 94); (96, 96); (168, 168); (173, 173); (175, 175);
   (180, 180); (183, 184); (688, 879); (884, 885); (890, 890); (900, 901); (903, 903);
   (1155, 1161); (1369, 1369); (1375, 1375); (1425, 1469); (1471, 1471); (1473, 1474);
   (1476, 1477); (1479, 1479); (1524, 1524); (1536, 1541); (1552, 1562); (1564, 1564);
   (1600, 1600); (1611, 1631); (1648, 1648); (1750, 1757); (1759, 1768); (1770, 1773);
   (1807, 1807); (1809, 1809); (1840, 1866); (1958, 1968); (2027, 2037); (2042, 2042);
   (2045, 2045); (2070, 2093); (2137, 2139); (2184, 2184); (2192, 2193); (2200, 2207);
   (2249, 2306); (2362, 2362); (2364, 2364); (2369, 2376); (2381, 2381); (2385, 2391);
   (2402, 2403); (2417, 2417); (2433, 2433); (2492, 2492); (2497, 2500); (2509, 2509);
   (2530, 2531); (2558, 2558); (2561, 2562); (2620, 2620); (2625, 2626); (2631, 2632);
   (2635, 2637); (2641, 2641); (2672, 2673); (2677, 2677); (2689, 2690); (2748, 2748);
   (2753, 2757); (2759, 2760); (2765, 2765); (2786, 2787); (2810, 2815); (2817, 2817);
   (2876, 2876); (2879, 2879); (2881, 2884); (2893, 2893); (2901, 2902); (2914, 2915);
   (2946, 2946); (3008, 3008); (3021, 3021); (3072, 3072); (3076, 3076); (3132, 3132);
   (3134, 3136); (3142, 3144); (3146, 3149); (3157, 3158); (3170, 3171); (3201, 3201);
   (3260, 3260); (3263, 3263); (3270, 3270); (3276, 3277); (3298, 3299); (3328, 3329);
   (3387, 3388); (3393, 3396); (3405, 3405); (3426, 3427); (3457, 3457); (3530, 3530);
   (3538, 3540); (3542, 3542); (3633, 3633); (3636, 3642); (3654, 3662); (3761, 3761);
   (3764, 3772); (3782, 3782); (3784, 3789); (3864, 3865); (3893, 3893); (3895, 3895);
   (3897, 3897); (3953, 3966); (3968, 3972); (3974, 3975); (3981, 3991); (3993, 4028);
   (4038, 4038); (4141, 4144); (4146, 4151); (4153, 4154); (4157, 4158); (4184, 4185);
   (4190, 4192); (4209, 4212); (4226, 4226); (4229, 4230); (4237, 4237); (4253, 4253);
   (4348, 4348); (4957, 4959); (5906, 5908); (5938, 5939); (5970, 5971); (6002, 6003);
   (6068, 6069); (6071, 6077); (6086, 6086); (6089, 6099); (6103, 6103); (6109, 6109);
   (6155, 6159); (6211, 6211); (6277, 6278); (6313, 6313); (6432, 6434); (6439, 6440);
   (6450, 6450); (6457, 6459); (6679, 6680); (6683, 6683); (6742, 6742); (6744, 6750);
   (6752, 6752); (6754, 6754); (6757, 6764); (6771, 6780); (6783, 6783); (6823, 6823);
   (6832, 6862); (6912, 6915); (6964, 6964); (6966, 6970); (6972, 6972); (6978, 6978);
   (7019, 7027); (7040, 7041); (7074, 7077); (7080, 7081); (7083, 7085); (7142, 7142);
   (7144, 7145); (7149, 7149); (7151, 7153); (7212, 7219); (7222, 7223); (7288, 7293);
   (7376, 7378); (7380, 7392); (7394, 7400); (7405, 7405); (7412, 7412); (7416, 7417);
   (7468, 7530); (7544, 7544); (7579, 7679); (8125, 8125); (8127, 8129); (8141, 8143);
   (8157, 8159); (8173, 8175); (8189, 8190); (8203, 8207); (8216, 8217); (8228, 8228);
   (8231, 8231); (8234, 8238); (8288, 8292); (8294, 8303); (8305, 8305); (8319, 8319);
   (8336, 8348); (8400, 8432); (11388, 11389); (11503, 11505); (11631, 11631);
   (11647, 11647); (11744, 11775); (11823, 11823); (12293, 12293); (12330, 12333);
   (12337, 12341); (12347, 12347); (12441, 12446); (12540, 12542); (40981, 40981);
   (42232, 42237); (42508, 42508); (42607, 42610); (42612, 42621); (42623, 42623);
   (42652, 42655); (42736, 42737); (42752, 42785); (42864, 42864); (42888, 42890);
   (42994, 42996); (43000, 43001); (43010, 43010); (43014, 43014); (43019, 43019);
   (43045, 43046); (43052, 43052); (43204, 43205); (43232, 43249); (43263, 43263);
   (43302, 43309); (43335, 43345); (43392, 43394); (43443, 43443); (43446, 43449);
   (43452, 43453); (43471, 43471); (43493, 43494); (43561, 43566); (43569, 43570);
   (43573, 43574); (43587, 43587); (43596, 43596); (43632, 43632); (43644, 43644);
   (43696, 43696); (43698, 43700); (43703, 43704); (43710, 43711); (43713, 43713);
   (43741, 43741); (43756, 43757); (43763, 43764); (43766, 43766); (43867, 43871);
   (43881, 43883); (44005, 44005); (44008, 44008); (44013, 44013); (64286, 64286);
   (64434, 64450); (65024, 65039); (65043, 65043); (65056, 65071); (65106, 65106);
   (65109, 65109); (65279, 65279); (65287, 65287); (65294, 65294); (65306, 65306);
   (65342, 65342); (65344, 65344); (65392, 65392); (65438, 65439); (65507, 65507);
   (65529, 65531); (66045, 66045); (66272, 66272); (66422, 66426); (67456, 67461);
   (67463, 67504); (67506, 67514); (68097, 68099); (68101, 68102); (68108, 68111);
   (68152, 68154); (68159, 68159); (68325, 68326); (68900, 68903); (69291, 69292);
   (69446, 69456); (69506, 69509); (69633, 69633); (69688, 69702); (69744, 69744);
   (69747, 69748); (69759, 69761); (69811, 69814); (69817, 69818); (69821, 69821);
   (69826, 69826); (69837, 69837); (69888, 69890); (69927, 69931); (69933, 69940);
   (70003, 70003); (70016, 70017); (70070, 70078); (70089, 70092); (70095, 70095);
   (70191, 70193); (70196, 70196); (70198, 70199); (70206, 70206); (70367, 70367);
   (70371, 70378); (70400, 70401); (70459, 70460); (70464, 70464); (70502, 70508);
   (70512, 70516); (70712, 70719); (70722, 70724); (70726, 70726); (70750, 70750);
   (70835, 70840); (70842, 70842); (70847, 70848); (70850, 70851); (71090, 71093);
   (71100, 71101); (71103, 71104); (71132, 71133); (71219, 71226); (71229, 71229);
   (71231, 71232); (71339, 71339); (71341, 71341); (71344, 71349); (71351, 71351);
   (71453, 71455); (71458, 71461); (71463, 71467); (71727, 71735); (71737, 71738);
   (71995, 71996); (71998, 71998); (72003, 72003); (72148, 72151); (72154, 72155);
   (72160, 72160); (72193, 72202); (72243, 72248); (72251, 72254); (72263, 72263);
   (72273, 72278); (72281, 72283); (72330, 72342); (72344, 72345); (72752, 72758);
   (72760, 72765); (72767, 72767); (72850, 72871); (72874, 72880); (72882, 72883);
   (72885, 72886); (73009, 73014); (73018, 73018); (73020, 73021); (73023, 73029);
   (73031, 73031); (73104, 73105); (73109, 73109); (73111, 73111); (73459, 73460);
   (78896, 78904); (92912, 92916); (92976, 92982); (92992, 92995); (94031, 94031);
   (94095, 94111); (94176, 94177); (94179, 94180); (110576, 110579); (110581, 110587);
   (110589, 110590); (113821, 113822); (113824, 113827); (118528, 118573);
   (118576, 118598); (119143, 119145); (119155, 119170); (119173, 119179);
   (119210, 119213); (119362, 119364); (121344, 121398); (121403, 121452);
   (121461, 121461); (121476, 121476); (121499, 121503); (121505, 121519);
   (122880, 122886); (122888, 122904); (122907, 122913); (122915, 122916);
   (122918, 122922); (123184, 123197); (123566, 123566); (123628, 123631);
   (125136, 125142); (125252, 125259); (127995, 127999); (917505, 917505);
   (917536, 917631); (917760, 917999)]%Z.

Definition in_ranges (ranges : list (Z * Z)) (c : Z) : bool :=
  existsb (λ r, (r.1 <=? c) && (c <=? r.2)) ranges.

Definition assoc (table : list (Z * list Z)) (c : Z) : option (list Z) :=
  snd <$> List.find (λ entry, entry.1 =? c) table.

Definition iscased (c : Z) : bool := in_ranges cased_ranges c.

Definition iscaseignorable (c : Z) : bool := in_ranges case_ignorable_ranges c.

Definition lower_full (c : Z) : list Z := default [c] (assoc lower_table c).

Definition title_full (c : Z) : list Z := default [c] (assoc title_table c).

(** The code points on which [str.split] splits, those of [str.isspace]. *)
Definition whitespace : list Z :=
  [9; 10; 11; 12; 13; 28; 29; 30; 31; 32; 133; 160; 5760; 8192; 8193; 8194; 8195; 8196;
   8197; 8198; 8199; 8200; 8201; 8202; 8232; 8233; 8239; 8287; 12288].

Definition isspace (c : Z) : bool := existsb (Z.eqb c) whitespace.

(** The capital sigma lowers to the final sigma when a cased letter comes
    before it and none after it, case-ignorable code points skipped on both
    sides.  [before] tells whether the nearest code point before that is not
    case-ignorable is cased. *)
Fixpoint followed_by_cased (rest : list Z) : bool :=
  match rest with
  | [] => false
  | c :: rest' => if iscaseignorable c then followed_by_cased rest' else iscased c
  end.

Definition next_before (before : bool) (c : Z) : bool :=
  if iscaseignorable c then before else iscased c.

Definition lower_at (before : bool) (c : Z) (rest : list Z) : list Z :=
  if c =? 931
  then [if before && negb (followed_by_cased rest) then 962 else 963]
  else lower_full c.

Fixpoint lower_from (before : bool) (u : list Z) : list Z :=
  match u with
  | [] => []
  | c :: rest => lower_at before c rest ++ lower_from (next_before before c) rest
  end.

(** [s.title()]: a code point is lower-cased when the one before it is
    cased, and title-cased otherwise. *)
Fixpoint title_from (previous_is_cased before : bool) (u : list Z) : list Z :=
  match u with
  | [] => []
  | c :: rest =>
      (if previous_is_cased then lower_at before c rest else title_full c)
      ++ title_from (iscased c) (next_before before c) rest
  end.

(** The token being read is closed when a whitespace code point or the end
    of the string is reached; an empty token is never produced. *)
Definition flush (tok : list Z) : list (list Z) :=
  match tok with
  | [] => []
  | _ => [tok]
  end.

Fixpoint split_from (tok : list Z) (u : list Z) : list (list Z) :=
  match u with
  | [] => flush tok
  | c :: rest =>
      if isspace c then flush tok ++ split_from [] rest
      else split_from (tok ++ [c]) rest
  end.

(** [s.lower()] *)
Definition lower (s : string) : string := encode (lower_from false (decode s)).

(** [s.split()] with no separator: runs of whitespace separate tokens,
    leading and trailing whitespace is dropped. *)
Definition split (s : string) : list string := encode <$> split_from [] (decode s).

(** [s.title()] *)
Definition title (s : string) : string := encode (title_from false false (decode s)).

(** Vocabulary on code points: a scalar value in range; a code point that
    [lower] leaves as it is wherever it stands; a string of ASCII
    characters. *)
Definition is_valid (c : Z) : bool := (0 <=? c) && (c <=? 1114111).

Definition lower_fixed (c : Z) : bool :=
  negb (c =? 931) && match assoc lower_table c with None => true | Some _ => false end.

Definition isascii (s : string) : bool := forallb (λ c, c <? 128) (decode s).

End PyStr.

(** ** The name matcher

    Both handlers compare two names with
    [set(name.lower() for name in a.split()) == set(name.lower() for name in b.split())]. *)

Definition name_parts (name : string) : gset string :=
  list_to_set (PyStr.lower <$> PyStr.split name).

Definition name_match (stored incoming : string) : bool :=
  bool_decide (name_parts stored = name_parts incoming).

(** The matcher in the words of the specification: lower-case the whole
    name, then split it on whitespace; two names match when every token of
    one is a token of the other. *)
Definition spec_tokens (name : string) : list string :=
  PyStr.split (PyStr.lower name).

Definition spec_matches (a b : string) : Prop :=
  ∀ t : string, t ∈ spec_tokens a ↔ t ∈ spec_tokens b.

(** ** The clock: [datetime.now().strftime(...)]

    A naive [datetime] as the fields the format reads.  The weekday is the
    one of the proleptic Gregorian calendar, as [date.weekday()] computes it
    from [date.toordinal()]; names are those of the C locale. *)

Module PyDatetime.

Local Open Scope Z_scope.

Record datetime := {
  year : Z;
  month : Z;
  day : Z;
  hour : Z;
  minute : Z
}.

Definition is_leap (y : Z) : bool :=
  (y mod 4 =? 0) && (negb (y mod 100 =? 0) || (y mod 400 =? 0)).

Definition days_before_year (y : Z) : Z :=
  let p := y - 1 in p * 365 + p / 4 - p / 100 + p / 400.

Definition days_in_month (y m : Z) : Z :=
  if m =? 2 then (if is_leap y then 29 else 28)
  else if (m =? 4) || (m =? 6) || (m =? 9) || (m =? 11) then 30
  else 31.

Fixpoint days_before_month_upto (y : Z) (m : nat) : Z :=
  match m with
  | O => 0
  | S k => days_before_month_upto y k + days_in_month y (Z.of_nat (S k))
  end.

Definition days_before_month (y m : Z) : Z :=
  days_before_month_upto y (Z.to_nat (m - 1)).

Definition toordinal (dt : datetime) : Z :=
  days_before_year (year dt) + days_before_month (year dt) (month dt) + day dt.

(** Monday is 0. *)
Definition weekday (dt : datetime) : Z := (toordinal dt + 6) mod 7.

Definition digit (d : Z) : ascii := ascii_of_nat (48 + Z.to_nat d).

Definition pad2 (n : Z) : string :=
  String (digit (n / 10 mod 10)) (String (digit (n mod 10)) EmptyString).

Definition day_abbr (w : Z) : string :=
  nth (Z.to_nat w) ["Mon"; "Tue"; "Wed"; "Thu"; "Fri"; "Sat"; "Sun"]%string ""%string.

Definition month_abbr (m : Z) : string :=
  nth (Z.to_nat (m - 1))
      ["Jan"; "Feb"; "Mar"; "Apr"; "May"; "Jun";
       "Jul"; "Aug"; "Sep"; "Oct"; "Nov"; "Dec"]%string ""%string.

Definition hour12 (h : Z) : Z := if h mod 12 =? 0 then 12 else h mod 12.

(** The conversions the route's format uses; any other conversion is left
    in the output as it is written. *)
Definition directive (dt : datetime) (d : ascii) : string :=
  if Ascii.eqb d "a" then day_abbr (weekday dt)
  else if Ascii.eqb d "d" then pad2 (day dt)
  else if Ascii.eqb d "b" then month_abbr (month dt)
  else if Ascii.eqb d "Y" then pretty (year dt)
  else if Ascii.eqb d "I" then pad2 (hour12 (hour dt))
  else if Ascii.eqb d "M" then pad2 (minute dt)
  else if Ascii.eqb d "p" then (if (hour dt <? 12)%Z then "AM"%string else "PM"%string)
  else String "%" (String d EmptyString).

Fixpoint strftime (dt : datetime) (fmt : string) : string :=
  match fmt with
  | EmptyString => EmptyString
  | String c rest =>
      match rest with
      | String d rest' =>
          if Ascii.eqb c "%" then directive dt d +:+ strftime dt rest'
          else String c (strftime dt rest)
      | EmptyString => String c EmptyString
      end
  end.

End PyDatetime.

(** ** The request models ([patient_models.py], [user_models.py])

    A model instance is a record of its fields, after pydantic has given
    each field its declared type.  A [float] is a finite rational. *)

Module User.
Record t := { email : string; facility_name : string; facility_type : string }.
End User.

Module VisitSearch.
Record t := {
  id_number : Z;
  name : string;
  is_child : bool;
  parent_name : option string
}.
End VisitSearch.

Module PatientBio.
Record t := { name : string; age : Q; gender : string }.
End PatientBio.

Module PatientVitals.
Record t := { blood_pressure : string; weight : Q; temperature : Q }.
End PatientVitals.

Module TestReport.
Record t := { test_name : string; test_results : string }.
End TestReport.

Module MedicationDetails.
Record t := {
  medication_name : string;
  medication_dosage : Z;
  medication_frequency : Z;
  medication_duration : Z;
  medication_instructions : option string
}.
End MedicationDetails.

(** [VisitDetails], and also the dictionary [model_dump] makes of it: the
    same keys, each always present. *)
Module VisitDetails.
Record t := {
  facility_name : option string;
  facility_type : option string;
  visit_date : option string;
  patient_bio : PatientBio.t;
  visit_vitals : PatientVitals.t;
  visit_clinical_notes : string;
  visit_labs : option (list TestReport.t);
  visit_investigations : option (list TestReport.t);
  visit_medication : option (list MedicationDetails.t)
}.

(** The three assignments at the head of [add_visit]. *)
Definition stamp (v : t) (fname ftype date : string) : t :=
  {| facility_name := Some fname;
     facility_type := Some ftype;
     visit_date := Some date;
     patient_bio := patient_bio v;
     visit_vitals := visit_vitals v;
     visit_clinical_notes := visit_clinical_notes v;
     visit_labs := visit_labs v;
     visit_investigations := visit_investigations v;
     visit_medication := visit_medication v |}.

(** [model_dump]: the only serializer on the way is [PatientBio]'s, which
    writes the name in title case. *)
Definition model_dump (v : t) : t :=
  {| facility_name := facility_name v;
     facility_type := facility_type v;
     visit_date := visit_date v;
     patient_bio :=
       {| PatientBio.name := PyStr.title (PatientBio.name (patient_bio v));
          PatientBio.age := PatientBio.age (patient_bio v);
          PatientBio.gender := PatientBio.gender (patient_bio v) |};
     visit_vitals := visit_vitals v;
     visit_clinical_notes := visit_clinical_notes v;
     visit_labs := visit_labs v;
     visit_investigations := visit_investigations v;
     visit_medication := visit_medication v |}.
End VisitDetails.

Module VisitUpload.
Record t := { patient_search : VisitSearch.t; visit_details : VisitDetails.t }.
End VisitUpload.

(** ** Documents of the patients collection

    A document is a dictionary: [dependents] and [visits] are [None] when
    the key is absent.  The [_id] the store adds, and the [id] key that
    [Patient.model_dump] writes as null, are read by no route and are left
    out. *)

Module ChildDoc.
Record t := { name : string; visits : option (list VisitDetails.t) }.
End ChildDoc.

Module PatientDoc.
Record t := {
  id_number : Z;
  name : string;
  dependents : option (list ChildDoc.t);
  visits : option (list VisitDetails.t)
}.
End PatientDoc.

(** The models [Child] and [Patient], as the routes build them, and their
    [model_dump]. *)
Module Child.
Record t := { name : string; visits : list VisitDetails.t }.

Definition model_dump (c : t) : ChildDoc.t :=
  {| ChildDoc.name := name c;
     ChildDoc.visits := Some (VisitDetails.model_dump <$> visits c) |}.
End Child.

Module Patient.
Record t := {
  id_number : Z;
  name : string;
  dependents : list Child.t;
  visits : list VisitDetails.t
}.

Definition model_dump (p : t) : PatientDoc.t :=
  {| PatientDoc.id_number := id_number p;
     PatientDoc.name := name p;
     PatientDoc.dependents := Some (Child.model_dump <$> dependents p);
     PatientDoc.visits := Some (VisitDetails.model_dump <$> visits p) |}.
End Patient.

(** ** The store and the calls a handler makes on it *)

Inductive Projection := ProjIdNumber | ProjDependents | ProjVisits.

(** [{'id_number': n}], or [{'id_number': n, 'dependents.name': x}]. *)
Record Filter := {
  id_number_is : Z;
  dependents_name_is : option string
}.

Inductive Update :=
| PushVisits (v : VisitDetails.t)           (* '$push': {'visits': v} *)
| PushDependents (c : ChildDoc.t)           (* '$push': {'dependents': c} *)
| PushDependentVisits (v : VisitDetails.t). (* '$push': {'dependents.$.visits': v} *)

Inductive StoreCall :=
| FindOne (f : Filter) (p : Projection)
| InsertOne (d : PatientDoc.t)
| UpdateOne (f : Filter) (u : Update).

Definition is_write (c : StoreCall) : bool :=
  match c with
  | FindOne _ _ => false
  | InsertOne _ | UpdateOne _ _ => true
  end.

(** What [find_one] hands back under a projection: only the projected key,
    and only when the document has it. *)
Record Projected := {
  p_id_number : option Z;
  p_dependents : option (list ChildDoc.t);
  p_visits : option (list VisitDetails.t)
}.

Definition project (p : Projection) (d : PatientDoc.t) : Projected :=
  match p with
  | ProjIdNumber =>
      {| p_id_number := Some (PatientDoc.id_number d);
         p_dependents := None; p_visits := None |}
  | ProjDependents =>
      {| p_id_number := None;
         p_dependents := PatientDoc.dependents d; p_visits := None |}
  | ProjVisits =>
      {| p_id_number := None;
         p_dependents := None; p_visits := PatientDoc.visits d |}
  end.

(** Python truth of [find_one]'s result: [None] and the empty dictionary
    are false. *)
Definition truthy (r : option Projected) : bool :=
  match r with
  | None => false
  | Some p =>
      bool_decide (is_Some (p_id_number p)) ||
      bool_decide (is_Some (p_dependents p)) ||
      bool_decide (is_Some (p_visits p))
  end.

Definition has_name (n : string) (c : ChildDoc.t) : Prop := ChildDoc.name c = n.

#[global] Instance has_name_dec n c : Decision (has_name n c).
Proof. unfold has_name. apply _. Defined.

Definition matches (f : Filter) (d : PatientDoc.t) : bool :=
  bool_decide (PatientDoc.id_number d = id_number_is f) &&
  match dependents_name_is f with
  | None => true
  | Some n => bool_decide (Exists (has_name n) (default [] (PatientDoc.dependents d)))
  end.

Definition select (f : Filter) (s : list PatientDoc.t) : option (nat * PatientDoc.t) :=
  list_find (λ d, matches f d = true) s.

Definition push {A} (field : option (list A)) (x : A) : option (list A) :=
  Some (default [] field ++ [x]).

Definition push_child_visit (c : ChildDoc.t) (v : VisitDetails.t) : ChildDoc.t :=
  {| ChildDoc.name := ChildDoc.name c;
     ChildDoc.visits := push (ChildDoc.visits c) v |}.

(** The update applied to the selected document; [None] when the store
    refuses it (a positional operator without an array condition in the
    filter that selected the document). *)
Definition apply_update (f : Filter) (u : Update) (d : PatientDoc.t) : option PatientDoc.t :=
  match u with
  | PushVisits v =>
      Some {| PatientDoc.id_number := PatientDoc.id_number d;
              PatientDoc.name := PatientDoc.name d;
              PatientDoc.dependents := PatientDoc.dependents d;
              PatientDoc.visits := push (PatientDoc.visits d) v |}
  | PushDependents c =>
      Some {| PatientDoc.id_number := PatientDoc.id_number d;
              PatientDoc.name := PatientDoc.name d;
              PatientDoc.dependents := push (PatientDoc.dependents d) c;
              PatientDoc.visits := PatientDoc.visits d |}
  | PushDependentVisits v =>
      n ← dependents_name_is f;
      deps ← PatientDoc.dependents d;
      '(k, c) ← list_find (has_name n) deps;
      Some {| PatientDoc.id_number := PatientDoc.id_number d;
              PatientDoc.name := PatientDoc.name d;
              PatientDoc.dependents := Some (<[k := push_child_visit c v]> deps);
              PatientDoc.visits := PatientDoc.visits d |}
  end.

(** ** Handlers

    A handler runs against the collection; it returns or raises, leaves the
    collection in some state and has awaited some store calls. *)

Inductive Error :=
| ValueError (msg : string)
| ValidationError (errors : list (string * string))
| KeyError (key : string)
| TypeError (msg : string)
| WriteError (msg : string).

Inductive Outcome (A : Type) :=
| Returned (a : A)
| Raised (e : Error).
Arguments Returned {A} a.
Arguments Raised {A} e.

Definition Handler (A : Type) : Type :=
  list PatientDoc.t → Outcome A * list PatientDoc.t * list StoreCall.

Definition ret {A} (a : A) : Handler A := λ s, (Returned a, s, []).

Definition raise {A} (e : Error) : Handler A := λ s, (Raised e, s, []).

Definition bind {A B} (m : Handler A) (k : A → Handler B) : Handler B :=
  λ s,
    match m s with
    | (Returned a, s1, log1) =>
        match k a s1 with
        | (o, s2, log2) => (o, s2, log1 ++ log2)
        end
    | (Raised e, s1, log1) => (Raised e, s1, log1)
    end.

#[global] Instance Handler_ret : MRet Handler := @ret.
#[global] Instance Handler_bind : MBind Handler := λ A B k m, bind m k.

Definition outcome {A} (r : Outcome A * list PatientDoc.t * list StoreCall) : Outcome A :=
  r.1.1.
Definition store_after {A} (r : Outcome A * list PatientDoc.t * list StoreCall) : list PatientDoc.t :=
  r.1.2.
Definition calls {A} (r : Outcome A * list PatientDoc.t * list StoreCall) : list StoreCall :=
  r.2.

(** A dictionary subscript [d[key]]. *)
Definition subscript {A} (key : string) (field : option A) : Handler A :=
  match field with
  | Some x => ret x
  | None => raise (KeyError key)
  end.

Definition find_one (f : Filter) (p : Projection) : Handler (option Projected) :=
  λ s, (Returned (project p <$> (snd <$> select f s)), s, [FindOne f p]).

Definition insert_one (d : PatientDoc.t) : Handler unit :=
  λ s, (Returned (), s ++ [d], [InsertOne d]).

Definition update_one (f : Filter) (u : Update) : Handler unit :=
  λ s,
    match select f s with
    | None => (Returned (), s, [UpdateOne f u])
    | Some (i, d) =>
        match apply_update f u d with
        | Some d' => (Returned (), <[i := d']> s, [UpdateOne f u])
        | None =>
            (Raised (WriteError "The positional operator did not find the match needed from the query"),
             s, [UpdateOne f u])
        end
    end.

Definition by_id (n : Z) : Filter :=
  {| id_number_is := n; dependents_name_is := None |}.

Definition by_id_and_dependent (n : Z) (child : string) : Filter :=
  {| id_number_is := n; dependents_name_is := Some child |}.

(** ** [get_patient] *)

(** The inner loop of both branches: the visits of other facilities, in
    order. *)
Fixpoint other_facility_visits_from
    (acc : list VisitDetails.t) (facility : string) (visits : list VisitDetails.t)
    : list VisitDetails.t :=
  match visits with
  | [] => acc
  | visit :: rest =>
      if bool_decide (VisitDetails.facility_name visit ≠ Some facility)
      then other_facility_visits_from (acc ++ [visit]) facility rest
      else other_facility_visits_from acc facility rest
  end.

Definition other_facility_visits := other_facility_visits_from [].

(** [for child in patient_db['dependents']]: the first child whose name
    matches answers the request; when the loop ends without a match, control
    reaches the last [return] of the route. *)
Fixpoint search_children
    (current_user : User.t) (patient : VisitSearch.t) (children : list ChildDoc.t)
    : Handler (list VisitDetails.t) :=
  match children with
  | [] => ret []
  | child :: rest =>
      if name_match (ChildDoc.name child) (VisitSearch.name patient)
      then
        visits ← subscript "visits" (ChildDoc.visits child);
        ret (other_facility_visits (User.facility_name current_user) visits)
      else search_children current_user patient rest
  end.

Definition get_patient (current_user : User.t) (patient : VisitSearch.t)
    : Handler (list VisitDetails.t) :=
  if VisitSearch.is_child patient then
    patient_db ← find_one (by_id (VisitSearch.id_number patient)) ProjDependents;
    match patient_db with
    | Some found =>
        children ← subscript "dependents" (p_dependents found);
        search_children current_user patient children
    | None => ret []
    end
  else
    patient_db ← find_one (by_id (VisitSearch.id_number patient)) ProjVisits;
    match patient_db with
    | Some found =>
        visits ← subscript "visits" (p_visits found);
        ret (other_facility_visits (User.facility_name current_user) visits)
    | None => ret []
    end.

(** ** [add_visit] *)

Definition visit_date_format : string := "%a %d %b %Y, %I:%M%p".

Definition posted : string := "Visit posted successfully".

(** [for child in parent_dependents['dependents']]: pushes the visit to the
    first child whose name matches and leaves the loop; the result is the
    flag [update_child]. *)
Fixpoint update_matching_child
    (patient : VisitSearch.t) (visit_details : VisitDetails.t) (children : list ChildDoc.t)
    : Handler bool :=
  match children with
  | [] => ret false
  | child :: rest =>
      if name_match (ChildDoc.name child) (VisitSearch.name patient)
      then
        update_one
          (by_id_and_dependent (VisitSearch.id_number patient) (ChildDoc.name child))
          (PushDependentVisits (VisitDetails.model_dump visit_details));;
        ret true
      else update_matching_child patient visit_details rest
  end.

(** [Patient(..., name=patient.parent_name, ...)]: the model's [name] is a
    [str], so a missing parent name is refused by the constructor. *)
Definition new_parent (patient : VisitSearch.t) (child : Child.t) : Handler Patient.t :=
  match VisitSearch.parent_name patient with
  | Some parent_name =>
      ret {| Patient.id_number := VisitSearch.id_number patient;
             Patient.name := parent_name;
             Patient.dependents := [child];
             Patient.visits := [] |}
  | None => raise (ValidationError [("name", "Input should be a valid string")])
  end.

(** [visit_details] after the assignments of the facility and of the date. *)
Definition stamped (current_user : User.t) (now : PyDatetime.datetime)
    (visit_details : VisitDetails.t) : VisitDetails.t :=
  VisitDetails.stamp visit_details
    (User.facility_name current_user)
    (User.facility_type current_user)
    (PyDatetime.strftime now visit_date_format).

Definition add_visit (current_user : User.t) (now : PyDatetime.datetime)
    (visit : VisitUpload.t) : Handler string :=
  let patient := VisitUpload.patient_search visit in
  let visit_details := stamped current_user now (VisitUpload.visit_details visit) in
  if VisitSearch.is_child patient then
    let child := {| Child.name := VisitSearch.name patient;
                    Child.visits := [visit_details] |} in
    parent_db ← find_one (by_id (VisitSearch.id_number patient)) ProjIdNumber;
    update_child ←
      (if negb (truthy parent_db) then
         parent ← new_parent patient child;
         insert_one (Patient.model_dump parent);;
         ret true
       else
         parent_dependents ←
           find_one (by_id (VisitSearch.id_number patient)) ProjDependents;
         match parent_dependents with
         | None => raise (TypeError "'NoneType' object is not subscriptable")
         | Some found =>
             children ← subscript "dependents" (p_dependents found);
             if bool_decide (length children = 0)
             then
               update_one (by_id (VisitSearch.id_number patient))
                          (PushDependents (Child.model_dump child));;
               ret true
             else update_matching_child patient visit_details children
         end);
    (if negb update_child
     then update_one (by_id (VisitSearch.id_number patient))
                     (PushDependents (Child.model_dump child))
     else ret ());;
    ret posted
  else
    patient_db ← find_one (by_id (VisitSearch.id_number patient)) ProjIdNumber;
    (if negb (truthy patient_db) then
       insert_one
         (Patient.model_dump
            {| Patient.id_number := VisitSearch.id_number patient;
               Patient.name := VisitSearch.name patient;
               Patient.dependents := [];
               Patient.visits := [visit_details] |})
     else
       update_one (by_id (VisitSearch.id_number patient))
                  (PushVisits (VisitDetails.model_dump visit_details)));;
    ret posted.

(** ** Request validation

    The validators and field constraints that [patient_models.py] declares.
    pydantic reports the failures of all fields together, each with its
    location. *)

(** [VisitSearch.get_parent_name]; [data_is_child] is
    [values.data.get('is_child')], absent when that field did not validate. *)
Definition get_parent_name (data_is_child : option bool) (parent_name : option string)
    : Outcome (option string) :=
  match data_is_child with
  | None => Raised (KeyError "is_child")
  | Some is_child =>
      if is_child &&
         (bool_decide (parent_name = None) || bool_decide (parent_name = Some "null"))
      then Raised (ValueError "Must supply a parent name for a child")
      else Returned parent_name
  end.

Definition parent_name_error : string * string :=
  ("parent_name", "Value error, Must supply a parent name for a child").

(** The failures of a [VisitSearch]; a [ValueError] of the validator
    becomes a failure of its field, any other exception leaves the
    validation as it is. *)
Definition VisitSearch_errors (raw : VisitSearch.t) : Outcome (list (string * string)) :=
  match get_parent_name (Some (VisitSearch.is_child raw)) (VisitSearch.parent_name raw) with
  | Returned _ => Returned []
  | Raised (ValueError _) => Returned [parent_name_error]
  | Raised e => Raised e
  end.

Definition Qltb (a b : Q) : bool := negb (Qle_bool b a).

(** [age: float = Field(gt=0.0, lt=120.0)] and
    [gender: Literal['male', 'female']]. *)
Definition PatientBio_errors (bio : PatientBio.t) : list (string * string) :=
  (if negb (Qltb (0 # 1) (PatientBio.age bio))
   then [("age", "Input should be greater than 0")]
   else if negb (Qltb (PatientBio.age bio) (120 # 1))
   then [("age", "Input should be less than 120")]
   else []) ++
  (if bool_decide (PatientBio.gender bio = "male") ||
      bool_decide (PatientBio.gender bio = "female")
   then []
   else [("gender", "Input should be 'male' or 'female'")]).

(** [PatientVitals] declares three typed fields and no constraint. *)
Definition PatientVitals_errors (vitals : PatientVitals.t) : list (string * string) := [].

Definition VisitDetails_errors (v : VisitDetails.t) : list (string * string) :=
  PatientBio_errors (VisitDetails.patient_bio v) ++
  PatientVitals_errors (VisitDetails.visit_vitals v).

Definition check {A} (errors : Outcome (list (string * string))) (value : A) : Outcome A :=
  match errors with
  | Returned [] => Returned value
  | Returned errs => Raised (ValidationError errs)
  | Raised e => Raised e
  end.

Definition VisitSearch_validate (raw : VisitSearch.t) : Outcome VisitSearch.t :=
  check (VisitSearch_errors raw) raw.

Definition VisitUpload_validate (raw : VisitUpload.t) : Outcome VisitUpload.t :=
  check
    (match VisitSearch_errors (VisitUpload.patient_search raw) with
     | Returned errs =>
         Returned (errs ++ VisitDetails_errors (VisitUpload.visit_details raw))
     | Raised e => Raised e
     end)
    raw.

(** ** The two operations, as a request reaches them

    The body is validated first; the route runs only on a valid body. *)

Definition searchVisits (current_user : User.t) (body : VisitSearch.t)
    : Handler (list VisitDetails.t) :=
  match VisitSearch_validate body with
  | Returned patient => get_patient current_user patient
  | Raised e => raise e
  end.

Definition postVisit (current_user : User.t) (now : PyDatetime.datetime)
    (body : VisitUpload.t) : Handler string :=
  match VisitUpload_validate body with
  | Returned visit => add_visit current_user now visit
  | Raised e => raise e
  end.

Definition is_validation_error {A} (o : Outcome A) : bool :=
  match o with
  | Raised (ValidationError _) => true
  | _ => false
  end.

(** The blood-pressure format in the words of the specification:
    decimal digits, a slash, decimal digits. *)
Definition is_digit (c : ascii) : bool :=
  let n := nat_of_ascii c in Nat.leb 48 n && Nat.leb n 57.

Fixpoint all_digits (s : string) : bool :=
  match s with
  | EmptyString => true
  | String c s' => is_digit c && all_digits s'
  end.

Fixpoint spec_diastolic_after (seen_digit : bool) (s : string) : bool :=
  match s with
  | EmptyString => false
  | String c s' =>
      if is_digit c then spec_diastolic_after true s'
      else seen_digit && Ascii.eqb c "/" &&
           negb (bool_decide (s' = EmptyString)) && all_digits s'
  end.

Definition spec_blood_pressure_format (s : string) : bool :=
  spec_diastolic_after false s.


(** ** Vocabulary of the statements *)

(** A visit recorded by a facility other than [facility]. *)
Definition from_other (facility : string) (v : VisitDetails.t) : Prop :=
  VisitDetails.facility_name v ≠ Some facility.

#[global] Instance from_other_dec facility v : Decision (from_other facility v).
Proof. unfold from_other. apply _. Defined.

(** A dependent whose stored name matches the incoming name. *)
Definition matches_name (incoming : string) (c : ChildDoc.t) : Prop :=
  name_match (ChildDoc.name c) incoming = true.

#[global] Instance matches_name_dec incoming c : Decision (matches_name incoming c).
Proof. unfold matches_name. apply _. Defined.

(** The ledger a search key resolves to: the visits of the adult with that
    identity number, or those of the first of that adult's dependents whose
    name matches. *)
Definition resolved_ledger (patient : VisitSearch.t) (s : list PatientDoc.t)
    (ledger : list VisitDetails.t) : Prop :=
  ∃ i d, select (by_id (VisitSearch.id_number patient)) s = Some (i, d) ∧
    if VisitSearch.is_child patient
    then ∃ children k child,
           PatientDoc.dependents d = Some children ∧
           list_find (matches_name (VisitSearch.name patient)) children = Some (k, child) ∧
           ChildDoc.visits child = Some ledger
    else PatientDoc.visits d = Some ledger.

(** The visit as it is written to the store, and the child and the two
    kinds of document the write path creates around it. *)
Definition stored_visit (current_user : User.t) (now : PyDatetime.datetime)
    (visit : VisitUpload.t) : VisitDetails.t :=
  VisitDetails.model_dump (stamped current_user now (VisitUpload.visit_details visit)).

Definition stored_child (name : string) (record : VisitDetails.t) : ChildDoc.t :=
  {| ChildDoc.name := name; ChildDoc.visits := Some [record] |}.

Definition adult_doc (patient : VisitSearch.t) (record : VisitDetails.t) : PatientDoc.t :=
  {| PatientDoc.id_number := VisitSearch.id_number patient;
     PatientDoc.name := VisitSearch.name patient;
     PatientDoc.dependents := Some [];
     PatientDoc.visits := Some [record] |}.

Definition parent_doc (patient : VisitSearch.t) (parent_name : string)
    (record : VisitDetails.t) : PatientDoc.t :=
  {| PatientDoc.id_number := VisitSearch.id_number patient;
     PatientDoc.name := parent_name;
     PatientDoc.dependents := Some [stored_child (VisitSearch.name patient) record];
     PatientDoc.visits := Some [] |}.

Definition with_visits (d : PatientDoc.t) (visits : list VisitDetails.t) : PatientDoc.t :=
  {| PatientDoc.id_number := PatientDoc.id_number d;
     PatientDoc.name := PatientDoc.name d;
     PatientDoc.dependents := PatientDoc.dependents d;
     PatientDoc.visits := Some visits |}.

Definition with_dependents (d : PatientDoc.t) (children : list ChildDoc.t) : PatientDoc.t :=
  {| PatientDoc.id_number := PatientDoc.id_number d;
     PatientDoc.name := PatientDoc.name d;
     PatientDoc.dependents := Some children;
     PatientDoc.visits := PatientDoc.visits d |}.

Definition writes (log : list StoreCall) : list StoreCall := List.filter is_write log.






(** Append-only: every entry of the old array is at its place in the new
    one, and a key that was present is still present. *)
Definition array_kept {A} (old new : option (list A)) : Prop :=
  (is_Some old → is_Some new) ∧
  ∀ j x, default [] old !! j = Some x → default [] new !! j = Some x.

Definition child_kept (c c' : ChildDoc.t) : Prop :=
  ChildDoc.name c' = ChildDoc.name c ∧
  array_kept (ChildDoc.visits c) (ChildDoc.visits c').

Definition doc_kept (d d' : PatientDoc.t) : Prop :=
  PatientDoc.id_number d' = PatientDoc.id_number d ∧
  PatientDoc.name d' = PatientDoc.name d ∧
  array_kept (PatientDoc.visits d) (PatientDoc.visits d') ∧
  (is_Some (PatientDoc.dependents d) → is_Some (PatientDoc.dependents d')) ∧
  ∀ k c, default [] (PatientDoc.dependents d) !! k = Some c →
         ∃ c', default [] (PatientDoc.dependents d') !! k = Some c' ∧ child_kept c c'.

Definition store_kept (s s' : list PatientDoc.t) : Prop :=
  ∀ i d, s !! i = Some d → ∃ d', s' !! i = Some d' ∧ doc_kept d d'.

(** A document with the keys the read path subscripts. *)
Definition wf_child (c : ChildDoc.t) : Prop := is_Some (ChildDoc.visits c).

Definition wf_doc (d : PatientDoc.t) : Prop :=
  is_Some (PatientDoc.visits d) ∧
  ∃ children, PatientDoc.dependents d = Some children ∧ Forall wf_child children.

(** The states of the collection this system produces: it starts empty
    and changes only through the two operations. *)
Inductive reachable : list PatientDoc.t → Prop :=
| reachable_empty : reachable []
| reachable_post s current_user now body :
    reachable s →
    reachable (store_after (postVisit current_user now body s))
| reachable_search s current_user body :
    reachable s →
    reachable (store_after (searchVisits current_user body s)).

(** ** Sample data

    The requests and documents of the specification's examples. *)

Module Sample.

Definition facility_a : User.t :=
  {| User.email := "a@example.com"; User.facility_name := "FacilityA";
     User.facility_type := "Hospital" |}.

Definition facility_b : User.t :=
  {| User.email := "b@example.com"; User.facility_name := "FacilityB";
     User.facility_type := "Clinic" |}.

Definition now : PyDatetime.datetime :=
  {| PyDatetime.year := 2024; PyDatetime.month := 7; PyDatetime.day := 16;
     PyDatetime.hour := 15; PyDatetime.minute := 51 |}.

Definition details (blood_pressure : string) : VisitDetails.t :=
  {| VisitDetails.facility_name := Some "Elsewhere";
     VisitDetails.facility_type := None;
     VisitDetails.visit_date := Some "Mon 01 Jan 2001, 01:01AM";
     VisitDetails.patient_bio :=
       {| PatientBio.name := "amina wanjiru"; PatientBio.age := 7 # 2;
          PatientBio.gender := "female" |};
     VisitDetails.visit_vitals :=
       {| PatientVitals.blood_pressure := blood_pressure;
          PatientVitals.weight := 103 # 10;
          PatientVitals.temperature := 181 # 5 |};
     VisitDetails.visit_clinical_notes := "Patient presented with a cough";
     VisitDetails.visit_labs := None;
     VisitDetails.visit_investigations := None;
     VisitDetails.visit_medication := None |}.

(** A visit as [add_visit] stores it for FacilityA. *)
Definition v1 : VisitDetails.t :=
  VisitDetails.model_dump
    (VisitDetails.stamp (details "127/87") "FacilityA" "Hospital"
       "Tue 16 Jul 2024, 03:51PM").

Definition child_search (parent_name : option string) : VisitSearch.t :=
  {| VisitSearch.id_number := 111; VisitSearch.name := "Wanjiru Amina";
     VisitSearch.is_child := true; VisitSearch.parent_name := parent_name |}.

Definition adult_search : VisitSearch.t :=
  {| VisitSearch.id_number := 111; VisitSearch.name := "Mary Wanjiru";
     VisitSearch.is_child := false; VisitSearch.parent_name := None |}.

Definition amina : ChildDoc.t :=
  {| ChildDoc.name := "Amina Wanjiru"; ChildDoc.visits := Some [v1] |}.

Definition mary : PatientDoc.t :=
  {| PatientDoc.id_number := 111; PatientDoc.name := "Mary Wanjiru";
     PatientDoc.dependents := Some [amina];
     PatientDoc.visits := Some [v1] |}.

Definition store : list PatientDoc.t := [mary].

Definition child_upload (parent_name : option string) (blood_pressure : string)
    : VisitUpload.t :=
  {| VisitUpload.patient_search := child_search parent_name;
     VisitUpload.visit_details := details blood_pressure |}.

Definition adult_upload : VisitUpload.t :=
  {| VisitUpload.patient_search := adult_search;
     VisitUpload.visit_details := details "127/87" |}.

End Sample.

(** ** Resolution, as the two routes perform it

    What follows restates the routes as functions of the document that
    [find_one] selects; the properties section proves the routes equal to
    them. *)

Definition found_doc (n : Z) (s : list PatientDoc.t) : option PatientDoc.t :=
  snd <$> select (by_id n) s.

(** The answer of [get_patient] from the document found. *)
Definition child_answer (current_user : User.t) (name : string)
    (children : list ChildDoc.t) : Outcome (list VisitDetails.t) :=
  match list_find (matches_name name) children with
  | None => Returned []
  | Some (_, child) =>
      match ChildDoc.visits child with
      | Some visits =>
          Returned (filter (from_other (User.facility_name current_user)) visits)
      | None => Raised (KeyError "visits")
      end
  end.

Definition answer (current_user : User.t) (patient : VisitSearch.t)
    (found : option PatientDoc.t) : Outcome (list VisitDetails.t) :=
  match found with
  | None => Returned []
  | Some d =>
      if VisitSearch.is_child patient then
        match PatientDoc.dependents d with
        | Some children => child_answer current_user (VisitSearch.name patient) children
        | None => Raised (KeyError "dependents")
        end
      else
        match PatientDoc.visits d with
        | Some visits =>
            Returned (filter (from_other (User.facility_name current_user)) visits)
        | None => Raised (KeyError "visits")
        end
  end.

(** The document [add_visit] writes, from the document found: the new
    document it inserts, or the found document after the push; [None] when
    the route raises. *)
Definition written_doc (patient : VisitSearch.t) (record : VisitDetails.t)
    (found : option PatientDoc.t) : option PatientDoc.t :=
  match found with
  | None =>
      if VisitSearch.is_child patient
      then parent_name ← VisitSearch.parent_name patient;
           Some (parent_doc patient parent_name record)
      else Some (adult_doc patient record)
  | Some d =>
      if VisitSearch.is_child patient then
        children ← PatientDoc.dependents d;
        match list_find (matches_name (VisitSearch.name patient)) children with
        | Some (k, child) =>
            Some (with_dependents d (<[k := push_child_visit child record]> children))
        | None =>
            Some (with_dependents d
                    (children ++ [stored_child (VisitSearch.name patient) record]))
        end
      else Some (with_visits d (default [] (PatientDoc.visits d) ++ [record]))
  end.

(** The ledger a key resolves to, empty when it resolves to none. *)
Definition ledger_of (patient : VisitSearch.t) (found : option PatientDoc.t)
    : list VisitDetails.t :=
  match found with
  | None => []
  | Some d =>
      if VisitSearch.is_child patient then
        match list_find (matches_name (VisitSearch.name patient))
                (default [] (PatientDoc.dependents d)) with
        | Some (_, child) => default [] (ChildDoc.visits child)
        | None => []
        end
      else default [] (PatientDoc.visits d)
  end.

(** Two keys for one ledger: the same identity number, both for the adult
    or both for a child, and for a child names that match. *)
Definition same_ledger (p p' : VisitSearch.t) : Prop :=
  VisitSearch.id_number p = VisitSearch.id_number p' ∧
  VisitSearch.is_child p = VisitSearch.is_child p' ∧
  (VisitSearch.is_child p = true →
   name_match (VisitSearch.name p) (VisitSearch.name p') = true).

#[global] Instance same_ledger_dec p p' : Decision (same_ledger p p').
Proof. unfold same_ledger. apply _. Defined.



(** A name without a token: every code point is whitespace. *)
Definition blank (s : string) : bool := forallb PyStr.isspace (PyStr.decode s).

(** ** The user routes ([user_routes.py], [authenticate.py])

    A document of the users or of the facilities collection is a
    dictionary from keys to values.  The libraries the routes call are
    taken as an interface: bcrypt, the token codec of PyJWT with the
    secret and the algorithm of the environment, and the identifier the
    store gives an inserted document. *)

Module Users.

Inductive Value :=
| VNull
| VStr (s : string)
| VTime (microseconds : Z).   (* an aware [datetime], counted from the epoch *)

#[global] Instance Value_eq_dec : EqDecision Value.
Proof. solve_decision. Defined.

Class Libraries := {
  (* [bcrypt.hashpw(password.encode('utf-8'), salt)] and the module's
     [salt]; [None] when it raises [ValueError], as bcrypt 5 does for a
     password of more than 72 bytes *)
  hashpw : string → string → option string;
  salt : string;
  (* [bcrypt.checkpw(password, hashed)]; [None] when it raises on a
     malformed hash *)
  checkpw : string → string → option bool;
  (* [jwt.encode(claims, SECRET_KEY, algorithm=ALGORITHM)] *)
  jwt_encode : gmap string Value → string;
  (* [jwt.decode(token, SECRET_KEY, algorithms=[ALGORITHM])] at a time of
     the clock; [None] when it raises [InvalidTokenError] *)
  jwt_decode : Z → string → option (gmap string Value);
  (* the [ObjectId] given to the n-th document of a collection *)
  object_id : nat → string
}.

Inductive Failure :=
| HTTPException (status_code : Z) (detail : string)
| KeyError (key : string)
| AttributeError (msg : string)
| ValueError (msg : string)
| ValidationError (field : string).

Inductive Result (A : Type) :=
| Ok (a : A)
| Fail (e : Failure).
Arguments Ok {A} a.
Arguments Fail {A} e.

#[global] Instance Result_ret : MRet Result := @Ok.
#[global] Instance Result_bind : MBind Result :=
  λ A B k m, match m with Ok a => k a | Fail e => Fail e end.

(** [d[key]] *)
Definition subscript (d : gmap string Value) (key : string) : Result Value :=
  match d !! key with
  | Some v => Ok v
  | None => Fail (KeyError key)
  end.

(** [collection.find_one({key: value})]: the first document with that
    value at that key. *)
Definition has_value (key : string) (value : Value) (d : gmap string Value) : Prop :=
  d !! key = Some value.

#[global] Instance has_value_dec key value d : Decision (has_value key value d).
Proof. unfold has_value. apply _. Defined.

Definition find_one (docs : list (gmap string Value)) (key : string) (value : Value)
    : option (gmap string Value) :=
  snd <$> list_find (has_value key value) docs.

(** Python truth of what [find_one] returns. *)
Definition truthy (r : option (gmap string Value)) : bool :=
  match r with
  | None => false
  | Some d => bool_decide (d ≠ ∅)
  end.

(** [collection.insert_one(data)]: the driver gives the document an [_id]
    when it has none. *)
Definition insert_one (docs : list (gmap string Value)) (data : gmap string Value)
    `{!Libraries} : list (gmap string Value) :=
  docs ++ [match data !! "_id" with
           | Some _ => data
           | None => <["_id" := VStr (object_id (length docs))]> data
           end].

Module UserRegistration.
Record t := {
  email : string;
  password : string;
  facility_name : string;
  facility_type : option string
}.

(** [model_dump(by_alias=True, exclude=['id'])]: the facility name goes
    through its serializer. *)
Definition model_dump (u : t) : gmap string Value :=
  <["email" := VStr (email u)]>
  (<["password" := VStr (password u)]>
  (<["facility_name" := VStr (PyStr.title (facility_name u))]>
  (<["facility_type" := match facility_type u with
                        | Some ft => VStr ft
                        | None => VNull
                        end]> ∅))).
End UserRegistration.

(** The model [Token] is declared in [token_models.py], which is not among
    the sources; it is built from these two fields. *)
Record Token := { access_token : string; token_type : string }.

Definition bad_request {A} (detail : string) : Result A :=
  Fail (HTTPException 400 detail).

Definition unauthorized {A} (detail : string) : Result A :=
  Fail (HTTPException 401 detail).

Section Routes.

Context `{!Libraries}.

(** [register_user]: the answer and the users collection afterwards. *)
Definition register_user (facilities users : list (gmap string Value))
    (user : UserRegistration.t) : Result string * list (gmap string Value) :=
  let data := UserRegistration.model_dump user in
  let outcome :=
    email ← subscript data "email";
    if truthy (find_one users "email" email)
    then bad_request "Email/User exists"
    else
      facility_name ← subscript data "facility_name";
      if truthy (find_one users "facility_name" facility_name)
      then bad_request "Facility already registered"
      else
        let facility := find_one facilities "facility_name" facility_name in
        if negb (truthy facility)
        then bad_request "Facility is not registered to offer services"
        else
          let facility := default ∅ facility in
          status ← subscript facility "status";
          if bool_decide (status ≠ VStr "Active")
          then bad_request "Facility license is revoked"
          else
            password ← subscript data "password";
            match password with
            | VStr password =>
                match hashpw password salt with
                | Some hash_pd =>
                    let data := <["password" := VStr hash_pd]> data in
                    facility_type ← subscript facility "facility_type";
                    Ok (<["facility_type" := facility_type]> data)
                | None => Fail (ValueError "password cannot be longer than 72 bytes")
                end
            | _ => Fail (AttributeError "encode")
            end
  in
  match outcome with
  | Ok data => (Ok "user_created", insert_one users data)
  | Fail e => (Fail e, users)
  end.

(** [create_access_token]: [expires_delta] in microseconds; a zero delta is
    false as a condition. *)
Definition one_day : Z := 1440 * 60 * 1000000.

Definition expiry (expires_delta : option Z) (now : Z) : Z :=
  match expires_delta with
  | Some delta => if bool_decide (delta ≠ 0%Z) then (now + delta)%Z else (now + one_day)%Z
  | None => (now + one_day)%Z
  end.

Definition access_token_claims (data : gmap string Value) (expires_delta : option Z)
    (now : Z) : gmap string Value :=
  <["exp" := VTime (expiry expires_delta now)]> data.

Definition create_access_token (data : gmap string Value) (expires_delta : option Z)
    (now : Z) : string :=
  jwt_encode (access_token_claims data expires_delta now).

(** [login_user], on the two fields of the form. *)
Definition login_user (users : list (gmap string Value)) (now : Z)
    (username password : string) : Result Token :=
  let user := find_one users "email" (VStr username) in
  if negb (truthy user) then unauthorized "Incorrect email"
  else
    let user := default ∅ user in
    hashed ← subscript user "password";
    match hashed with
    | VStr hashed =>
        match checkpw password hashed with
        | None => Fail (ValueError "Invalid salt")
        | Some false => unauthorized "Incorrect password"
        | Some true =>
            email ← subscript user "email";
            Ok {| access_token := create_access_token {["sub" := email]} None now;
                  token_type := "bearer" |}
        end
    | _ => Fail (AttributeError "encode")
    end.

(** [get_current_user]: every failure before the user is found is the
    same [401]. *)
Definition credentials_exception {A} : Result A :=
  unauthorized "Could not validate credentials".

Definition get_current_user (users : list (gmap string Value)) (now : Z) (token : string)
    : Result (gmap string Value) :=
  match jwt_decode now token with
  | None => credentials_exception
  | Some payload =>
      match payload !! "sub" with
      | None | Some VNull => credentials_exception
      | Some email =>
          match find_one users "email" email with
          | None => credentials_exception
          | Some user =>
              _ ← subscript user "_id";
              let user := delete "_id" user in
              _ ← subscript user "password";
              Ok (delete "password" user)
          end
      end
  end.

(** [get_current_active_user] builds a [User] from the keys of the
    dictionary: the three fields are required strings, other keys are
    ignored. *)
Definition str_field (d : gmap string Value) (key : string) : Result string :=
  match d !! key with
  | Some (VStr s) => Ok s
  | _ => Fail (ValidationError key)
  end.

Definition get_current_active_user (current_user : gmap string Value) : Result User.t :=
  email ← str_field current_user "email";
  facility_name ← str_field current_user "facility_name";
  facility_type ← str_field current_user "facility_type";
  Ok {| User.email := email;
        User.facility_name := facility_name;
        User.facility_type := facility_type |}.

(** The dependency of the patient routes: the user of a bearer token. *)
Definition authenticate (users : list (gmap string Value)) (now : Z) (token : string)
    : Result User.t :=
  get_current_user users now token ≫= get_current_active_user.

End Routes.

(** The states of the users collection this system produces, whatever the
    facilities collection holds at each registration. *)
Inductive registered `{!Libraries} : list (gmap string Value) → Prop :=
| registered_empty : registered []
| registered_step facilities users user :
    registered users →
    registered (register_user facilities users user).2.

(** The document a registration stores, for the hash bcrypt gives the
    password and the type the facilities collection gives the facility. *)
Definition registered_doc `{!Libraries} (user : UserRegistration.t)
    (hashed : string) (facility_type : Value) (n : nat) : gmap string Value :=
  <["_id" := VStr (object_id n)]>
  (<["facility_type" := facility_type]>
  (<["password" := VStr hashed]>
  (UserRegistration.model_dump user))).

(** What [get_current_user] hands on of a stored document. *)
Definition public_part (d : gmap string Value) : gmap string Value :=
  delete "password" (delete "_id" d).

(** A stored user with the keys the routes subscript. *)
Definition wf_user (d : gmap string Value) : Prop :=
  is_Some (d !! "_id") ∧
  (∃ email, d !! "email" = Some (VStr email)) ∧
  (∃ hashed, d !! "password" = Some (VStr hashed)) ∧
  (∃ facility_name, d !! "facility_name" = Some (VStr facility_name)) ∧
  is_Some (d !! "facility_type").

(** No two documents with the same value at a key. *)
Definition unique_on (key : string) (docs : list (gmap string Value)) : Prop :=
  ∀ i j d d' v, docs !! i = Some d → docs !! j = Some d' →
                d !! key = Some v → d' !! key = Some v → i = j.

(** What the routes rely on from the libraries: bcrypt accepts a password
    against the hash it gave for it; a token decodes, while the expiry it
    carries is in the future, to claims with the subject it was made
    with. *)
Definition bcrypt_sound `{!Libraries} : Prop :=
  ∀ password hashed,
    hashpw password salt = Some hashed → checkpw password hashed = Some true.

(** PyJWT writes the expiry as whole seconds and refuses a token from the
    second of its expiry on. *)
Definition whole_seconds (microseconds : Z) : Z :=
  (microseconds / 1000000 * 1000000)%Z.

Definition jwt_sound `{!Libraries} : Prop :=
  ∀ claims subject expire now,
    claims !! "sub" = Some (VStr subject) →
    claims !! "exp" = Some (VTime expire) →
    (now < whole_seconds expire)%Z →
    ∃ payload, jwt_decode now (jwt_encode claims) = Some payload ∧
               payload !! "sub" = Some (VStr subject).

(** An instance of the interface for evaluation: the hash is the salted
    password, refused beyond 72 bytes; a token is its subject. *)
Definition sample_encode (claims : gmap string Value) : string :=
  match claims !! "sub" with
  | Some (VStr subject) => subject
  | _ => ""
  end.

Definition sample_libraries : Libraries :=
  {| hashpw := λ password salt,
       if (72 <? String.length password)%nat then None else Some (salt +:+ password);
     salt := "$2b$12$";
     checkpw := λ password hashed, Some (bool_decide (hashed = "$2b$12$" +:+ password));
     jwt_encode := sample_encode;
     jwt_decode := λ now token, Some {["sub" := VStr token]};
     object_id := λ n, pretty n |}.

Definition sample_facility : gmap string Value :=
  <["facility_name" := VStr "Test Hospital"]>
  (<["status" := VStr "Active"]>
  (<["facility_type" := VStr "Hospital"]> ∅)).

Definition sample_registration : UserRegistration.t :=
  {| UserRegistration.email := "test@example.com";
     UserRegistration.password := "password";
     UserRegistration.facility_name := "test hospital";
     UserRegistration.facility_type := None |}.

Definition sample_clinic : gmap string Value :=
  <["facility_name" := VStr "Test Clinic"]>
  (<["status" := VStr "Active"]>
  (<["facility_type" := VStr "Clinic"]> ∅)).

Definition sample_registration_clinic : UserRegistration.t :=
  {| UserRegistration.email := "clinic@example.com";
     UserRegistration.password := "secret";
     UserRegistration.facility_name := "TEST clinic";
     UserRegistration.facility_type := Some "ignored" |}.

Definition sample_users : list (gmap string Value) :=
  (@register_user sample_libraries [sample_facility; sample_clinic]
     (@register_user sample_libraries [sample_facility; sample_clinic] []
        sample_registration).2
     sample_registration_clinic).2.

Definition sample_hospital_user : User.t :=
  {| User.email := "test@example.com"; User.facility_name := "Test Hospital";
     User.facility_type := "Hospital" |}.

Definition sample_clinic_user : User.t :=
  {| User.email := "clinic@example.com"; User.facility_name := "Test Clinic";
     User.facility_type := "Clinic" |}.

End Users.
(** * Properties *)

(** ** Evaluations on the examples of the source and the specification *)

Example split_ex : PyStr.split "  Jane   Mary Doe " = ["Jane"; "Mary"; "Doe"].
Proof. reflexivity. Qed.

Example match_ex1 : name_match "Jane Doe" "Doe Jane" = true.
Proof. vm_compute. reflexivity. Qed.

Example match_ex2 : name_match "Jane Doe" "Jane" = false.
Proof. vm_compute. reflexivity. Qed.

Example title_ex : PyStr.title "john o'neil-smith 3rd" = "John O'Neil-Smith 3Rd".
Proof. reflexivity. Qed.

Example strftime_ex :
  PyDatetime.strftime
    {| PyDatetime.year := 2024; PyDatetime.month := 7; PyDatetime.day := 16;
       PyDatetime.hour := 15; PyDatetime.minute := 51 |}
    "%a %d %b %Y, %I:%M%p"%string = "Tue 16 Jul 2024, 03:51PM".
Proof. vm_compute. reflexivity. Qed.

Example bp_ex1 : spec_blood_pressure_format "127/87" = true.
Proof. reflexivity. Qed.

Example bp_ex2 : spec_blood_pressure_format "127-87" = false.
Proof. reflexivity. Qed.

Example bp_ex3 : spec_blood_pressure_format "/87" = false.
Proof. reflexivity. Qed.

Example bp_ex4 : spec_blood_pressure_format "127/" = false.
Proof. reflexivity. Qed.

(** Two posts for the same adult, by FacilityA and then by FacilityB: the
    first inserts the document, the second pushes onto its visits, and a
    search by FacilityA then returns the visit of FacilityB alone. *)
Example two_posts_then_search :
  let s1 := store_after (postVisit Sample.facility_a Sample.now Sample.adult_upload []) in
  let r2 := postVisit Sample.facility_b Sample.now Sample.adult_upload s1 in
  writes (calls (postVisit Sample.facility_a Sample.now Sample.adult_upload []))
    = [InsertOne (adult_doc Sample.adult_search
                    (stored_visit Sample.facility_a Sample.now Sample.adult_upload))] ∧
  writes (calls r2)
    = [UpdateOne (by_id 111)
         (PushVisits (stored_visit Sample.facility_b Sample.now Sample.adult_upload))] ∧
  outcome (searchVisits Sample.facility_a Sample.adult_search (store_after r2))
    = Returned [stored_visit Sample.facility_b Sample.now Sample.adult_upload].
Proof. by vm_compute. Qed.

(** ** Strings as code points *)

Section CodePoints.

Import PyStr.

Local Open Scope Z_scope.

Lemma byte_bounds a : 0 <= byte a < 256.
Proof.
  unfold byte. pose proof (Ascii.N_ascii_bounded a). lia.
Qed.

Lemma byte_chr8 b : 0 <= b < 256 → byte (chr8 b) = b.
Proof.
  intros Hb. unfold byte, chr8. rewrite Ascii.N_ascii_embedding by lia. lia.
Qed.

Lemma continuation_spec b : continuation b = true ↔ 128 <= b < 192.
Proof. unfold continuation. rewrite andb_true_iff, Z.leb_le, Z.ltb_lt. done. Qed.

Lemma decode_1 a s : byte a < 128 → decode (String a s) = byte a :: decode s.
Proof. intros H. simpl. by rewrite (proj2 (Z.ltb_lt _ _) H). Qed.

Lemma decode_2 a0 a1 s :
  194 <= byte a0 < 224 → 128 <= byte a1 < 192 →
  decode (String a0 (String a1 s))
  = ((byte a0 - 192) * 64 + (byte a1 - 128)) :: decode s.
Proof.
  intros H0 H1. simpl decode.
  rewrite (proj2 (Z.ltb_ge _ _)) by lia.
  rewrite (proj2 (Z.leb_le 194 _)), (proj2 (Z.ltb_lt _ 224)) by lia.
  by rewrite (proj2 (continuation_spec _)) by lia.
Qed.

Lemma decode_3 a0 a1 a2 s :
  224 <= byte a0 < 240 → 128 <= byte a1 < 192 → 128 <= byte a2 < 192 →
  2048 <= (byte a0 - 224) * 4096 + (byte a1 - 128) * 64 + (byte a2 - 128) →
  decode (String a0 (String a1 (String a2 s)))
  = ((byte a0 - 224) * 4096 + (byte a1 - 128) * 64 + (byte a2 - 128)) :: decode s.
Proof.
  intros H0 H1 H2 Hc. simpl decode.
  rewrite (proj2 (Z.ltb_ge _ 128)) by lia.
  rewrite (proj2 (Z.ltb_ge _ 224)) by lia. rewrite andb_false_r. simpl andb. cbv iota.
  rewrite (proj2 (Z.leb_le 224 _)), (proj2 (Z.ltb_lt _ 240)) by lia.
  rewrite !(proj2 (continuation_spec _)) by lia.
  by rewrite (proj2 (Z.leb_le 2048 _)) by lia.
Qed.

Lemma decode_4 a0 a1 a2 a3 s :
  240 <= byte a0 < 245 → 128 <= byte a1 < 192 → 128 <= byte a2 < 192 →
  128 <= byte a3 < 192 →
  65536 <= (byte a0 - 240) * 262144 + (byte a1 - 128) * 4096 + (byte a2 - 128) * 64
    + (byte a3 - 128) <= 1114111 →
  decode (String a0 (String a1 (String a2 (String a3 s))))
  = ((byte a0 - 240) * 262144 + (byte a1 - 128) * 4096 + (byte a2 - 128) * 64
     + (byte a3 - 128)) :: decode s.
Proof.
  intros H0 H1 H2 H3 Hc. simpl decode.
  rewrite (proj2 (Z.ltb_ge _ 128)) by lia.
  rewrite (proj2 (Z.ltb_ge _ 224)) by lia. rewrite andb_false_r. simpl andb. cbv iota.
  rewrite (proj2 (Z.ltb_ge _ 240)) by lia. rewrite andb_false_r. simpl andb. cbv iota.
  rewrite (proj2 (Z.leb_le 240 _)), (proj2 (Z.ltb_lt _ 245)) by lia.
  rewrite !(proj2 (continuation_spec _)) by lia.
  by rewrite (proj2 (Z.leb_le 65536 _)), (proj2 (Z.leb_le _ 1114111)) by lia.
Qed.

Local Ltac div_lia := Z.div_mod_to_equations; lia.

Lemma append_cons a s t : String a s +:+ t = String a (s +:+ t).
Proof. reflexivity. Qed.

Lemma append_nil t : EmptyString +:+ t = t.
Proof. reflexivity. Qed.

(** Decoding undoes encoding, code point by code point. *)
Lemma decode_encode_char c s :
  valid c → decode (encode_char c +:+ s) = c :: decode s.
Proof.
  intros [Hlo Hhi]. unfold encode_char.
  destruct (Z.ltb_spec c 128) as [H1|H1].
  { rewrite ?append_cons, ?append_nil.
    rewrite decode_1; rewrite byte_chr8 by lia; [done|lia]. }
  destruct (Z.ltb_spec c 2048) as [H2|H2].
  { rewrite ?append_cons, ?append_nil.
    rewrite decode_2; rewrite ?byte_chr8 by div_lia; [|div_lia..].
    f_equal. div_lia. }
  destruct (Z.ltb_spec c 65536) as [H3|H3].
  { rewrite ?append_cons, ?append_nil.
    rewrite decode_3; rewrite ?byte_chr8 by div_lia; [|div_lia..].
    f_equal. div_lia. }
  rewrite ?append_cons, ?append_nil.
  rewrite decode_4; rewrite ?byte_chr8 by div_lia; [|div_lia..].
  f_equal. div_lia.
Qed.

Lemma append_assoc s t r : (s +:+ t) +:+ r = s +:+ (t +:+ r).
Proof.
  induction s as [|a s IH]; [done|]. rewrite !append_cons. by rewrite IH.
Qed.

Lemma encode_app u v : encode (u ++ v) = encode u +:+ encode v.
Proof.
  induction u as [|c u IH]; simpl; [done|].
  by rewrite IH, append_assoc.
Qed.

Lemma decode_encode u : Forall valid u → decode (encode u) = u.
Proof.
  induction 1 as [|c u Hc _ IH]; simpl; [done|].
  by rewrite decode_encode_char, IH.
Qed.

Lemma decode_valid_le (n : nat) s :
  (String.length s <= n)%nat → Forall valid (decode s).
Proof.
  revert s. induction n as [|n IH]; intros s Hn.
  { destruct s; [constructor|simpl in Hn; lia]. }
  destruct s as [|a0 s1]; [constructor|]. simpl in Hn.
  pose proof (byte_bounds a0).
  simpl decode. destruct (Z.ltb_spec (byte a0) 128).
  { constructor; [unfold valid; lia|apply IH; lia]. }
  destruct s1 as [|a1 s2]; [by repeat constructor|]. simpl in Hn.
  pose proof (byte_bounds a1).
  destruct (_ && continuation (byte a1)) eqn:E2.
  { rewrite !andb_true_iff, continuation_spec, Z.leb_le, Z.ltb_lt in E2.
    constructor; [unfold valid; lia|apply IH; lia]. }
  destruct s2 as [|a2 s3].
  { constructor; [done|apply IH; simpl; lia]. }
  simpl in Hn. pose proof (byte_bounds a2).
  destruct (_ && (2048 <=? _)) eqn:E3.
  { rewrite !andb_true_iff, !continuation_spec, !Z.leb_le, Z.ltb_lt in E3.
    constructor; [unfold valid; lia|apply IH; lia]. }
  destruct s3 as [|a3 s4].
  { constructor; [done|apply IH; simpl; lia]. }
  simpl in Hn. pose proof (byte_bounds a3).
  destruct (_ && (_ <=? 1114111)) eqn:E4.
  { rewrite !andb_true_iff, !continuation_spec, !Z.leb_le, Z.ltb_lt in E4.
    constructor; [unfold valid; lia|apply IH; lia]. }
  constructor; [done|apply IH; simpl; lia].
Qed.

Lemma decode_valid s : Forall valid (decode s).
Proof. by apply (decode_valid_le (String.length s)). Qed.

Lemma is_valid_spec c : is_valid c = true ↔ valid c.
Proof. unfold is_valid, valid. rewrite andb_true_iff, !Z.leb_le. done. Qed.

Lemma isspace_spec c : isspace c = true ↔ In c whitespace.
Proof.
  unfold isspace. rewrite existsb_exists. split.
  - intros (w & Hw & Hc). apply Z.eqb_eq in Hc. by subst.
  - intros H. exists c. split; [done|apply Z.eqb_refl].
Qed.

Lemma assoc_In table c v : assoc table c = Some v → In (c, v) table.
Proof.
  unfold assoc. destruct (List.find _ table) as [[k w]|] eqn:E; [|done].
  intros [= <-]. apply List.find_some in E as [Hin Hk].
  apply Z.eqb_eq in Hk. simpl in Hk. by subst.
Qed.

(** The case tables, checked entry by entry: whitespace has no case and
    no lower-case form of its own, and the lower-case form of a code point
    is made of code points that are in range, are not whitespace and are
    their own lower-case form. *)
Lemma whitespace_caseless :
  forallb (λ w, is_valid w && lower_fixed w && negb (iscased w) && negb (iscaseignorable w))
    whitespace = true.
Proof. by vm_compute. Qed.

Lemma lower_table_plain :
  forallb (λ entry : Z * list Z,
             negb (bool_decide (entry.2 = [])) &&
             forallb (λ d, is_valid d && negb (isspace d) && lower_fixed d) entry.2)
    lower_table = true.
Proof. by vm_compute. Qed.

Lemma sigma_plain :
  forallb (λ d, is_valid d && negb (isspace d) && lower_fixed d) [962; 963] = true.
Proof. by vm_compute. Qed.

Lemma space_caseless w :
  isspace w = true →
  valid w ∧ lower_fixed w = true ∧ iscased w = false ∧ iscaseignorable w = false.
Proof.
  intros Hw. apply isspace_spec in Hw.
  pose proof (proj1 (forallb_forall _ _) whitespace_caseless w Hw) as H.
  rewrite !andb_true_iff, !negb_true_iff, is_valid_spec in H. tauto.
Qed.

Lemma lower_fixed_at before c rest : lower_fixed c = true → lower_at before c rest = [c].
Proof.
  unfold lower_fixed, lower_at, lower_full. rewrite andb_true_iff, negb_true_iff.
  intros [-> H]. by destruct (assoc lower_table c).
Qed.

(** What [lower] writes for one code point. *)
Lemma lower_at_cases before c rest :
  lower_at before c rest = [c] ∧ lower_fixed c = true ∨
  lower_at before c rest ≠ [] ∧
  Forall (λ d, valid d ∧ isspace d = false ∧ lower_fixed d = true) (lower_at before c rest).
Proof.
  assert (Hall : ∀ v, forallb (λ d, is_valid d && negb (isspace d) && lower_fixed d) v = true →
                      Forall (λ d, valid d ∧ isspace d = false ∧ lower_fixed d = true) v).
  { intros v Hv. apply Forall_forall. intros d Hd. apply list_elem_of_In in Hd.
    pose proof (proj1 (forallb_forall _ _) Hv d Hd) as H.
    rewrite !andb_true_iff, negb_true_iff, is_valid_spec in H. tauto. }
  unfold lower_at. destruct (Z.eqb_spec c 931) as [->|Hc].
  { right. split; [done|].
    pose proof (Hall _ sigma_plain) as H.
    destruct (_ && _); apply Forall_singleton.
    - by apply Forall_inv in H.
    - by apply Forall_inv_tail, Forall_inv in H. }
  unfold lower_full. destruct (assoc lower_table c) as [v|] eqn:E; simpl.
  - right. apply assoc_In in E.
    pose proof (proj1 (forallb_forall _ _) lower_table_plain _ E) as H.
    simpl in H. rewrite andb_true_iff, negb_true_iff, bool_decide_eq_false in H.
    destruct H as [Hne Hv]. split; [done|]. by apply Hall.
  - left. split; [done|]. unfold lower_fixed. rewrite E.
    by rewrite (proj2 (Z.eqb_neq _ _) Hc).
Qed.

Lemma lower_at_valid before c rest :
  valid c → Forall valid (lower_at before c rest).
Proof.
  intros Hc. destruct (lower_at_cases before c rest) as [[-> _]|[_ H]].
  - by apply Forall_singleton.
  - eapply Forall_impl; [exact H|]. by intros d (? & _).
Qed.

Lemma lower_at_fixed before c rest :
  Forall (λ d, lower_fixed d = true) (lower_at before c rest).
Proof.
  destruct (lower_at_cases before c rest) as [[-> H]|[_ H]].
  - by apply Forall_singleton.
  - eapply Forall_impl; [exact H|]. by intros d (_ & _ & ?).
Qed.

Lemma lower_at_nonspace before c rest :
  isspace c = false →
  lower_at before c rest ≠ [] ∧
  Forall (λ d, isspace d = false) (lower_at before c rest).
Proof.
  intros Hc. destruct (lower_at_cases before c rest) as [[-> _]|[Hne H]].
  - split; [done|]. by apply Forall_singleton.
  - split; [done|]. eapply Forall_impl; [exact H|]. by intros d (_ & ? & _).
Qed.

Lemma lower_from_valid before u : Forall valid u → Forall valid (lower_from before u).
Proof.
  intros H. revert before. induction H as [|c u Hc _ IH]; intros before; simpl.
  - constructor.
  - apply Forall_app. split; [by apply lower_at_valid|apply IH].
Qed.

Lemma lower_from_fixed before u :
  Forall (λ d, lower_fixed d = true) (lower_from before u).
Proof.
  revert before. induction u as [|c u IH]; intros before; simpl.
  - constructor.
  - apply Forall_app. split; [apply lower_at_fixed|apply IH].
Qed.

Lemma lower_from_of_fixed before u :
  Forall (λ d, lower_fixed d = true) u → lower_from before u = u.
Proof.
  intros H. revert before. induction H as [|c u Hc _ IH]; intros before; simpl; [done|].
  by rewrite lower_fixed_at, IH.
Qed.

Lemma lower_from_nonspace before u :
  Forall (λ d, isspace d = false) u →
  Forall (λ d, isspace d = false) (lower_from before u) ∧
  (u ≠ [] → lower_from before u ≠ []).
Proof.
  intros H. revert before. induction H as [|c u Hc _ IH]; intros before; simpl.
  - split; [constructor|done].
  - destruct (lower_at_nonspace before c u Hc) as [Hne Hall]. split.
    + apply Forall_app. split; [done|apply IH].
    + intros _ Heq. apply app_eq_nil in Heq as [? _]. by apply Hne.
Qed.

(** A whitespace code point closes the context the final-sigma rule reads. *)
Lemma followed_by_cased_space x w y :
  isspace w = true → followed_by_cased (x ++ w :: y) = followed_by_cased x.
Proof.
  intros Hw. destruct (space_caseless w Hw) as (_ & _ & Hc & Hi).
  induction x as [|c x IH]; simpl.
  - by rewrite Hi, Hc.
  - by rewrite IH.
Qed.

Lemma lower_from_space before x w y :
  isspace w = true →
  lower_from before (x ++ w :: y) = lower_from before x ++ w :: lower_from false y.
Proof.
  intros Hw. destruct (space_caseless w Hw) as (_ & Hf & Hc & Hi).
  revert before. induction x as [|c x IH]; intros before; simpl.
  - rewrite lower_fixed_at by done. unfold next_before. by rewrite Hi, Hc.
  - rewrite IH, <- app_assoc. f_equal.
    unfold lower_at. by rewrite followed_by_cased_space.
Qed.

Lemma split_from_nonspace tok x rest :
  Forall (λ d, isspace d = false) x →
  split_from tok (x ++ rest) = split_from (tok ++ x) rest.
Proof.
  intros H. revert tok. induction H as [|c x Hc _ IH]; intros tok; simpl.
  - by rewrite app_nil_r.
  - rewrite Hc, IH. by rewrite <- app_assoc.
Qed.

Lemma split_from_space tok w y :
  isspace w = true → split_from tok (w :: y) = flush tok ++ split_from [] y.
Proof. intros Hw. simpl. by rewrite Hw. Qed.

Lemma split_from_token x :
  Forall (λ d, isspace d = false) x → split_from [] x = flush x.
Proof.
  intros H. rewrite <- (app_nil_r x) at 1. by rewrite split_from_nonspace.
Qed.

(** A text is a run without whitespace, or such a run, a whitespace code
    point and the rest. *)
Lemma first_space u :
  Forall (λ d, isspace d = false) u ∨
  ∃ x w y, u = x ++ w :: y ∧ Forall (λ d, isspace d = false) x ∧ isspace w = true.
Proof.
  induction u as [|c u IH].
  - left. constructor.
  - destruct (isspace c) eqn:Hc.
    + right. exists [], c, u. split_and!; [done|constructor|done].
    + destruct IH as [H|(x & w & y & -> & Hx & Hw)].
      * left. by constructor.
      * right. exists (c :: x), w, y. split_and!; [done|by constructor|done].
Qed.

Lemma flush_lower_from x :
  Forall (λ d, isspace d = false) x →
  flush (lower_from false x) = lower_from false <$> flush x.
Proof.
  intros H. destruct x as [|c x]; [done|].
  destruct (lower_from_nonspace false (c :: x) H) as [_ Hne].
  specialize (Hne ltac:(done)).
  change (lower_from false <$> flush (c :: x)) with [lower_from false (c :: x)].
  by destruct (lower_from false (c :: x)).
Qed.

(** Lower-casing commutes with splitting: no code point becomes or stops
    being whitespace, and no token sees its neighbours. *)
Lemma split_from_lower_le (n : nat) u :
  (length u <= n)%nat →
  split_from [] (lower_from false u) = lower_from false <$> split_from [] u.
Proof.
  revert u. induction n as [|n IH]; intros u Hn.
  { destruct u; [done|simpl in Hn; lia]. }
  destruct (first_space u) as [H|(x & w & y & -> & Hx & Hw)].
  - destruct (lower_from_nonspace false u H) as [Hl _].
    rewrite !split_from_token by done. by apply flush_lower_from.
  - destruct (lower_from_nonspace false x Hx) as [Hl _].
    rewrite lower_from_space by done.
    rewrite !split_from_nonspace, !app_nil_l, !split_from_space by done.
    rewrite fmap_app, flush_lower_from by done. f_equal.
    apply IH. rewrite length_app in Hn. simpl in Hn. lia.
Qed.

Lemma split_from_lower u :
  split_from [] (lower_from false u) = lower_from false <$> split_from [] u.
Proof. by apply (split_from_lower_le (length u)). Qed.

Lemma split_from_valid tok u :
  Forall valid tok → Forall valid u → Forall (Forall valid) (split_from tok u).
Proof.
  intros Ht Hu. revert tok Ht. induction Hu as [|c u Hc _ IH]; intros tok Ht; simpl.
  - destruct tok; [constructor|by apply Forall_singleton].
  - destruct (isspace c).
    + apply Forall_app. split; [|by apply IH].
      destruct tok; [constructor|by apply Forall_singleton].
    + apply IH. apply Forall_app. split; [done|by apply Forall_singleton].
Qed.

Lemma split_from_nil tok u :
  split_from tok u = [] ↔ tok = [] ∧ forallb isspace u = true.
Proof.
  revert tok. induction u as [|c u IH]; intros tok; simpl.
  - destruct tok; simpl; split; try done; by intros [? _].
  - destruct (isspace c); simpl.
    + rewrite app_nil, IH. destruct tok; simpl.
      * split; [by intros (_ & _ & ?)|by intros [_ ?]].
      * split; intros [? _]; discriminate.
    + rewrite IH. split; [|by intros [_ ?]]. intros [H _]. by destruct tok.
Qed.

(** *** The operations on strings *)

Lemma lower_split s : split (lower s) = lower <$> split s.
Proof.
  unfold split, lower.
  rewrite decode_encode by apply lower_from_valid, decode_valid.
  rewrite split_from_lower, <- !list_fmap_compose.
  apply Forall_fmap_ext_1.
  eapply Forall_impl; [apply split_from_valid; [constructor|apply decode_valid]|].
  intros tok Htok. simpl. by rewrite decode_encode.
Qed.

Lemma lower_idemp s : lower (lower s) = lower s.
Proof.
  unfold lower. rewrite decode_encode by apply lower_from_valid, decode_valid.
  by rewrite lower_from_of_fixed by apply lower_from_fixed.
Qed.

Lemma split_nil s : split s = [] ↔ blank s = true.
Proof.
  unfold split, blank. pose proof (split_from_nil [] (decode s)) as H.
  destruct (split_from [] (decode s)); simpl; split; try done.
  - intros _. by apply H.
  - intros Hb. by pose proof (proj2 H (conj eq_refl Hb)).
Qed.

(** *** ASCII text *)

Lemma ascii_case_table :
  forallb (λ c, match lower_full c, title_full c with
                | [l], [t] =>
                    (0 <=? l) && (l <? 128) && (0 <=? t) && (t <? 128) &&
                    Bool.eqb (iscased l) (iscased c) && Bool.eqb (iscased t) (iscased c) &&
                    match lower_full l, lower_full t, title_full t, title_full l with
                    | [l'], [l''], [t'], [t''] =>
                        (l' =? l) && (l'' =? l) && (t' =? t) && (t'' =? t)
                    | _, _, _, _ => false
                    end
                | _, _ => false
                end) (seqZ 0 128) = true.
Proof. by vm_compute. Qed.

Lemma ascii_case c :
  0 <= c < 128 →
  ∃ l t, lower_full c = [l] ∧ title_full c = [t] ∧
         0 <= l < 128 ∧ 0 <= t < 128 ∧
         iscased l = iscased c ∧ iscased t = iscased c ∧
         lower_full l = [l] ∧ lower_full t = [l] ∧
         title_full t = [t] ∧ title_full l = [t].
Proof.
  intros Hc.
  assert (Hin : In c (seqZ 0 128)).
  { apply list_elem_of_In, elem_of_seqZ. lia. }
  pose proof (proj1 (forallb_forall _ _) ascii_case_table c Hin) as H.
  cbv beta in H.
  destruct (lower_full c) as [|l [|]]; try done.
  destruct (title_full c) as [|t [|]]; try done.
  destruct (lower_full l) as [|l' [|]] eqn:E1; try (by rewrite andb_false_r in H).
  destruct (lower_full t) as [|l'' [|]] eqn:E2; try (by rewrite andb_false_r in H).
  destruct (title_full t) as [|t' [|]] eqn:E3; try (by rewrite andb_false_r in H).
  destruct (title_full l) as [|t'' [|]] eqn:E4; try (by rewrite andb_false_r in H).
  rewrite !andb_true_iff, !Z.leb_le, !Z.ltb_lt, !Z.eqb_eq, !Bool.eqb_true_iff in H.
  destruct H as ((((((? & ?) & ?) & ?) & ?) & ?) & ((-> & ->) & ->) & ->).
  exists l, t. split_and!; done || lia.
Qed.

Lemma lower_at_ascii before c rest : 0 <= c < 128 → lower_at before c rest = lower_full c.
Proof.
  intros Hc. unfold lower_at. by rewrite (proj2 (Z.eqb_neq c 931)) by lia.
Qed.

Lemma isascii_spec s : isascii s = true ↔ Forall (λ c, 0 <= c < 128) (decode s).
Proof.
  unfold isascii. rewrite forallb_forall, Forall_forall. split.
  - intros H c Hc. pose proof (proj1 (Forall_forall _ _) (decode_valid s) c Hc) as [? _].
    apply list_elem_of_In, H, Z.ltb_lt in Hc. lia.
  - intros H c Hc. apply list_elem_of_In, H in Hc. apply Z.ltb_lt. lia.
Qed.

Lemma ascii_valid u : Forall (λ c, 0 <= c < 128) u → Forall valid u.
Proof. intros H. eapply Forall_impl; [exact H|]. unfold valid. simpl. lia. Qed.

Lemma title_from_ascii previous before u :
  Forall (λ c, 0 <= c < 128) u →
  Forall (λ c, 0 <= c < 128) (title_from previous before u).
Proof.
  intros H. revert previous before.
  induction H as [|c u Hc _ IH]; intros previous before; simpl; [constructor|].
  destruct (ascii_case c Hc) as (l & t & Hl & Ht & ? & ? & _).
  rewrite lower_at_ascii, Hl, Ht by done.
  apply Forall_app. split; [|apply IH]. by destruct previous; apply Forall_singleton.
Qed.





Lemma title_isascii s : isascii s = true → isascii (title s) = true.
Proof.
  rewrite !isascii_spec. intros H. unfold title.
  rewrite decode_encode by by apply ascii_valid, title_from_ascii.
  by apply title_from_ascii.
Qed.




End CodePoints.

(** ** The name matcher *)

Section NameMatcher.

Import PyStr.

Lemma spec_tokens_split name : spec_tokens name = lower <$> split name.
Proof. apply lower_split. Qed.

Lemma name_parts_spec name : name_parts name = list_to_set (spec_tokens name).
Proof. unfold name_parts. by rewrite spec_tokens_split. Qed.

Lemma name_parts_eq_iff a b :
  name_parts a = name_parts b ↔ spec_matches a b.
Proof.
  rewrite !name_parts_spec. unfold spec_matches. split.
  - intros H t. rewrite <- !(elem_of_list_to_set (C := gset string)). by rewrite H.
  - intros H. apply set_eq. intros t. rewrite !elem_of_list_to_set. apply H.
Qed.

Lemma name_match_true a b : name_match a b = true ↔ spec_matches a b.
Proof. unfold name_match. rewrite bool_decide_eq_true. apply name_parts_eq_iff. Qed.

Lemma name_match_sym a b : name_match a b = name_match b a.
Proof. unfold name_match. apply bool_decide_ext. split; intros H; by symmetry. Qed.

Lemma name_match_refl a : name_match a a = true.
Proof. unfold name_match. by apply bool_decide_eq_true. Qed.

Lemma name_parts_same_case a a' : lower a = lower a' → name_parts a = name_parts a'.
Proof. intros H. rewrite !name_parts_spec. unfold spec_tokens. by rewrite H. Qed.

Lemma name_parts_same_tokens a a' :
  (∀ t, t ∈ split a ↔ t ∈ split a') → name_parts a = name_parts a'.
Proof.
  intros H. unfold name_parts. apply set_eq. intros t.
  rewrite !elem_of_list_to_set, !list_elem_of_fmap.
  split; intros (y & -> & Hy); exists y; split; try done; by apply H.
Qed.

Lemma name_parts_lower a : name_parts (lower a) = name_parts a.
Proof. apply name_parts_same_case, lower_idemp. Qed.

(** C1. The name match of the read path and of the write path succeeds
    exactly when the two names have the same set of lower-cased
    whitespace-separated tokens, whether the name is lower-cased before or
    after it is split; "Jane Doe" matches "Doe Jane" and not "Jane"; the
    match is symmetric, and it does not depend on the case of the letters
    (a name matches its lower-cased form, "jane DOE" matches "Doe Jane",
    and so do names outside ASCII, which Python lower-cases and splits by
    the Unicode tables: a no-break space separates, a capital sigma becomes
    a final one), nor on the order, the repetition or the spacing of the
    tokens. *)
Theorem name_match_token_sets :
  (∀ a b, name_match a b = true ↔ spec_matches a b) ∧
  (∀ a b, name_match a b = true ↔
          ∀ t, t ∈ lower <$> split a ↔ t ∈ lower <$> split b) ∧
  name_match "Jane Doe" "Doe Jane" = true ∧
  name_match "Jane Doe" "Jane" = false ∧
  (∀ a b, name_match a b = name_match b a) ∧
  (∀ a a' b, lower a = lower a' → name_match a b = name_match a' b) ∧
  (∀ a a' b, (∀ t, t ∈ split a ↔ t ∈ split a') → name_match a b = name_match a' b) ∧
  (∀ a, name_match (lower a) a = true) ∧
  name_match "jane DOE" "Doe Jane" = true ∧
  name_match "JOSÉ Núñez" "núñez  josé" = true ∧
  name_match "ΌΣΟΣ ΣΟΦΊΑ" "σοφία όσος" = true ∧
  name_match (encode [74; 97; 110; 101; 160; 68; 111; 101]%Z) "doe JANE" = true ∧
  name_match "Jane Doe" "jane doé" = false.
Proof.
  split_and!.
  - apply name_match_true.
  - intros a b. rewrite name_match_true. unfold spec_matches.
    by rewrite !spec_tokens_split.
  - by vm_compute.
  - by vm_compute.
  - apply name_match_sym.
  - intros a a' b H. unfold name_match. by rewrite (name_parts_same_case a a').
  - intros a a' b H. unfold name_match. by rewrite (name_parts_same_tokens a a').
  - intros a. unfold name_match. by rewrite name_parts_lower, bool_decide_eq_true.
  - by vm_compute.
  - by vm_compute.
  - by vm_compute.
  - by vm_compute.
  - by vm_compute.
Qed.

Lemma name_match_token_sets_witness :
  name_match "JOSÉ  doe" "Doe José" = name_match "josé  DOE" "Doe José" ∧
  name_match " Jane   Doe" "Doe Jane" = name_match "Jane Doe" "Doe Jane" ∧
  (name_match "JANE doe" "Doe Jane" = true ↔ spec_matches "JANE doe" "Doe Jane") ∧
  name_match (lower "JOSÉ Núñez") "JOSÉ Núñez" = true.
Proof.
  destruct name_match_token_sets
    as (Hspec & _ & _ & _ & _ & Hcase & Htokens & Hlower & _).
  split_and!.
  - apply Hcase. vm_compute. reflexivity.
  - apply Htokens. intros t.
    replace (split " Jane   Doe") with (split "Jane Doe") by (vm_compute; reflexivity).
    reflexivity.
  - apply Hspec.
  - apply Hlower.
Defined.

End NameMatcher.

(** ** The read path *)

Section ReadPath.

Lemma other_facility_visits_from_filter acc facility visits :
  other_facility_visits_from acc facility visits
  = acc ++ filter (from_other facility) visits.
Proof.
  revert acc. induction visits as [|v visits IH]; intros acc; simpl.
  - by rewrite app_nil_r.
  - rewrite filter_cons.
    destruct (decide (from_other facility v)) as [H|H]; unfold from_other in H.
    + rewrite bool_decide_eq_true_2 by done. rewrite IH. by rewrite <- app_assoc.
    + rewrite bool_decide_eq_false_2 by done. apply IH.
Qed.

Lemma other_facility_visits_filter facility visits :
  other_facility_visits facility visits = filter (from_other facility) visits.
Proof. apply (other_facility_visits_from_filter []). Qed.

(** The loop over the dependents answers with the first name match. *)
Lemma search_children_find current_user patient children s :
  search_children current_user patient children s =
  match list_find (matches_name (VisitSearch.name patient)) children with
  | None => (Returned [], s, [])
  | Some (_, child) =>
      match ChildDoc.visits child with
      | Some visits =>
          (Returned (other_facility_visits (User.facility_name current_user) visits), s, [])
      | None => (Raised (KeyError "visits"), s, [])
      end
  end.
Proof.
  induction children as [|c children IH]; simpl; [done|].
  destruct (decide (matches_name (VisitSearch.name patient) c)) as [H|H];
    unfold matches_name in H.
  - rewrite H. by destruct (ChildDoc.visits c).
  - apply not_true_is_false in H. rewrite H, IH.
    by destruct (list_find _ children) as [[k c']|].
Qed.

Lemma find_one_run f p s :
  find_one f p s = (Returned (project p <$> (snd <$> select f s)), s, [FindOne f p]).
Proof. done. Qed.

Lemma get_patient_store current_user patient s :
  store_after (get_patient current_user patient s) = s ∧
  Forall (λ c, is_write c = false) (calls (get_patient current_user patient s)).
Proof.
  unfold get_patient, mbind, Handler_bind, bind.
  destruct (VisitSearch.is_child patient); rewrite find_one_run;
    destruct (select _ s) as [[i d]|]; simpl.
  - destruct (PatientDoc.dependents d) as [children|]; simpl.
    + rewrite search_children_find.
      destruct (list_find _ children) as [[k c]|]; [destruct (ChildDoc.visits c)|];
        simpl; split; try done; by repeat constructor.
    + split; [done|]. by repeat constructor.
  - split; [done|]. by repeat constructor.
  - destruct (PatientDoc.visits d); simpl; split; try done; by repeat constructor.
  - split; [done|]. by repeat constructor.
Qed.

Lemma get_patient_adult current_user patient s i d visits :
  VisitSearch.is_child patient = false →
  select (by_id (VisitSearch.id_number patient)) s = Some (i, d) →
  PatientDoc.visits d = Some visits →
  get_patient current_user patient s =
  (Returned (filter (from_other (User.facility_name current_user)) visits), s,
   [FindOne (by_id (VisitSearch.id_number patient)) ProjVisits]).
Proof.
  intros Hc Hs Hv. unfold get_patient, mbind, Handler_bind, bind.
  rewrite Hc, find_one_run, Hs. simpl. rewrite Hv. simpl.
  by rewrite other_facility_visits_filter.
Qed.

Lemma get_patient_child current_user patient s i d children k child visits :
  VisitSearch.is_child patient = true →
  select (by_id (VisitSearch.id_number patient)) s = Some (i, d) →
  PatientDoc.dependents d = Some children →
  list_find (matches_name (VisitSearch.name patient)) children = Some (k, child) →
  ChildDoc.visits child = Some visits →
  get_patient current_user patient s =
  (Returned (filter (from_other (User.facility_name current_user)) visits), s,
   [FindOne (by_id (VisitSearch.id_number patient)) ProjDependents]).
Proof.
  intros Hc Hs Hd Hf Hv. unfold get_patient, mbind, Handler_bind, bind.
  rewrite Hc, find_one_run, Hs. simpl. rewrite Hd. simpl.
  rewrite search_children_find, Hf, Hv. simpl.
  by rewrite other_facility_visits_filter.
Qed.



(** C3. On the ledger a search key resolves to, the search returns the
    visits whose facility name differs from the requester's, compared as
    exact strings, in their stored order, and leaves the store as it was.
    A search by FacilityB over the child ledger [[v1]] of FacilityA returns
    [[v1]]; the same search by FacilityA returns nothing; a requester whose
    name differs from FacilityA's only by case is another facility. *)
Theorem searchVisits_other_facilities_only :
  (∀ current_user patient s ledger,
     resolved_ledger patient s ledger →
     get_patient current_user patient s =
     (Returned (filter (from_other (User.facility_name current_user)) ledger), s,
      [FindOne (by_id (VisitSearch.id_number patient))
               (if VisitSearch.is_child patient then ProjDependents else ProjVisits)])) ∧
  (∀ current_user body,
     VisitSearch_validate body = Returned body →
     searchVisits current_user body = get_patient current_user body) ∧
  outcome (searchVisits Sample.facility_b (Sample.child_search (Some "Mary Wanjiru")) Sample.store)
    = Returned [Sample.v1] ∧
  outcome (searchVisits Sample.facility_a (Sample.child_search (Some "Mary Wanjiru")) Sample.store)
    = Returned [] ∧
  filter (from_other "facilitya") [Sample.v1] = [Sample.v1].
Proof.
  split_and!.
  - intros current_user patient s ledger (i & d & Hs & Hl).
    destruct (VisitSearch.is_child patient) eqn:Hc.
    + destruct Hl as (children & k & child & Hd & Hf & Hv).
      by eapply get_patient_child.
    + by eapply get_patient_adult.
  - intros current_user body H. unfold searchVisits. by rewrite H.
  - by vm_compute.
  - by vm_compute.
  - by vm_compute.
Qed.

Lemma searchVisits_other_facilities_only_witness :
  resolved_ledger (Sample.child_search (Some "Mary Wanjiru")) Sample.store [Sample.v1] ∧
  get_patient Sample.facility_b (Sample.child_search (Some "Mary Wanjiru")) Sample.store =
  (Returned (filter (from_other "FacilityB") [Sample.v1]), Sample.store,
   [FindOne (by_id 111) ProjDependents]).
Proof.
  assert (H : resolved_ledger (Sample.child_search (Some "Mary Wanjiru"))
                Sample.store [Sample.v1]).
  { exists 0, Sample.mary. split; [by vm_compute|].
    exists [Sample.amina], 0, Sample.amina. split_and!; by vm_compute. }
  split; [exact H|].
  exact (proj1 searchVisits_other_facilities_only Sample.facility_b
           (Sample.child_search (Some "Mary Wanjiru")) Sample.store [Sample.v1] H).
Defined.



End ReadPath.

(** ** The write path *)

Section WritePath.

Lemma select_lookup f s i d :
  select f s = Some (i, d) → s !! i = Some d ∧ matches f d = true.
Proof. intros H. apply list_find_Some in H as (? & ? & _). done. Qed.

Lemma truthy_found f s :
  truthy (project ProjIdNumber <$> (snd <$> select f s)) = bool_decide (is_Some (select f s)).
Proof. by destruct (select f s) as [[i d]|]. Qed.

(** The document [find_one] returns for an identity number is also the one
    a later update selects, when the filter adds the name of one of its
    dependents. *)
Lemma select_with_dependent n x s i d children :
  select (by_id n) s = Some (i, d) →
  PatientDoc.dependents d = Some children →
  Exists (has_name x) children →
  select (by_id_and_dependent n x) s = Some (i, d).
Proof.
  intros Hs Hd Hx. unfold select in *.
  apply list_find_Some in Hs as (Hi & Hm & Hlt).
  apply list_find_Some. split_and!; [done| |].
  - unfold matches in *. simpl in *. rewrite andb_true_r in Hm.
    rewrite Hm, Hd. simpl. by apply bool_decide_eq_true.
  - intros j y Hj Hji Hy. apply (Hlt j y Hj Hji).
    unfold matches in *. simpl in *. rewrite andb_true_r.
    by apply andb_true_iff in Hy as [? _].
Qed.

(** The positional operator stops at the first dependent bearing the name
    of the first dependent that matched. *)
Lemma first_match_is_first_named incoming children k c :
  list_find (matches_name incoming) children = Some (k, c) →
  list_find (has_name (ChildDoc.name c)) children = Some (k, c).
Proof.
  intros H. apply list_find_Some in H as (Hk & Hm & Hlt).
  apply list_find_Some. split_and!; [done..|].
  intros j y Hj Hjk Hy. apply (Hlt j y Hj Hjk).
  unfold has_name in Hy. unfold matches_name in *. by rewrite Hy.
Qed.

Lemma update_matching_child_find patient visit_details children s :
  update_matching_child patient visit_details children s =
  match list_find (matches_name (VisitSearch.name patient)) children with
  | None => (Returned false, s, [])
  | Some (_, child) =>
      (update_one
         (by_id_and_dependent (VisitSearch.id_number patient) (ChildDoc.name child))
         (PushDependentVisits (VisitDetails.model_dump visit_details));;
       ret true) s
  end.
Proof.
  induction children as [|c children IH]; simpl; [done|].
  destruct (decide (matches_name (VisitSearch.name patient) c)) as [H|H];
    unfold matches_name in H.
  - by rewrite H.
  - apply not_true_is_false in H. rewrite H, IH.
    by destruct (list_find _ children) as [[k c']|].
Qed.

Ltac run_handler :=
  unfold add_visit, new_parent, mbind, Handler_bind, bind, subscript, ret, raise,
    Handler_ret, mret; cbv beta zeta.

Variables (current_user : User.t) (now : PyDatetime.datetime) (visit : VisitUpload.t).

Abbreviation the_patient := (VisitUpload.patient_search visit).
Abbreviation the_id := (VisitSearch.id_number (VisitUpload.patient_search visit)).
Abbreviation the_record := (stored_visit current_user now visit).

Lemma add_visit_new_adult s :
  VisitSearch.is_child the_patient = false →
  select (by_id the_id) s = None →
  add_visit current_user now visit s =
  (Returned posted, s ++ [adult_doc the_patient the_record],
   [FindOne (by_id the_id) ProjIdNumber; InsertOne (adult_doc the_patient the_record)]).
Proof.
  intros Hc Hs. run_handler. rewrite Hc.
  rewrite find_one_run, truthy_found. by rewrite Hs.
Qed.

Lemma add_visit_existing_adult s i d :
  VisitSearch.is_child the_patient = false →
  select (by_id the_id) s = Some (i, d) →
  add_visit current_user now visit s =
  (Returned posted,
   <[i := with_visits d (default [] (PatientDoc.visits d) ++ [the_record])]> s,
   [FindOne (by_id the_id) ProjIdNumber; UpdateOne (by_id the_id) (PushVisits the_record)]).
Proof.
  intros Hc Hs. run_handler. rewrite Hc.
  rewrite find_one_run, truthy_found. rewrite Hs. simpl.
  unfold update_one. by rewrite Hs.
Qed.

Lemma add_visit_new_parent s parent_name :
  VisitSearch.is_child the_patient = true →
  select (by_id the_id) s = None →
  VisitSearch.parent_name the_patient = Some parent_name →
  add_visit current_user now visit s =
  (Returned posted, s ++ [parent_doc the_patient parent_name the_record],
   [FindOne (by_id the_id) ProjIdNumber; InsertOne (parent_doc the_patient parent_name the_record)]).
Proof.
  intros Hc Hs Hp. run_handler. rewrite Hc.
  rewrite find_one_run, truthy_found. rewrite Hs. simpl. by rewrite Hp.
Qed.

Lemma add_visit_new_parent_unnamed s :
  VisitSearch.is_child the_patient = true →
  select (by_id the_id) s = None →
  VisitSearch.parent_name the_patient = None →
  add_visit current_user now visit s =
  (Raised (ValidationError [("name", "Input should be a valid string")]), s,
   [FindOne (by_id the_id) ProjIdNumber]).
Proof.
  intros Hc Hs Hp. run_handler. rewrite Hc.
  rewrite find_one_run, truthy_found. rewrite Hs. simpl. by rewrite Hp.
Qed.

Lemma add_visit_missing_dependents s i d :
  VisitSearch.is_child the_patient = true →
  select (by_id the_id) s = Some (i, d) →
  PatientDoc.dependents d = None →
  add_visit current_user now visit s =
  (Raised (KeyError "dependents"), s,
   [FindOne (by_id the_id) ProjIdNumber; FindOne (by_id the_id) ProjDependents]).
Proof.
  intros Hc Hs Hd. run_handler. rewrite Hc.
  rewrite find_one_run, truthy_found. rewrite Hs. simpl.
  unfold find_one. rewrite Hs. simpl. by rewrite Hd.
Qed.

Lemma add_visit_new_child s i d children :
  VisitSearch.is_child the_patient = true →
  select (by_id the_id) s = Some (i, d) →
  PatientDoc.dependents d = Some children →
  list_find (matches_name (VisitSearch.name the_patient)) children = None →
  add_visit current_user now visit s =
  (Returned posted,
   <[i := with_dependents d (children ++ [stored_child (VisitSearch.name the_patient) the_record])]> s,
   [FindOne (by_id the_id) ProjIdNumber; FindOne (by_id the_id) ProjDependents;
    UpdateOne (by_id the_id) (PushDependents (stored_child (VisitSearch.name the_patient) the_record))]).
Proof.
  intros Hc Hs Hd Hf. run_handler. rewrite Hc.
  rewrite find_one_run, truthy_found. rewrite Hs. simpl.
  unfold find_one. rewrite Hs. simpl. rewrite Hd. simpl.
  destruct (decide (length children = 0)) as [Hl|Hl].
  - rewrite bool_decide_eq_true_2 by done.
    unfold update_one. rewrite Hs. simpl. by rewrite Hd.
  - rewrite bool_decide_eq_false_2 by done.
    rewrite update_matching_child_find, Hf. simpl.
    unfold update_one. rewrite Hs. simpl. by rewrite Hd.
Qed.

Lemma add_visit_existing_child s i d children k child :
  VisitSearch.is_child the_patient = true →
  select (by_id the_id) s = Some (i, d) →
  PatientDoc.dependents d = Some children →
  list_find (matches_name (VisitSearch.name the_patient)) children = Some (k, child) →
  add_visit current_user now visit s =
  (Returned posted,
   <[i := with_dependents d (<[k := push_child_visit child the_record]> children)]> s,
   [FindOne (by_id the_id) ProjIdNumber; FindOne (by_id the_id) ProjDependents;
    UpdateOne (by_id_and_dependent the_id (ChildDoc.name child)) (PushDependentVisits the_record)]).
Proof.
  intros Hc Hs Hd Hf. run_handler. rewrite Hc.
  rewrite find_one_run, truthy_found. rewrite Hs. simpl.
  unfold find_one. rewrite Hs. simpl. rewrite Hd. simpl.
  assert (Hne : children ≠ []) by (intros ->; done).
  rewrite bool_decide_eq_false_2 by (by destruct children).
  rewrite update_matching_child_find. rewrite Hf.
  unfold mbind, Handler_bind, bind, update_one.
  pose proof (first_match_is_first_named _ _ _ _ Hf) as Hnamed.
  rewrite (select_with_dependent the_id (ChildDoc.name child) s i d children Hs Hd).
  2:{ apply Exists_exists. exists child. split; [|done].
      apply list_find_Some in Hf as (Hk & _). by eapply list_elem_of_lookup_2. }
  simpl. rewrite Hd. simpl. by rewrite Hnamed.
Qed.

(** Every run of the route has one of six shapes: it raises before any
    write, or it inserts one of the two new documents, or it pushes onto the
    document that [find_one] selected. *)
Lemma add_visit_cases s :
  let r := add_visit current_user now visit s in
  (∃ e reads, r = (Raised e, s, reads) ∧ writes reads = []) ∨
  (∃ doc reads,
     r = (Returned posted, s ++ [doc], reads ++ [InsertOne doc]) ∧ writes reads = [] ∧
     (doc = adult_doc the_patient the_record ∨
      ∃ parent_name, doc = parent_doc the_patient parent_name the_record)) ∨
  (∃ i d reads, s !! i = Some d ∧ writes reads = [] ∧
     (r = (Returned posted,
           <[i := with_visits d (default [] (PatientDoc.visits d) ++ [the_record])]> s,
           reads ++ [UpdateOne (by_id the_id) (PushVisits the_record)]) ∨
      (∃ children,
         PatientDoc.dependents d = Some children ∧
         r = (Returned posted,
              <[i := with_dependents d
                       (children ++ [stored_child (VisitSearch.name the_patient) the_record])]> s,
              reads ++ [UpdateOne (by_id the_id)
                          (PushDependents
                             (stored_child (VisitSearch.name the_patient) the_record))])) ∨
      (∃ children k child,
         PatientDoc.dependents d = Some children ∧ children !! k = Some child ∧
         r = (Returned posted,
              <[i := with_dependents d (<[k := push_child_visit child the_record]> children)]> s,
              reads ++ [UpdateOne (by_id_and_dependent the_id (ChildDoc.name child))
                          (PushDependentVisits the_record)])))).
Proof.
  intros r. subst r.
  destruct (VisitSearch.is_child the_patient) eqn:Hc;
    destruct (select (by_id the_id) s) as [[i d]|] eqn:Hs.
  - pose proof (select_lookup _ _ _ _ Hs) as [Hi _].
    destruct (PatientDoc.dependents d) as [children|] eqn:Hd.
    + destruct (list_find (matches_name (VisitSearch.name the_patient)) children)
        as [[k child]|] eqn:Hf.
      * right; right. exists i, d, [FindOne (by_id the_id) ProjIdNumber;
                                    FindOne (by_id the_id) ProjDependents].
        split_and!; [done..|]. right; right. exists children, k, child.
        split_and!; [done| |by apply add_visit_existing_child].
        by apply list_find_Some in Hf as (? & _).
      * right; right. exists i, d, [FindOne (by_id the_id) ProjIdNumber;
                                    FindOne (by_id the_id) ProjDependents].
        split_and!; [done..|]. right; left. exists children.
        split; [done|]. by apply add_visit_new_child.
    + left. eexists _, _. split; [by apply (add_visit_missing_dependents s i d)|done].
  - destruct (VisitSearch.parent_name the_patient) as [parent_name|] eqn:Hp.
    + right; left. exists (parent_doc the_patient parent_name the_record),
                          [FindOne (by_id the_id) ProjIdNumber].
      split_and!; [by apply add_visit_new_parent|done|eauto].
    + left. eexists _, _. split; [by apply add_visit_new_parent_unnamed|done].
  - pose proof (select_lookup _ _ _ _ Hs) as [Hi _].
    right; right. exists i, d, [FindOne (by_id the_id) ProjIdNumber].
    split_and!; [done..|]. left. by apply add_visit_existing_adult.
  - right; left. exists (adult_doc the_patient the_record),
                        [FindOne (by_id the_id) ProjIdNumber].
    split_and!; [by apply add_visit_new_adult|done|eauto].
Qed.

End WritePath.

(** ** Append-only ledgers *)

Section AppendOnly.

Lemma array_kept_refl {A} (o : option (list A)) : array_kept o o.
Proof. by split. Qed.

Lemma array_kept_push {A} (o : option (list A)) x :
  array_kept o (Some (default [] o ++ [x])).
Proof.
  split; [by eauto|]. intros j y Hj. simpl. by apply lookup_app_l_Some.
Qed.

Lemma child_kept_refl c : child_kept c c.
Proof. split; [done|apply array_kept_refl]. Qed.

Lemma doc_kept_refl d : doc_kept d d.
Proof.
  unfold doc_kept. split_and!; [done|done|apply array_kept_refl|done|].
  intros k c Hk. exists c. split; [done|apply child_kept_refl].
Qed.

Lemma doc_kept_push_visit d v :
  doc_kept d (with_visits d (default [] (PatientDoc.visits d) ++ [v])).
Proof.
  unfold doc_kept. split_and!; [done|done|apply array_kept_push|done|].
  intros k c Hk. exists c. split; [done|apply child_kept_refl].
Qed.

Lemma doc_kept_push_dependent d children c :
  PatientDoc.dependents d = Some children →
  doc_kept d (with_dependents d (children ++ [c])).
Proof.
  intros Hd. unfold doc_kept.
  split_and!; [done|done|apply array_kept_refl|by eauto|].
  rewrite Hd. simpl. intros k c' Hk. exists c'.
  split; [by apply lookup_app_l_Some|apply child_kept_refl].
Qed.

Lemma doc_kept_push_child_visit d children k child v :
  PatientDoc.dependents d = Some children →
  children !! k = Some child →
  doc_kept d (with_dependents d (<[k := push_child_visit child v]> children)).
Proof.
  intros Hd Hk. unfold doc_kept.
  split_and!; [done|done|apply array_kept_refl|by eauto|].
  rewrite Hd. simpl. intros j c Hj.
  destruct (decide (j = k)) as [->|Hne].
  - exists (push_child_visit child v). split.
    + apply list_lookup_insert_eq. by eapply lookup_lt_Some.
    + assert (c = child) as -> by congruence.
      split; [done|apply array_kept_push].
  - exists c. split; [|apply child_kept_refl].
    by rewrite list_lookup_insert_ne.
Qed.

Lemma store_kept_refl s : store_kept s s.
Proof. intros i d H. exists d. split; [done|apply doc_kept_refl]. Qed.

Lemma store_kept_insert s doc : store_kept s (s ++ [doc]).
Proof.
  intros i d H. exists d. split; [by apply lookup_app_l_Some|apply doc_kept_refl].
Qed.

Lemma store_kept_update s i d d' :
  s !! i = Some d → doc_kept d d' → store_kept s (<[i := d']> s).
Proof.
  intros Hi Hk j e Hj. destruct (decide (j = i)) as [->|Hne].
  - exists d'. split; [apply list_lookup_insert_eq; by eapply lookup_lt_Some|].
    by assert (e = d) as -> by congruence.
  - exists e. split; [by rewrite list_lookup_insert_ne|apply doc_kept_refl].
Qed.


Lemma add_visit_store_kept current_user now visit s :
  store_kept s (store_after (add_visit current_user now visit s)).
Proof.
  destruct (add_visit_cases current_user now visit s)
    as [(e & reads & -> & _)
       |[(doc & reads & -> & _ & _)
        |(i & d & reads & Hi & _ &
          [->|[(children & Hd & ->)|(children & k & child & Hd & Hk & ->)]])]];
    unfold store_after; simpl.
  - apply store_kept_refl.
  - apply store_kept_insert.
  - by eapply store_kept_update, doc_kept_push_visit.
  - by eapply store_kept_update, doc_kept_push_dependent.
  - by eapply store_kept_update, doc_kept_push_child_visit.
Qed.

Lemma postVisit_store_kept current_user now body s :
  store_kept s (store_after (postVisit current_user now body s)).
Proof.
  unfold postVisit. destruct (VisitUpload_validate body).
  - apply add_visit_store_kept.
  - apply store_kept_refl.
Qed.

End AppendOnly.

(** ** What a run writes *)

Section Written.





End Written.



(** C2. When the request is for a child, the parent document exists, and
    its non-empty list of dependents holds at least one whose stored name
    matches the incoming name, the route makes exactly one write: a
    positional update, filtered by the identity number and by the stored
    name of the first matching dependent in list order, that pushes the
    visit onto that dependent's visits.  The dependents keep their number:
    no child is appended. *)
Theorem postVisit_existing_child_positional_update
    current_user now visit s i d children :
  let patient := VisitUpload.patient_search visit in
  let record := stored_visit current_user now visit in
  let r := add_visit current_user now visit s in
  VisitSearch.is_child patient = true →
  select (by_id (VisitSearch.id_number patient)) s = Some (i, d) →
  PatientDoc.dependents d = Some children →
  children ≠ [] →
  Exists (matches_name (VisitSearch.name patient)) children →
  ∃ k child,
    list_find (matches_name (VisitSearch.name patient)) children = Some (k, child) ∧
    outcome r = Returned posted ∧
    writes (calls r) =
      [UpdateOne (by_id_and_dependent (VisitSearch.id_number patient) (ChildDoc.name child))
                 (PushDependentVisits record)] ∧
    store_after r =
      <[i := with_dependents d (<[k := push_child_visit child record]> children)]> s ∧
    ChildDoc.visits (push_child_visit child record)
      = Some (default [] (ChildDoc.visits child) ++ [record]) ∧
    length (<[k := push_child_visit child record]> children) = length children.
Proof.
  intros patient record r Hc Hs Hd _ Hex. subst patient record r.
  destruct (list_find (matches_name (VisitSearch.name (VisitUpload.patient_search visit)))
              children) as [[k child]|] eqn:Hf.
  - exists k, child.
    rewrite (add_visit_existing_child current_user now visit s i d children k child)
      by done.
    split_and!; try done. apply length_insert.
  - exfalso. apply list_find_None in Hf.
    apply Exists_exists in Hex as (c & Hin & Hm).
    rewrite Forall_forall in Hf. by apply (Hf c).
Qed.

Lemma postVisit_existing_child_positional_update_witness :
  ∃ k child,
    list_find (matches_name "Wanjiru Amina") [Sample.amina] = Some (k, child) ∧
    outcome (add_visit Sample.facility_b Sample.now
               (Sample.child_upload (Some "Mary Wanjiru") "127/87") Sample.store)
      = Returned posted ∧
    writes (calls (add_visit Sample.facility_b Sample.now
                     (Sample.child_upload (Some "Mary Wanjiru") "127/87") Sample.store)) =
      [UpdateOne (by_id_and_dependent 111 (ChildDoc.name child))
         (PushDependentVisits
            (stored_visit Sample.facility_b Sample.now
               (Sample.child_upload (Some "Mary Wanjiru") "127/87")))] ∧
    store_after (add_visit Sample.facility_b Sample.now
                   (Sample.child_upload (Some "Mary Wanjiru") "127/87") Sample.store) =
      <[0 := with_dependents Sample.mary
               (<[k := push_child_visit child
                         (stored_visit Sample.facility_b Sample.now
                            (Sample.child_upload (Some "Mary Wanjiru") "127/87"))]>
                  [Sample.amina])]> Sample.store ∧
    ChildDoc.visits
      (push_child_visit child
         (stored_visit Sample.facility_b Sample.now
            (Sample.child_upload (Some "Mary Wanjiru") "127/87")))
      = Some (default [] (ChildDoc.visits child) ++
              [stored_visit Sample.facility_b Sample.now
                 (Sample.child_upload (Some "Mary Wanjiru") "127/87")]) ∧
    length (<[k := push_child_visit child
                     (stored_visit Sample.facility_b Sample.now
                        (Sample.child_upload (Some "Mary Wanjiru") "127/87"))]>
              [Sample.amina]) = length [Sample.amina].
Proof.
  apply (postVisit_existing_child_positional_update Sample.facility_b Sample.now
           (Sample.child_upload (Some "Mary Wanjiru") "127/87") Sample.store
           0 Sample.mary [Sample.amina]).
  - reflexivity.
  - by vm_compute.
  - reflexivity.
  - discriminate.
  - apply Exists_cons_hd. by vm_compute.
Defined.

(** ** Well-formed documents *)

Section WellFormed.

Lemma wf_adult_doc patient record : wf_doc (adult_doc patient record).
Proof. split; [by eauto|]. exists []. by split. Qed.

Lemma wf_parent_doc patient parent_name record :
  wf_doc (parent_doc patient parent_name record).
Proof.
  split; [by eauto|]. eexists. split; [done|].
  repeat constructor. unfold wf_child. by eauto.
Qed.

Lemma wf_push_visit d visits : wf_doc d → wf_doc (with_visits d visits).
Proof. intros [_ Hd]. split; [by eauto|done]. Qed.

Lemma wf_push_dependent d children name record :
  wf_doc d → PatientDoc.dependents d = Some children →
  wf_doc (with_dependents d (children ++ [stored_child name record])).
Proof.
  intros [Hv (children' & Hd' & Hall)] Hd. split; [done|].
  eexists. split; [done|]. assert (children' = children) as -> by congruence.
  apply Forall_app. split; [done|]. repeat constructor. unfold wf_child. by eauto.
Qed.

Lemma wf_push_child_visit d children k child record :
  wf_doc d → PatientDoc.dependents d = Some children →
  wf_doc (with_dependents d (<[k := push_child_visit child record]> children)).
Proof.
  intros [Hv (children' & Hd' & Hall)] Hd. split; [done|].
  eexists. split; [done|]. assert (children' = children) as -> by congruence.
  apply Forall_insert; [done|]. unfold wf_child. by eauto.
Qed.

Lemma add_visit_wf current_user now visit s :
  Forall wf_doc s → Forall wf_doc (store_after (add_visit current_user now visit s)).
Proof.
  intros Hwf.
  destruct (add_visit_cases current_user now visit s)
    as [(e & reads & -> & _)
       |[(doc & reads & -> & _ & Hdoc)
        |(i & d & reads & Hi & _ &
          [->|[(children & Hd & ->)|(children & k & child & Hd & Hk & ->)]])]];
    unfold store_after; simpl; try done.
  - apply Forall_app. split; [done|]. apply Forall_singleton.
    destruct Hdoc as [->|[parent_name ->]]; [apply wf_adult_doc|apply wf_parent_doc].
  - apply Forall_insert; [done|]. apply wf_push_visit.
    rewrite Forall_forall in Hwf. by eapply Hwf, list_elem_of_lookup_2.
  - apply Forall_insert; [done|]. apply wf_push_dependent; [|done].
    rewrite Forall_forall in Hwf. by eapply Hwf, list_elem_of_lookup_2.
  - apply Forall_insert; [done|]. apply wf_push_child_visit; [|done].
    rewrite Forall_forall in Hwf. by eapply Hwf, list_elem_of_lookup_2.
Qed.

Lemma postVisit_wf current_user now body s :
  Forall wf_doc s → Forall wf_doc (store_after (postVisit current_user now body s)).
Proof.
  intros Hwf. unfold postVisit. destruct (VisitUpload_validate body); [|done].
  by apply add_visit_wf.
Qed.

Lemma searchVisits_store current_user body s :
  store_after (searchVisits current_user body s) = s.
Proof.
  unfold searchVisits. destruct (VisitSearch_validate body); [|done].
  apply get_patient_store.
Qed.

Lemma reachable_wf s : reachable s → Forall wf_doc s.
Proof.
  induction 1 as [|s current_user now body _ IH|s current_user body _ IH].
  - constructor.
  - by apply postVisit_wf.
  - by rewrite searchVisits_store.
Qed.

Lemma select_wf f s i d : Forall wf_doc s → select f s = Some (i, d) → wf_doc d.
Proof.
  intros Hwf Hs. apply select_lookup in Hs as [Hi _].
  rewrite Forall_forall in Hwf. by eapply Hwf, list_elem_of_lookup_2.
Qed.

(** On well-formed documents every subscript of the read path finds its
    key. *)
Lemma get_patient_returns current_user patient s :
  Forall wf_doc s →
  ∃ visits, outcome (get_patient current_user patient s) = Returned visits.
Proof.
  intros Hwf. unfold get_patient, mbind, Handler_bind, bind.
  destruct (VisitSearch.is_child patient); rewrite find_one_run;
    destruct (select _ s) as [[i d]|] eqn:Hs; simpl; try by eauto.
  - destruct (select_wf _ _ _ _ Hwf Hs) as [_ (children & -> & Hall)]. simpl.
    rewrite search_children_find.
    destruct (list_find _ children) as [[k c]|] eqn:Hf; [|by eauto].
    apply list_find_Some in Hf as (Hk & _).
    rewrite Forall_forall in Hall. apply list_elem_of_lookup_2, Hall in Hk.
    destruct Hk as [visits ->]. by eauto.
  - destruct (select_wf _ _ _ _ Hwf Hs) as [[visits ->] _]. by eauto.
Qed.

End WellFormed.

Section Outcomes.




Lemma not_written_in_reads log c : writes log = [] → c ∈ log → is_write c = false.
Proof.
  intros Hw Hin. destruct (is_write c) eqn:E; [|done].
  assert (H : In c (writes log)).
  { apply List.filter_In. split; [by apply list_elem_of_In|done]. }
  rewrite Hw in H. destruct H.
Qed.

Lemma add_visit_inserted current_user now visit s doc :
  InsertOne doc ∈ calls (add_visit current_user now visit s) → wf_doc doc.
Proof.
  destruct (add_visit_cases current_user now visit s)
    as [(e & reads & -> & Hr)
       |[(doc' & reads & -> & Hr & Hdoc)
        |(i & d & reads & Hi & Hr &
          [->|[(children & Hd & ->)|(children & k & child & Hd & Hk & ->)]])]];
    unfold calls; simpl; intros Hin;
    try (apply elem_of_app in Hin as [Hin|Hin];
         [|apply list_elem_of_singleton in Hin]);
    try (by apply (not_written_in_reads _ _ Hr) in Hin);
    try discriminate.
  injection Hin as ->.
  destruct Hdoc as [->|[parent_name ->]]; [apply wf_adult_doc|apply wf_parent_doc].
Qed.

End Outcomes.



(** C9. Every document a visit post inserts has its [visits] and its
    [dependents] as lists, and each of its dependents has its [visits]; no
    update removes a key that was there; so on every state of the
    collection this system produces, the read path finds every key it
    subscripts and returns. *)
Theorem written_documents_have_their_keys :
  (∀ current_user now visit s doc,
     InsertOne doc ∈ calls (add_visit current_user now visit s) →
     is_Some (PatientDoc.visits doc) ∧
     ∃ children, PatientDoc.dependents doc = Some children ∧
                 Forall (λ c, is_Some (ChildDoc.visits c)) children) ∧
  (∀ current_user now body s i d,
     s !! i = Some d →
     ∃ d', store_after (postVisit current_user now body s) !! i = Some d' ∧
           (is_Some (PatientDoc.visits d) → is_Some (PatientDoc.visits d')) ∧
           (is_Some (PatientDoc.dependents d) → is_Some (PatientDoc.dependents d')) ∧
           ∀ k c, default [] (PatientDoc.dependents d) !! k = Some c →
                  ∃ c', default [] (PatientDoc.dependents d') !! k = Some c' ∧
                        (is_Some (ChildDoc.visits c) → is_Some (ChildDoc.visits c'))) ∧
  (∀ current_user now body s,
     Forall wf_doc s → Forall wf_doc (store_after (postVisit current_user now body s))) ∧
  (∀ s, reachable s → Forall wf_doc s) ∧
  (∀ s current_user patient,
     reachable s →
     ∃ visits, outcome (get_patient current_user patient s) = Returned visits).
Proof.
  split_and!.
  - intros current_user now visit s doc Hin.
    apply (add_visit_inserted current_user now visit s doc Hin).
  - intros current_user now body s i d Hi.
    destruct (postVisit_store_kept current_user now body s i d Hi)
      as (d' & Hi' & _ & _ & [Hv _] & Hd & Hc).
    exists d'. split_and!; [done..|].
    intros k c Hk. destruct (Hc k c Hk) as (c' & Hk' & _ & [Hcv _]). by eauto.
  - apply postVisit_wf.
  - apply reachable_wf.
  - intros s current_user patient Hr.
    by apply get_patient_returns, reachable_wf.
Qed.

Lemma written_documents_have_their_keys_witness :
  ∃ visits,
    outcome (get_patient Sample.facility_b (Sample.child_search (Some "Mary Wanjiru"))
               (store_after (postVisit Sample.facility_a Sample.now
                               (Sample.child_upload (Some "Mary Wanjiru") "127/87") [])))
    = Returned visits.
Proof.
  destruct written_documents_have_their_keys as (_ & _ & _ & _ & H).
  apply H. apply reachable_post, reachable_empty.
Defined.

(** ** Validation *)

Section Validation.

Lemma get_parent_name_raises data parent_name :
  get_parent_name data parent_name
    = Raised (ValueError "Must supply a parent name for a child") ↔
  data = Some true ∧ (parent_name = None ∨ parent_name = Some "null").
Proof.
  unfold get_parent_name. destruct data as [[|]|]; simpl.
  - destruct parent_name as [p|]; simpl.
    + destruct (decide (p = "null")) as [->|Hne].
      * split; [by auto|done].
      * rewrite bool_decide_eq_false_2 by congruence.
        split; [done|]. intros [_ [?|?]]; congruence.
    + split; [by auto|done].
  - split; [done|]. by intros [? _].
  - split; [done|]. by intros [? _].
Qed.

Lemma get_parent_name_returns is_child parent_name :
  ¬ (is_child = true ∧ (parent_name = None ∨ parent_name = Some "null")) →
  get_parent_name (Some is_child) parent_name = Returned parent_name.
Proof.
  intros H. unfold get_parent_name. destruct is_child; [|done]. simpl.
  destruct parent_name as [p|]; [|by destruct H; auto]. simpl.
  rewrite bool_decide_eq_false_2; [done|]. intros ?. apply H. by auto.
Qed.

Lemma VisitSearch_errors_missing raw :
  VisitSearch.is_child raw = true →
  VisitSearch.parent_name raw = None ∨ VisitSearch.parent_name raw = Some "null" →
  VisitSearch_errors raw = Returned [parent_name_error].
Proof.
  intros Hc Hp. unfold VisitSearch_errors.
  assert (H : get_parent_name (Some (VisitSearch.is_child raw)) (VisitSearch.parent_name raw)
              = Raised (ValueError "Must supply a parent name for a child")).
  { apply get_parent_name_raises. by rewrite Hc. }
  by rewrite H.
Qed.

Lemma VisitSearch_errors_none raw :
  ¬ (VisitSearch.is_child raw = true ∧
     (VisitSearch.parent_name raw = None ∨ VisitSearch.parent_name raw = Some "null")) →
  VisitSearch_errors raw = Returned [].
Proof.
  intros H. unfold VisitSearch_errors. by rewrite get_parent_name_returns.
Qed.

End Validation.

(** C10. The validator of the search key raises its parent-name error
    exactly when [is_child] is true and [parent_name] is [None] or the
    string "null"; every other parent name, the empty string among them,
    is returned as it is, and the search key is then valid. *)
Theorem get_parent_name_rejects_none_and_null_only :
  (∀ data parent_name,
     get_parent_name data parent_name
       = Raised (ValueError "Must supply a parent name for a child") ↔
     data = Some true ∧ (parent_name = None ∨ parent_name = Some "null")) ∧
  (∀ is_child parent_name,
     ¬ (is_child = true ∧ (parent_name = None ∨ parent_name = Some "null")) →
     get_parent_name (Some is_child) parent_name = Returned parent_name) ∧
  (∀ raw,
     is_validation_error (VisitSearch_validate raw) = true ↔
     VisitSearch.is_child raw = true ∧
     (VisitSearch.parent_name raw = None ∨ VisitSearch.parent_name raw = Some "null")) ∧
  (∀ raw,
     ¬ (VisitSearch.is_child raw = true ∧
        (VisitSearch.parent_name raw = None ∨ VisitSearch.parent_name raw = Some "null")) →
     VisitSearch_validate raw = Returned raw) ∧
  get_parent_name (Some true) (Some "") = Returned (Some "") ∧
  VisitSearch_validate (Sample.child_search (Some "")) = Returned (Sample.child_search (Some "")).
Proof.
  split_and!.
  - apply get_parent_name_raises.
  - apply get_parent_name_returns.
  - intros raw. unfold VisitSearch_validate. split.
    + intros H.
      destruct (decide (VisitSearch.is_child raw = true ∧
                        (VisitSearch.parent_name raw = None ∨
                         VisitSearch.parent_name raw = Some "null"))) as [Hy|Hn]; [done|].
      by rewrite (VisitSearch_errors_none raw Hn) in H.
    + intros [Hc Hp]. by rewrite (VisitSearch_errors_missing raw Hc Hp).
  - intros raw Hn. unfold VisitSearch_validate. by rewrite (VisitSearch_errors_none raw Hn).
  - done.
  - done.
Qed.

Lemma get_parent_name_rejects_none_and_null_only_witness :
  get_parent_name (Some true) (Some "Mary Wanjiru") = Returned (Some "Mary Wanjiru").
Proof.
  apply (proj1 (proj2 get_parent_name_rejects_none_and_null_only)).
  intros [_ [?|?]]; discriminate.
Defined.

(** C5 as the specification states it, refuted: a request for a child
    whose parent name is the empty string is not rejected, and it reaches
    the store. *)
Lemma empty_parent_name_is_accepted :
  ¬ (∀ current_user now body s,
       VisitSearch.is_child (VisitUpload.patient_search body) = true →
       VisitSearch.parent_name (VisitUpload.patient_search body) = None ∨
       VisitSearch.parent_name (VisitUpload.patient_search body) = Some "" →
       is_validation_error (outcome (postVisit current_user now body s)) = true ∧
       calls (postVisit current_user now body s) = []).
Proof.
  intros H.
  destruct (H Sample.facility_a Sample.now (Sample.child_upload (Some "") "127/87") [])
    as [Hv _]; [done|by right|].
  vm_compute in Hv. discriminate.
Qed.

(** C5, amended. A request whose search key is for a child and whose
    parent name is null, or the string "null", is rejected with a
    validation error on [parent_name], the store untouched and no store
    call made; this holds for a visit post and for a search. *)
Theorem child_without_parent_name_is_rejected :
  (∀ current_user now body s,
     VisitSearch.is_child (VisitUpload.patient_search body) = true →
     VisitSearch.parent_name (VisitUpload.patient_search body) = None ∨
     VisitSearch.parent_name (VisitUpload.patient_search body) = Some "null" →
     ∃ errors,
       postVisit current_user now body s = (Raised (ValidationError errors), s, []) ∧
       parent_name_error ∈ errors) ∧
  (∀ current_user body s,
     VisitSearch.is_child body = true →
     VisitSearch.parent_name body = None ∨ VisitSearch.parent_name body = Some "null" →
     searchVisits current_user body s
       = (Raised (ValidationError [parent_name_error]), s, [])).
Proof.
  split.
  - intros current_user now body s Hc Hp.
    unfold postVisit, VisitUpload_validate.
    rewrite (VisitSearch_errors_missing _ Hc Hp). simpl.
    eexists. split; [done|]. apply list_elem_of_here.
  - intros current_user body s Hc Hp.
    unfold searchVisits, VisitSearch_validate.
    by rewrite (VisitSearch_errors_missing _ Hc Hp).
Qed.

Lemma child_without_parent_name_is_rejected_witness :
  ∃ errors,
    postVisit Sample.facility_a Sample.now (Sample.child_upload None "127/87") Sample.store
      = (Raised (ValidationError errors), Sample.store, []) ∧
    parent_name_error ∈ errors.
Proof.
  apply (proj1 child_without_parent_name_is_rejected); [reflexivity|by left].
Defined.




(** * Further properties of the routes and the models *)

(** ** Serializers and the matcher *)

Section Serializers.

Import PyStr.



Lemma name_match_trans a b c :
  name_match a b = true → name_match b c = true → name_match a c = true.
Proof.
  unfold name_match. rewrite !bool_decide_eq_true. congruence.
Qed.

Lemma name_match_left a a' b :
  name_match a a' = true → name_match a b = name_match a' b.
Proof.
  unfold name_match. rewrite bool_decide_eq_true. by intros ->.
Qed.



Lemma name_parts_empty a : name_parts a = ∅ ↔ blank a = true.
Proof.
  rewrite <- split_nil. unfold name_parts. split.
  - intros H. destruct (split a) as [|t l]; [done|].
    exfalso. apply (not_elem_of_empty (C := gset string) (lower t)).
    rewrite <- H. apply elem_of_list_to_set. simpl. apply list_elem_of_here.
  - by intros ->.
Qed.

(** X3. A name without a token (empty, or made of whitespace, which for
    Python includes the no-break space and the other Unicode spaces) has no
    parts: it matches every other such name and no name that has a
    token. *)
Theorem blank_names_match_each_other a b :
  blank a = true → (name_match a b = true ↔ blank b = true).
Proof.
  intros Ha. unfold name_match. rewrite bool_decide_eq_true.
  rewrite (proj2 (name_parts_empty a) Ha). rewrite <- name_parts_empty.
  split; intros H; by symmetry.
Qed.

Lemma blank_names_match_each_other_witness :
  (name_match "" (encode [32; 160; 8195; 9]%Z) = true ↔ blank (encode [32; 160; 8195; 9]%Z) = true) ∧
  (name_match "  " "Jane" = true ↔ blank "Jane" = true).
Proof.
  split; apply blank_names_match_each_other; reflexivity.
Defined.

End Serializers.

(** ** The routes as functions of the document found *)

Section Resolution.

Lemma get_patient_answer current_user patient s :
  get_patient current_user patient s =
  (answer current_user patient (found_doc (VisitSearch.id_number patient) s), s,
   [FindOne (by_id (VisitSearch.id_number patient))
            (if VisitSearch.is_child patient then ProjDependents else ProjVisits)]).
Proof.
  unfold get_patient, answer, found_doc, child_answer, mbind, Handler_bind, bind.
  destruct (VisitSearch.is_child patient); rewrite find_one_run;
    destruct (select _ s) as [[i d]|]; simpl; try done.
  - destruct (PatientDoc.dependents d) as [children|]; simpl; [|done].
    rewrite search_children_find.
    destruct (list_find _ children) as [[k c]|]; [|done].
    destruct (ChildDoc.visits c); [|done].
    by rewrite other_facility_visits_filter.
  - destruct (PatientDoc.visits d); simpl; [|done].
    by rewrite other_facility_visits_filter.
Qed.

(** The store after [add_visit]: the written document is appended when no
    document was found, and takes the place of the found document
    otherwise; the route returns exactly when it has a document to write. *)
Lemma add_visit_written_doc current_user now visit s :
  let patient := VisitUpload.patient_search visit in
  let record := stored_visit current_user now visit in
  let r := add_visit current_user now visit s in
  match written_doc patient record (found_doc (VisitSearch.id_number patient) s) with
  | None => (∃ e, outcome r = Raised e) ∧ store_after r = s
  | Some doc =>
      outcome r = Returned posted ∧
      store_after r =
        match select (by_id (VisitSearch.id_number patient)) s with
        | None => s ++ [doc]
        | Some (i, _) => <[i := doc]> s
        end
  end.
Proof.
  intros patient record r. subst patient record r. unfold written_doc, found_doc.
  destruct (VisitSearch.is_child (VisitUpload.patient_search visit)) eqn:Hc;
    destruct (select (by_id (VisitSearch.id_number (VisitUpload.patient_search visit))) s)
      as [[i d]|] eqn:Hs; simpl.
  - destruct (PatientDoc.dependents d) as [children|] eqn:Hd; simpl.
    + destruct (list_find (matches_name (VisitSearch.name (VisitUpload.patient_search visit)))
                  children) as [[k child]|] eqn:Hf.
      * by rewrite (add_visit_existing_child current_user now visit s i d children k child).
      * by rewrite (add_visit_new_child current_user now visit s i d children).
    + rewrite (add_visit_missing_dependents current_user now visit s i d) by done.
      split; [by eexists|done].
  - destruct (VisitSearch.parent_name (VisitUpload.patient_search visit))
      as [parent_name|] eqn:Hp; simpl.
    + by rewrite (add_visit_new_parent current_user now visit s parent_name).
    + rewrite (add_visit_new_parent_unnamed current_user now visit s) by done.
      split; [by eexists|done].
  - by rewrite (add_visit_existing_adult current_user now visit s i d).
  - by rewrite (add_visit_new_adult current_user now visit s).
Qed.

Lemma written_doc_id patient record found doc :
  (∀ d, found = Some d → PatientDoc.id_number d = VisitSearch.id_number patient) →
  written_doc patient record found = Some doc →
  PatientDoc.id_number doc = VisitSearch.id_number patient.
Proof.
  intros Hid. unfold written_doc. destruct found as [d|].
  - specialize (Hid d eq_refl). destruct (VisitSearch.is_child patient).
    + destruct (PatientDoc.dependents d) as [children|]; [|done]. simpl.
      destruct (list_find _ children) as [[k c]|]; by intros [= <-].
    + by intros [= <-].
  - destruct (VisitSearch.is_child patient).
    + destruct (VisitSearch.parent_name patient); [|done]. by intros [= <-].
    + by intros [= <-].
Qed.

Lemma select_by_id n s i d :
  select (by_id n) s = Some (i, d) → PatientDoc.id_number d = n.
Proof.
  intros H. apply select_lookup in H as [_ H]. unfold matches in H. simpl in H.
  rewrite andb_true_r in H. by apply bool_decide_eq_true in H.
Qed.

Lemma matches_by_id n d : matches (by_id n) d = true ↔ PatientDoc.id_number d = n.
Proof.
  unfold matches. simpl. by rewrite andb_true_r, bool_decide_eq_true.
Qed.

(** Replacing the found document by one with the same number: the same
    index is selected, now with the new document. *)
Lemma select_insert_found n s i d doc :
  select (by_id n) s = Some (i, d) →
  PatientDoc.id_number doc = n →
  select (by_id n) (<[i := doc]> s) = Some (i, doc).
Proof.
  intros Hs Hid. unfold select in *.
  apply list_find_Some in Hs as (Hi & Hm & Hlt).
  apply list_find_Some. split_and!.
  - apply list_lookup_insert_eq. by eapply lookup_lt_Some.
  - by apply matches_by_id.
  - intros j y Hj Hji. rewrite list_lookup_insert_ne in Hj by lia. by apply (Hlt j).
Qed.

Lemma select_insert_other n m s i d doc :
  select (by_id n) s = Some (i, d) →
  PatientDoc.id_number doc = n →
  m ≠ n →
  found_doc m (<[i := doc]> s) = found_doc m s.
Proof.
  intros Hs Hid Hne. unfold found_doc, select.
  pose proof (select_by_id _ _ _ _ Hs) as Hd.
  apply select_lookup in Hs as [Hi _].
  destruct (list_find (λ d0, matches (by_id m) d0 = true) s) as [[j y]|] eqn:Hf.
  - apply list_find_Some in Hf as (Hj & Hm & Hlt).
    assert (j ≠ i).
    { intros ->. apply matches_by_id in Hm. congruence. }
    assert (H' : list_find (λ d0, matches (by_id m) d0 = true) (<[i := doc]> s)
                 = Some (j, y)); [|by rewrite H'].
    apply list_find_Some. split_and!; [by rewrite list_lookup_insert_ne|done|].
    intros k z Hk Hkj. destruct (decide (k = i)) as [->|Hki].
    + rewrite list_lookup_insert_eq in Hk by (by eapply lookup_lt_Some).
      injection Hk as <-. rewrite matches_by_id. congruence.
    + rewrite list_lookup_insert_ne in Hk by done. by apply (Hlt k).
  - assert (H' : list_find (λ d0, matches (by_id m) d0 = true) (<[i := doc]> s) = None);
      [|by rewrite H'].
    apply list_find_None. apply list_find_None in Hf.
    apply Forall_insert; [done|]. rewrite matches_by_id. congruence.
Qed.

Lemma select_app_new n s doc :
  select (by_id n) s = None →
  PatientDoc.id_number doc = n →
  select (by_id n) (s ++ [doc]) = Some (length s, doc).
Proof.
  intros Hs Hid. unfold select in *. rewrite list_find_app_r by done. simpl.
  rewrite decide_True by (by apply matches_by_id). done.
Qed.

Lemma select_app_other n m s doc :
  PatientDoc.id_number doc = n → m ≠ n →
  found_doc m (s ++ [doc]) = found_doc m s.
Proof.
  intros Hid Hne. unfold found_doc, select.
  destruct (list_find (λ d0, matches (by_id m) d0 = true) s) as [[j y]|] eqn:Hf.
  - by rewrite (list_find_app_l _ _ _ _ _ Hf).
  - rewrite list_find_app_r by done. simpl.
    rewrite decide_False; [done|]. rewrite matches_by_id. congruence.
Qed.

(** The document a later [find_one] selects, for the number of the post
    and for any other number. *)
Lemma found_doc_after_post current_user now visit s m :
  let patient := VisitUpload.patient_search visit in
  let record := stored_visit current_user now visit in
  let n := VisitSearch.id_number patient in
  found_doc m (store_after (add_visit current_user now visit s)) =
  if decide (m = n)
  then match written_doc patient record (found_doc n s) with
       | Some doc => Some doc
       | None => found_doc n s
       end
  else found_doc m s.
Proof.
  intros patient record n. subst patient record n.
  pose proof (add_visit_written_doc current_user now visit s) as H. simpl in H.
  destruct (written_doc _ _ _) as [doc|] eqn:Hw.
  - destruct H as [_ ->].
    assert (Hid : PatientDoc.id_number doc
                  = VisitSearch.id_number (VisitUpload.patient_search visit)).
    { apply (λ H, written_doc_id _ _ _ _ H Hw).
      intros d Hd. unfold found_doc in Hd.
      destruct (select _ s) as [[i d']|] eqn:Hs; [|done].
      injection Hd as <-. by apply (select_by_id _ s i). }
    destruct (select _ s) as [[i d]|] eqn:Hs.
    + destruct (decide _) as [->|Hne].
      * unfold found_doc. by rewrite (select_insert_found _ s i d doc Hs Hid).
      * by apply (select_insert_other _ m s i d doc Hs Hid).
    + destruct (decide _) as [->|Hne].
      * unfold found_doc. by rewrite (select_app_new _ s doc Hs Hid).
      * by apply (select_app_other _ m s doc Hid).
  - destruct H as [_ ->]. by destruct (decide _) as [->|].
Qed.

End Resolution.

(** ** A post and the searches after it *)

Section PostThenSearch.

Lemma matches_name_same x x' c :
  name_match x x' = true → matches_name x' c ↔ matches_name x c.
Proof.
  unfold matches_name, name_match. rewrite !bool_decide_eq_true.
  intros H. by rewrite H.
Qed.

Lemma matches_name_pushed x c record :
  matches_name x (push_child_visit c record) ↔ matches_name x c.
Proof. done. Qed.

Lemma list_find_pushed x children k child record :
  list_find (matches_name x) children = Some (k, child) →
  list_find (matches_name x) (<[k := push_child_visit child record]> children)
  = Some (k, push_child_visit child record).
Proof.
  intros H. apply list_find_Some in H as (Hk & Hm & Hlt).
  apply list_find_Some. split_and!.
  - apply list_lookup_insert_eq. by eapply lookup_lt_Some.
  - done.
  - intros j y Hj Hjk. rewrite list_lookup_insert_ne in Hj by lia. by apply (Hlt j).
Qed.

Lemma list_find_appended x children record :
  list_find (matches_name x) children = None →
  list_find (matches_name x) (children ++ [stored_child x record])
  = Some (length children, stored_child x record).
Proof.
  intros H. rewrite list_find_app_r by done. simpl.
  rewrite decide_True; [done|]. unfold matches_name. simpl. apply name_match_refl.
Qed.

(** Replacing an element that does not satisfy the predicate by another
    that does not either changes nothing for [list_find]. *)
Lemma list_find_insert_unmatched {A} (P : A → Prop) `{!∀ x, Decision (P x)}
    (l : list A) k x y :
  l !! k = Some x → ¬ P x → ¬ P y → list_find P (<[k := y]> l) = list_find P l.
Proof.
  revert k. induction l as [|z l IH]; intros k Hk Hx Hy; [done|].
  destruct k as [|k]; simpl in *.
  - injection Hk as ->. by rewrite !decide_False.
  - destruct (decide (P z)); [done|]. by rewrite (IH k).
Qed.

(** The ledger of the written document, under any key for the same ledger:
    the old ledger and then the record; and the keys the read path
    subscripts on the way are there. *)
Lemma written_doc_answer other patient p' record found doc :
  written_doc patient record found = Some doc →
  same_ledger patient p' →
  answer other p' (Some doc) =
  Returned (filter (from_other (User.facility_name other))
              (ledger_of patient found ++ [record])) ∧
  ledger_of p' (Some doc) = ledger_of patient found ++ [record].
Proof.
  intros Hw (Hid & Hc & Hn). unfold written_doc in Hw. unfold answer, ledger_of.
  rewrite <- Hc. destruct (VisitSearch.is_child patient) eqn:Hchild.
  - specialize (Hn eq_refl).
    assert (Hext : ∀ l, list_find (matches_name (VisitSearch.name p')) l
                        = list_find (matches_name (VisitSearch.name patient)) l).
    { intros l. apply list_find_ext. intros c. by apply matches_name_same. }
    unfold child_answer. destruct found as [d|].
    + destruct (PatientDoc.dependents d) as [children|] eqn:Hd; [|done]. simpl in *.
      destruct (list_find (matches_name (VisitSearch.name patient)) children)
        as [[k child]|] eqn:Hf; injection Hw as <-; simpl; rewrite Hext.
      * by rewrite (list_find_pushed _ _ _ _ record Hf).
      * by rewrite (list_find_appended _ _ record Hf).
    + destruct (VisitSearch.parent_name patient) as [parent_name|]; [|done].
      injection Hw as <-. simpl. by rewrite decide_True by exact Hn.
  - destruct found as [d|]; by injection Hw as <-.
Qed.

Lemma add_visit_then_get_patient current_user now visit s other p' status :
  let patient := VisitUpload.patient_search visit in
  let record := stored_visit current_user now visit in
  let before := ledger_of patient (found_doc (VisitSearch.id_number patient) s) in
  let s' := store_after (add_visit current_user now visit s) in
  outcome (add_visit current_user now visit s) = Returned status →
  same_ledger patient p' →
  outcome (get_patient other p' s') =
    Returned (filter (from_other (User.facility_name other)) before ++
              (if decide (User.facility_name other = User.facility_name current_user)
               then [] else [record])) ∧
  ledger_of p' (found_doc (VisitSearch.id_number p') s') = before ++ [record].
Proof.
  intros patient record before s' Ho Hsame. subst patient record before s'.
  pose proof (add_visit_written_doc current_user now visit s) as Hw. simpl in Hw.
  pose proof (found_doc_after_post current_user now visit s
                (VisitSearch.id_number p')) as Hfound. simpl in Hfound.
  destruct Hsame as (Hid & Hrest). rewrite <- Hid in *.
  rewrite decide_True in Hfound by done.
  destruct (written_doc _ _ _) as [doc|] eqn:Hdoc.
  - rewrite get_patient_answer. unfold outcome. simpl.
    rewrite <- Hid, Hfound.
    destruct (written_doc_answer other _ p' _ _ _ Hdoc (conj Hid Hrest)) as [-> ->].
    split; [|done]. f_equal. rewrite filter_app. f_equal.
    rewrite filter_cons, filter_nil. unfold from_other at 1. simpl.
    destruct (decide (User.facility_name other = User.facility_name current_user))
      as [->|Hne].
    + by rewrite decide_False by (intros H; by apply H).
    + by rewrite decide_True by (intros [= H]; by apply Hne).
  - destruct Hw as [[e He] _]. congruence.
Qed.

(** X4. After a post that returned, a search under any key for the same
    ledger (the same number and kind; for a child, a matching name; for an
    adult, any name) returns, by whatever facility, the visits it would
    have returned before followed by the new record, unless the searcher is
    the poster, who gets the old answer: the record is appended to the
    ledger and to no other place in it. *)
Theorem post_then_search current_user now visit s other p' status :
  let patient := VisitUpload.patient_search visit in
  let record := stored_visit current_user now visit in
  let before := ledger_of patient (found_doc (VisitSearch.id_number patient) s) in
  let s' := store_after (add_visit current_user now visit s) in
  outcome (add_visit current_user now visit s) = Returned status →
  same_ledger patient p' →
  outcome (get_patient other p' s') =
    Returned (filter (from_other (User.facility_name other)) before ++
              (if decide (User.facility_name other = User.facility_name current_user)
               then [] else [record])) ∧
  ledger_of p' (found_doc (VisitSearch.id_number p') s') = before ++ [record].
Proof. apply add_visit_then_get_patient. Qed.

Lemma post_then_search_witness :
  outcome (get_patient Sample.facility_b Sample.adult_search
             (store_after (add_visit Sample.facility_a Sample.now Sample.adult_upload
                             Sample.store))) =
    Returned (filter (from_other "FacilityB")
                (ledger_of Sample.adult_search (found_doc 111 Sample.store)) ++
              (if decide (User.facility_name Sample.facility_b
                          = User.facility_name Sample.facility_a)
               then []
               else [stored_visit Sample.facility_a Sample.now Sample.adult_upload])) ∧
  ledger_of Sample.adult_search
    (found_doc 111 (store_after (add_visit Sample.facility_a Sample.now Sample.adult_upload
                                   Sample.store)))
  = ledger_of Sample.adult_search (found_doc 111 Sample.store) ++
    [stored_visit Sample.facility_a Sample.now Sample.adult_upload].
Proof.
  apply (post_then_search Sample.facility_a Sample.now Sample.adult_upload Sample.store
           Sample.facility_b Sample.adult_search posted).
  - by vm_compute.
  - split_and!; [reflexivity|reflexivity|discriminate].
Defined.

(** The answer from the written document, under a key for another ledger
    of the same number, is the answer from the document found. *)
Lemma written_doc_frame other patient p' record found doc :
  written_doc patient record found = Some doc →
  VisitSearch.id_number patient = VisitSearch.id_number p' →
  ¬ same_ledger patient p' →
  answer other p' (Some doc) = answer other p' found.
Proof.
  intros Hw Hid Hnot. unfold written_doc in Hw. unfold answer.
  destruct (VisitSearch.is_child patient) eqn:Hchild;
    destruct (VisitSearch.is_child p') eqn:Hchild'.
  - assert (Hn : ¬ name_match (VisitSearch.name patient) (VisitSearch.name p') = true).
    { intros H. apply Hnot. unfold same_ledger. by rewrite Hchild, Hchild'. }
    assert (Hnew : ∀ record, ¬ matches_name (VisitSearch.name p')
                                 (stored_child (VisitSearch.name patient) record)).
    { intros r. exact Hn. }
    unfold child_answer. destruct found as [d|].
    + destruct (PatientDoc.dependents d) as [children|] eqn:Hd; [|done]. simpl in *.
      destruct (list_find (matches_name (VisitSearch.name patient)) children)
        as [[k child]|] eqn:Hf; injection Hw as <-; simpl.
      * apply list_find_Some in Hf as (Hk & Hm & _).
        assert (Hc : ¬ matches_name (VisitSearch.name p') child).
        { intros H. apply Hn. unfold matches_name in *.
          apply (name_match_trans _ (ChildDoc.name child)); [|done].
          by rewrite name_match_sym. }
        by rewrite (list_find_insert_unmatched _ children k child _ Hk Hc).
      * destruct (list_find (matches_name (VisitSearch.name p')) children)
          as [[j c]|] eqn:Hf'.
        -- by rewrite (list_find_app_l _ _ _ _ _ Hf').
        -- rewrite list_find_app_r by done. simpl.
           by rewrite decide_False by apply Hnew.
    + destruct (VisitSearch.parent_name patient) as [parent_name|]; [|done].
      injection Hw as <-. simpl. by rewrite decide_False by apply Hnew.
  - destruct found as [d|].
    + destruct (PatientDoc.dependents d) as [children|]; [|done]. simpl in Hw.
      destruct (list_find _ children) as [[k child]|]; by injection Hw as <-.
    + destruct (VisitSearch.parent_name patient) as [parent_name|]; [|done].
      by injection Hw as <-.
  - destruct found as [d|]; by injection Hw as <-.
  - exfalso. apply Hnot. unfold same_ledger. by rewrite Hchild, Hchild'.
Qed.

(** X5. A post changes the answer of no search for another ledger: another
    identity number, or the adult when the post is for a child, or a child
    when the post is for the adult, or a child whose name does not match the
    posted name.  This holds for every store and every post, one that raises
    included. *)
Theorem post_leaves_other_ledgers current_user now visit s other p' :
  ¬ same_ledger (VisitUpload.patient_search visit) p' →
  outcome (get_patient other p' (store_after (add_visit current_user now visit s)))
  = outcome (get_patient other p' s).
Proof.
  intros Hnot. rewrite !get_patient_answer. unfold outcome. simpl.
  pose proof (found_doc_after_post current_user now visit s
                (VisitSearch.id_number p')) as Hfound. simpl in Hfound.
  rewrite Hfound. destruct (decide _) as [Hid|Hne]; [|done].
  destruct (written_doc _ _ _) as [doc|] eqn:Hdoc; [|by rewrite Hid].
  rewrite Hid. by apply (written_doc_frame other _ p' _ _ _ Hdoc).
Qed.

Lemma post_leaves_other_ledgers_witness :
  outcome (get_patient Sample.facility_b Sample.adult_search
             (store_after (add_visit Sample.facility_a Sample.now
                             (Sample.child_upload (Some "Mary Wanjiru") "127/87")
                             Sample.store)))
  = outcome (get_patient Sample.facility_b Sample.adult_search Sample.store).
Proof.
  apply post_leaves_other_ledgers. intros (_ & H & _). discriminate.
Defined.

End PostThenSearch.

(** ** One document for a number, one dependent for a name *)

Section Uniqueness.









End Uniqueness.

(** ** What validation rejects *)

Section Rejection.





End Rejection.

(** ** The user routes *)

Section UserRoutes.

Import Users.

Context `{!Libraries}.

Implicit Types (users facilities : list (gmap string Value)) (d : gmap string Value).

Lemma find_one_Some docs key v d :
  find_one docs key v = Some d → d ∈ docs ∧ d !! key = Some v.
Proof.
  unfold find_one. destruct (list_find _ docs) as [[i d']|] eqn:Hf; [|done].
  intros [= <-]. apply list_find_Some in Hf as (Hi & Hv & _).
  split; [by eapply list_elem_of_lookup_2|done].
Qed.

Lemma find_one_None docs key v :
  find_one docs key v = None ↔ ∀ d, d ∈ docs → d !! key ≠ Some v.
Proof.
  unfold find_one. rewrite fmap_None, list_find_None, Forall_forall. done.
Qed.

Lemma truthy_find_one docs key v :
  truthy (find_one docs key v) = bool_decide (is_Some (find_one docs key v)).
Proof.
  destruct (find_one docs key v) as [d|] eqn:Hf; unfold truthy.
  - apply find_one_Some in Hf as [_ Hk].
    rewrite (bool_decide_eq_true_2 (d ≠ ∅))
      by (intros ->; by rewrite lookup_empty in Hk).
    symmetry. apply bool_decide_eq_true_2. by eauto.
  - symmetry. apply bool_decide_eq_false_2. by intros [? ?].
Qed.

Lemma find_one_app_new docs key v d :
  find_one docs key v = None → d !! key = Some v →
  find_one (docs ++ [d]) key v = Some d.
Proof.
  unfold find_one. rewrite fmap_None. intros Hn Hd.
  rewrite list_find_app_r by done. simpl. by rewrite decide_True.
Qed.

Lemma find_one_app_old docs key v d more :
  find_one docs key v = Some d → find_one (docs ++ more) key v = Some d.
Proof.
  unfold find_one. destruct (list_find _ docs) as [[i d']|] eqn:Hf; [|done].
  intros [= <-]. by rewrite (list_find_app_l _ _ _ _ _ Hf).
Qed.

Lemma subscript_Some d key v : d !! key = Some v → subscript d key = Ok v.
Proof. unfold subscript. by intros ->. Qed.

Lemma subscript_None d key : d !! key = None → subscript d key = Fail (KeyError key).
Proof. unfold subscript. by intros ->. Qed.

Lemma bind_Ok {A B} (a : A) (k : A → Result B) : (Ok a ≫= k) = k a.
Proof. done. Qed.

Lemma dump_email user :
  UserRegistration.model_dump user !! "email" = Some (VStr (UserRegistration.email user)).
Proof. unfold UserRegistration.model_dump. by rewrite lookup_insert_eq. Qed.

Lemma dump_password user :
  UserRegistration.model_dump user !! "password"
  = Some (VStr (UserRegistration.password user)).
Proof.
  unfold UserRegistration.model_dump.
  rewrite lookup_insert_ne by done. by rewrite lookup_insert_eq.
Qed.

Lemma dump_facility_name user :
  UserRegistration.model_dump user !! "facility_name"
  = Some (VStr (PyStr.title (UserRegistration.facility_name user))).
Proof.
  unfold UserRegistration.model_dump.
  rewrite !lookup_insert_ne by done. by rewrite lookup_insert_eq.
Qed.

Lemma dump_id user : UserRegistration.model_dump user !! "_id" = None.
Proof.
  unfold UserRegistration.model_dump. by rewrite !lookup_insert_ne, lookup_empty by done.
Qed.

Lemma registered_doc_lookups user hashed ft n :
  registered_doc user hashed ft n !! "_id" = Some (VStr (object_id n)) ∧
  registered_doc user hashed ft n !! "email" = Some (VStr (UserRegistration.email user)) ∧
  registered_doc user hashed ft n !! "password" = Some (VStr hashed) ∧
  registered_doc user hashed ft n !! "facility_name"
    = Some (VStr (PyStr.title (UserRegistration.facility_name user))) ∧
  registered_doc user hashed ft n !! "facility_type" = Some ft.
Proof.
  unfold registered_doc. split_and!.
  - by rewrite lookup_insert_eq.
  - rewrite !lookup_insert_ne by done. apply dump_email.
  - rewrite !lookup_insert_ne by done. by rewrite lookup_insert_eq.
  - rewrite !lookup_insert_ne by done. apply dump_facility_name.
  - rewrite lookup_insert_ne by done. by rewrite lookup_insert_eq.
Qed.

(** The route, as the decisions it takes in order. *)
Lemma register_user_decisions facilities users user :
  let email := VStr (UserRegistration.email user) in
  let name := VStr (PyStr.title (UserRegistration.facility_name user)) in
  register_user facilities users user =
  if decide (is_Some (find_one users "email" email))
  then (bad_request "Email/User exists", users)
  else if decide (is_Some (find_one users "facility_name" name))
  then (bad_request "Facility already registered", users)
  else
    match find_one facilities "facility_name" name with
    | None => (bad_request "Facility is not registered to offer services", users)
    | Some facility =>
        match facility !! "status" with
        | None => (Fail (KeyError "status"), users)
        | Some status =>
            if decide (status = VStr "Active")
            then match hashpw (UserRegistration.password user) salt with
                 | None =>
                     (Fail (ValueError "password cannot be longer than 72 bytes"), users)
                 | Some hashed =>
                     match facility !! "facility_type" with
                     | None => (Fail (KeyError "facility_type"), users)
                     | Some ft =>
                         (Ok "user_created",
                          users ++ [registered_doc user hashed ft (length users)])
                     end
                 end
            else (bad_request "Facility license is revoked", users)
        end
    end.
Proof.
  intros email name. subst email name. unfold register_user.
  rewrite (subscript_Some _ _ _ (dump_email user)), bind_Ok.
  rewrite truthy_find_one.
  destruct (decide (is_Some (find_one users "email" _))) as [He|He].
  { by rewrite bool_decide_eq_true_2. }
  rewrite bool_decide_eq_false_2 by done.
  rewrite (subscript_Some _ _ _ (dump_facility_name user)), bind_Ok.
  rewrite truthy_find_one.
  destruct (decide (is_Some (find_one users "facility_name" _))) as [Hf|Hf].
  { by rewrite bool_decide_eq_true_2. }
  rewrite bool_decide_eq_false_2 by done.
  rewrite truthy_find_one.
  destruct (find_one facilities "facility_name" _) as [facility|] eqn:Hfac.
  2:{ by rewrite bool_decide_eq_false_2 by (by intros [? ?]). }
  rewrite bool_decide_eq_true_2 by eauto. simpl negb. cbv iota. simpl default.
  destruct (facility !! "status") as [status|] eqn:Hst.
  2:{ by rewrite (subscript_None _ _ Hst). }
  rewrite (subscript_Some _ _ _ Hst), bind_Ok.
  destruct (decide (status = VStr "Active")) as [->|Hs].
  2:{ by rewrite bool_decide_eq_true_2. }
  rewrite bool_decide_eq_false_2 by (intros H'; by apply H').
  rewrite (subscript_Some _ _ _ (dump_password user)), bind_Ok.
  destruct (hashpw (UserRegistration.password user) salt) as [hashed|]; [|done].
  destruct (facility !! "facility_type") as [ft|] eqn:Hft.
  2:{ by rewrite (subscript_None _ _ Hft). }
  rewrite (subscript_Some _ _ _ Hft), bind_Ok.
  unfold insert_one. rewrite !lookup_insert_ne by done. by rewrite dump_id.
Qed.


Lemma unique_on_app key docs d :
  unique_on key docs →
  (∀ v, d !! key = Some v → find_one docs key v = None) →
  unique_on key (docs ++ [d]).
Proof.
  intros Hu Hfresh i j e e' v Hi Hj He He'.
  apply lookup_app_Some in Hi as [Hi|[Hil Hi]];
    apply lookup_app_Some in Hj as [Hj|[Hjl Hj]].
  - by apply (Hu i j e e' v).
  - apply list_lookup_singleton_Some in Hj as [_ <-].
    specialize (Hfresh v He'). rewrite find_one_None in Hfresh.
    destruct (Hfresh e); [by eapply list_elem_of_lookup_2|done].
  - apply list_lookup_singleton_Some in Hi as [_ <-].
    specialize (Hfresh v He). rewrite find_one_None in Hfresh.
    destruct (Hfresh e'); [by eapply list_elem_of_lookup_2|done].
  - apply list_lookup_singleton_Some in Hi as [Hi _].
    apply list_lookup_singleton_Some in Hj as [Hj _]. lia.
Qed.

(** What a registration does to the users, in one of two shapes. *)
Lemma register_user_store facilities users user :
  (register_user facilities users user).2 = users ∨
  ∃ hashed ft,
    find_one users "email" (VStr (UserRegistration.email user)) = None ∧
    find_one users "facility_name"
      (VStr (PyStr.title (UserRegistration.facility_name user))) = None ∧
    (register_user facilities users user).2
    = users ++ [registered_doc user hashed ft (length users)].
Proof.
  rewrite register_user_decisions.
  destruct (decide (is_Some (find_one users "email" _))) as [He|He]; [by left|].
  destruct (decide (is_Some (find_one users "facility_name" _))) as [Hf|Hf]; [by left|].
  apply eq_None_not_Some in He, Hf.
  destruct (find_one facilities "facility_name" _) as [facility|]; [|by left].
  destruct (facility !! "status") as [status|]; [|by left].
  destruct (decide (status = VStr "Active")); [|by left].
  destruct (hashpw (UserRegistration.password user) salt) as [hashed|]; [|by left].
  destruct (facility !! "facility_type") as [ft|]; [|by left].
  right. by exists hashed, ft.
Qed.

Lemma wf_registered_doc user hashed ft n : wf_user (registered_doc user hashed ft n).
Proof.
  destruct (registered_doc_lookups user hashed ft n)
    as (Hid & Hemail & Hpw & Hname & Htype).
  unfold wf_user. split_and!; by eauto.
Qed.

Lemma register_user_invariants facilities users user :
  unique_on "email" users ∧ unique_on "facility_name" users ∧ Forall wf_user users →
  unique_on "email" (register_user facilities users user).2 ∧
  unique_on "facility_name" (register_user facilities users user).2 ∧
  Forall wf_user (register_user facilities users user).2.
Proof.
  intros (Hue & Huf & Hwf).
  destruct (register_user_store facilities users user)
    as [->|(hashed & ft & He & Hf & ->)]; [done|].
  destruct (registered_doc_lookups user hashed ft (length users))
    as (_ & Hemail & _ & Hname & _).
  split_and!.
  - apply unique_on_app; [done|]. intros v Hv.
    rewrite Hemail in Hv. by injection Hv as <-.
  - apply unique_on_app; [done|]. intros v Hv.
    rewrite Hname in Hv. by injection Hv as <-.
  - apply Forall_app. split; [done|]. apply Forall_singleton, wf_registered_doc.
Qed.

Lemma registered_invariants users :
  registered users →
  unique_on "email" users ∧ unique_on "facility_name" users ∧ Forall wf_user users.
Proof.
  induction 1 as [|facilities users user _ IH].
  - split_and!; [intros i j d d' v Hi; done..|constructor].
  - by apply register_user_invariants.
Qed.

(** X9. Registration keeps the emails and the facility names of the users
    pairwise different, and every user with the keys the routes read; so
    these hold in every users collection this system produces. *)
Theorem registered_users_are_unique :
  (∀ facilities users user,
     unique_on "email" users ∧ unique_on "facility_name" users ∧ Forall wf_user users →
     unique_on "email" (register_user facilities users user).2 ∧
     unique_on "facility_name" (register_user facilities users user).2 ∧
     Forall wf_user (register_user facilities users user).2) ∧
  (∀ users,
     registered users →
     unique_on "email" users ∧ unique_on "facility_name" users ∧ Forall wf_user users).
Proof. split; [apply register_user_invariants|apply registered_invariants]. Qed.

(** X10. After a registration that succeeded, a second one is refused,
    whatever the facilities collection then holds: with the same email as
    "Email/User exists", and with an email no user has but a facility name
    of the same title case as "Facility already registered"; the users stay
    as the first registration left them. *)
Theorem register_twice_is_refused facilities users user facilities' user' :
  let users' := (register_user facilities users user).2 in
  (register_user facilities users user).1 = Ok "user_created" →
  (UserRegistration.email user' = UserRegistration.email user →
   register_user facilities' users' user'
   = (bad_request "Email/User exists", users')) ∧
  (find_one users' "email" (VStr (UserRegistration.email user')) = None →
   PyStr.title (UserRegistration.facility_name user')
   = PyStr.title (UserRegistration.facility_name user) →
   register_user facilities' users' user'
   = (bad_request "Facility already registered", users')).
Proof.
  intros users' Hok. subst users'.
  destruct (register_user_store facilities users user)
    as [Hsame|(hashed & ft & He & Hf & Hs)].
  { exfalso. revert Hok Hsame. rewrite register_user_decisions.
    destruct (decide _); [done|]. destruct (decide _); [done|].
    destruct (find_one facilities _ _) as [facility|]; [|done].
    destruct (facility !! "status") as [status|]; [|done].
    destruct (decide _); [|done].
    destruct (hashpw _ _); [|done].
    destruct (facility !! "facility_type"); [|done].
    simpl. intros _ Hsame.
    apply (f_equal length) in Hsame. rewrite length_app in Hsame. simpl in Hsame. lia. }
  rewrite Hs.
  destruct (registered_doc_lookups user hashed ft (length users))
    as (_ & Hemail & _ & Hname & _).
  pose proof (find_one_app_new _ _ _ _ He Hemail) as Hfe.
  pose proof (find_one_app_new _ _ _ _ Hf Hname) as Hff.
  split.
  - intros Heq. rewrite register_user_decisions. rewrite Heq, Hfe.
    by rewrite decide_True by eauto.
  - intros Hnone Heq. rewrite register_user_decisions. rewrite Hnone, Heq, Hff.
    rewrite decide_False by (by intros [? ?]).
    by rewrite decide_True by eauto.
Qed.

(** X11. A login is refused as "Incorrect email" when no user has the
    email, and as "Incorrect password" when bcrypt rejects the password
    against the stored hash; when it returns a token, bcrypt has accepted
    the password against the hash of the first user with that email, and the
    token is a bearer token for that email that expires a day later. *)
Theorem login_user_outcomes users now username password :
  (find_one users "email" (VStr username) = None →
   login_user users now username password = unauthorized "Incorrect email") ∧
  (∀ d hashed,
     find_one users "email" (VStr username) = Some d →
     d !! "password" = Some (VStr hashed) →
     checkpw password hashed = Some false →
     login_user users now username password = unauthorized "Incorrect password") ∧
  (∀ token,
     login_user users now username password = Ok token →
     ∃ d hashed,
       find_one users "email" (VStr username) = Some d ∧
       d !! "password" = Some (VStr hashed) ∧
       checkpw password hashed = Some true ∧
       token = {| access_token :=
                    jwt_encode (<["exp" := VTime (now + one_day)]>
                                  {["sub" := VStr username]});
                  token_type := "bearer" |}).
Proof.
  unfold login_user. rewrite truthy_find_one.
  destruct (find_one users "email" (VStr username)) as [d|] eqn:Hf.
  - rewrite bool_decide_eq_true_2 by eauto. simpl negb. cbv iota. simpl default.
    pose proof (find_one_Some _ _ _ _ Hf) as [_ Hemail].
    split_and!; [done| |].
    + intros d' hashed [= <-] Hp Hc.
      by rewrite (subscript_Some _ _ _ Hp), bind_Ok, Hc.
    + intros token. destruct (d !! "password") as [hashed|] eqn:Hp.
      2:{ by rewrite (subscript_None _ _ Hp). }
      rewrite (subscript_Some _ _ _ Hp), bind_Ok.
      destruct hashed as [|hashed|]; try done.
      destruct (checkpw password hashed) as [[|]|] eqn:Hc; try done.
      rewrite (subscript_Some _ _ _ Hemail), bind_Ok.
      intros [= <-]. by exists d, hashed.
  - rewrite bool_decide_eq_false_2 by (by intros [? ?]). by split_and!.
Qed.

(** The keys of the part of a stored user that is handed on. *)
Lemma public_part_lookup d key :
  public_part d !! key =
  if decide (key = "password") then None
  else if decide (key = "_id") then None else d !! key.
Proof.
  unfold public_part. destruct (decide (key = "password")) as [->|Hp].
  - by rewrite lookup_delete_eq.
  - rewrite lookup_delete_ne by done. destruct (decide (key = "_id")) as [->|Hi].
    + by rewrite lookup_delete_eq.
    + by rewrite lookup_delete_ne.
Qed.

Lemma get_current_user_found users now token payload email stored :
  jwt_decode now token = Some payload →
  payload !! "sub" = Some email → email ≠ VNull →
  find_one users "email" email = Some stored →
  is_Some (stored !! "_id") → is_Some (stored !! "password") →
  get_current_user users now token = Ok (public_part stored).
Proof.
  intros Hd Hs Hn Hf [i Hi] [p Hp]. unfold get_current_user.
  rewrite Hd, Hs. destruct email; [done| |]; rewrite Hf;
    rewrite (subscript_Some _ _ _ Hi), bind_Ok;
    by rewrite (subscript_Some (delete "_id" stored) "password" p), bind_Ok
      by (by rewrite lookup_delete_ne).
Qed.

Lemma get_current_user_Ok users now token d :
  get_current_user users now token = Ok d →
  ∃ payload email stored,
    jwt_decode now token = Some payload ∧
    payload !! "sub" = Some email ∧
    find_one users "email" email = Some stored ∧
    d = public_part stored.
Proof.
  unfold get_current_user.
  destruct (jwt_decode now token) as [payload|] eqn:Hd; [|done].
  destruct (payload !! "sub") as [email|] eqn:Hs; [|done].
  destruct email as [|e|t]; [done|..];
    (destruct (find_one users "email" _) as [stored|] eqn:Hf; [|done];
     destruct (stored !! "_id") as [i|] eqn:Hi;
       [|by rewrite (subscript_None _ _ Hi)];
     rewrite (subscript_Some _ _ _ Hi), bind_Ok;
     destruct (delete "_id" stored !! "password") as [p|] eqn:Hp;
       [|by rewrite (subscript_None _ _ Hp)];
     rewrite (subscript_Some _ _ _ Hp), bind_Ok; intros [= <-];
     by eexists payload, _, stored).
Qed.

(** X12. What [get_current_user] returns is a stored user without its
    [_id] and its password hash, and it is the first user whose email is
    the subject of the token. *)
Theorem get_current_user_hides_secrets users now token d :
  get_current_user users now token = Ok d →
  d !! "password" = None ∧ d !! "_id" = None ∧
  ∃ stored payload email,
    jwt_decode now token = Some payload ∧
    payload !! "sub" = Some email ∧
    find_one users "email" email = Some stored ∧
    d = public_part stored ∧
    d !! "email" = Some email.
Proof.
  intros (payload & email & stored & Hd & Hs & Hf & ->)%get_current_user_Ok.
  rewrite !public_part_lookup. simpl. split_and!; [done..|].
  exists stored, payload, email. split_and!; try done.
  by apply find_one_Some in Hf as [_ ?].
Qed.

(** X13. On a users collection this system produced, [get_current_user]
    finds every key it deletes: it returns a user, or it answers 401
    "Could not validate credentials", and raises nothing else. *)
Theorem get_current_user_returns_or_401 users now token e :
  registered users →
  get_current_user users now token = Fail e →
  e = HTTPException 401 "Could not validate credentials".
Proof.
  intros Hr. destruct (registered_invariants users Hr) as (_ & _ & Hwf).
  rewrite Forall_forall in Hwf.
  unfold get_current_user.
  destruct (jwt_decode now token) as [payload|]; [|by intros [= <-]].
  destruct (payload !! "sub") as [email|]; [|by intros [= <-]].
  destruct email as [|s|t]; [by intros [= <-]|..];
    (destruct (find_one users "email" _) as [stored|] eqn:Hf; [|by intros [= <-]];
     apply find_one_Some in Hf as [Hin _];
     destruct (Hwf stored Hin) as ([i Hi] & _ & (p & Hp) & _);
     rewrite (subscript_Some _ _ _ Hi), bind_Ok;
     by rewrite (subscript_Some (delete "_id" stored) "password" (VStr p)), bind_Ok
       by (by rewrite lookup_delete_ne)).
Qed.

(** X14. Registration, login and authentication compose: when bcrypt
    accepts a password against its own hash and a token decodes before its
    expiry to the subject it was made for, a facility whose type is a string
    can, after it registered and whatever users registered after it, log in
    with the email and the password it registered, and the token
    authenticates it for a day as the user with that email, the facility
    name in title case and the type of the facilities collection. *)
Theorem register_login_authenticate
    facilities users user facility ft more now later :
  let users' := (register_user facilities users user).2 ++ more in
  bcrypt_sound → jwt_sound →
  (register_user facilities users user).1 = Ok "user_created" →
  find_one facilities "facility_name"
    (VStr (PyStr.title (UserRegistration.facility_name user))) = Some facility →
  facility !! "facility_type" = Some (VStr ft) →
  (later < whole_seconds (now + one_day))%Z →
  ∃ token,
    login_user users' now (UserRegistration.email user) (UserRegistration.password user)
      = Ok token ∧
    authenticate users' later (access_token token) =
      Ok {| User.email := UserRegistration.email user;
            User.facility_name := PyStr.title (UserRegistration.facility_name user);
            User.facility_type := ft |}.
Proof.
  intros users' Hb Hj Hok Hfac Hft Hlater. subst users'.
  revert Hok. rewrite register_user_decisions.
  destruct (decide (is_Some (find_one users "email" _))) as [|He]; [done|].
  destruct (decide (is_Some (find_one users "facility_name" _))) as [|Hf]; [done|].
  apply eq_None_not_Some in He, Hf. rewrite Hfac.
  destruct (facility !! "status") as [status|]; [|done].
  destruct (decide (status = VStr "Active")); [|done].
  destruct (hashpw (UserRegistration.password user) salt) as [hashed|] eqn:Hh; [|done].
  rewrite Hft. simpl. intros _.
  destruct (registered_doc_lookups user hashed (VStr ft) (length users))
    as (Hid & Hemail & Hpw & Hname & Htype).
  set (doc := registered_doc user hashed (VStr ft) (length users)) in *.
  assert (Hfound : find_one ((users ++ [doc]) ++ more) "email"
                     (VStr (UserRegistration.email user)) = Some doc).
  { apply find_one_app_old. by apply find_one_app_new. }
  set (claims := <["exp" := VTime (now + one_day)]>
                   ({["sub" := VStr (UserRegistration.email user)]} : gmap string Value)).
  exists {| access_token := jwt_encode claims; token_type := "bearer" |}.
  split.
  - unfold login_user. rewrite truthy_find_one, Hfound.
    rewrite bool_decide_eq_true_2 by eauto. simpl negb. cbv iota. simpl default.
    rewrite (subscript_Some _ _ _ Hpw), bind_Ok, (Hb _ _ Hh).
    by rewrite (subscript_Some _ _ _ Hemail), bind_Ok.
  - destruct (Hj claims (UserRegistration.email user) (now + one_day)%Z later)
      as (payload & Hdec & Hsub); [| |done|].
    { subst claims. rewrite lookup_insert_ne by done. by rewrite lookup_singleton_eq. }
    { subst claims. by rewrite lookup_insert_eq. }
    unfold authenticate. simpl access_token.
    rewrite (get_current_user_found _ _ _ payload _ doc Hdec Hsub) by eauto.
    rewrite bind_Ok. unfold get_current_active_user, str_field.
    rewrite !public_part_lookup. simpl. by rewrite Hemail, Hname, Htype.
Qed.


(** The user built from a stored document has its email and its facility
    name. *)
Lemma active_user_fields d u :
  get_current_active_user (public_part d) = Ok u →
  d !! "email" = Some (VStr (User.email u)) ∧
  d !! "facility_name" = Some (VStr (User.facility_name u)).
Proof.
  unfold get_current_active_user, str_field. rewrite !public_part_lookup. simpl.
  destruct (d !! "email") as [[|e|]|]; try done. simpl.
  destruct (d !! "facility_name") as [[|f|]|]; try done. simpl.
  destruct (d !! "facility_type") as [[|t|]|]; try done. simpl.
  by intros [= <-].
Qed.

(** X15. Two different users of a collection this system produced have
    different emails and different facility names; so when one of them
    posts a visit, a search of the other under a key for the same ledger
    returns what it returned before, followed by the new visit. *)
Theorem other_registered_facility_sees_the_post
    users i j d d' poster searcher now visit s p' status :
  let patient := VisitUpload.patient_search visit in
  let before := ledger_of patient (found_doc (VisitSearch.id_number patient) s) in
  registered users →
  users !! i = Some d → users !! j = Some d' → i ≠ j →
  get_current_active_user (public_part d) = Ok poster →
  get_current_active_user (public_part d') = Ok searcher →
  outcome (add_visit poster now visit s) = Returned status →
  same_ledger patient p' →
  User.email poster ≠ User.email searcher ∧
  User.facility_name poster ≠ User.facility_name searcher ∧
  outcome (get_patient searcher p' (store_after (add_visit poster now visit s))) =
    Returned (filter (from_other (User.facility_name searcher)) before ++
              [stored_visit poster now visit]).
Proof.
  intros patient before Hr Hi Hj Hne Hp Hs Ho Hsame. subst patient before.
  destruct (registered_invariants users Hr) as (Hue & Huf & _).
  apply active_user_fields in Hp as [Hpe Hpf].
  apply active_user_fields in Hs as [Hse Hsf].
  assert (He : User.email poster ≠ User.email searcher).
  { intros Heq. rewrite Heq in Hpe. by apply Hne, (Hue i j d d' _ Hi Hj Hpe Hse). }
  assert (Hf : User.facility_name poster ≠ User.facility_name searcher).
  { intros Heq. rewrite Heq in Hpf. by apply Hne, (Huf i j d d' _ Hi Hj Hpf Hsf). }
  split_and!; [done..|].
  destruct (add_visit_then_get_patient poster now visit s searcher p' status Ho Hsame)
    as [-> _].
  by rewrite decide_False by (intros Heq; by apply Hf).
Qed.

End UserRoutes.

(** ** The user routes on the sample interface *)

Section UserRoutesSample.

Import Users.

Lemma sample_bcrypt_sound : @bcrypt_sound sample_libraries.
Proof.
  intros password hashed. simpl. destruct (72 <? String.length password)%nat; [done|].
  intros [= <-]. by rewrite bool_decide_eq_true_2.
Qed.

Lemma sample_jwt_sound : @jwt_sound sample_libraries.
Proof.
  intros claims subject expire now Hsub _ _. simpl. eexists. split; [done|].
  unfold sample_encode. rewrite Hsub. by rewrite lookup_singleton_eq.
Qed.


Lemma registered_users_are_unique_witness :
  unique_on "email" sample_users ∧ unique_on "facility_name" sample_users ∧
  Forall wf_user sample_users.
Proof.
  apply (proj2 (@registered_users_are_unique sample_libraries)).
  apply (@registered_step sample_libraries), (@registered_step sample_libraries),
    (@registered_empty sample_libraries).
Defined.

Lemma register_twice_is_refused_witness :
  @register_user sample_libraries []
    (@register_user sample_libraries [sample_facility] [] sample_registration).2
    sample_registration
  = (bad_request "Email/User exists",
     (@register_user sample_libraries [sample_facility] [] sample_registration).2).
Proof.
  refine (proj1 (@register_twice_is_refused sample_libraries [sample_facility] []
                   sample_registration [] sample_registration _) _).
  - by vm_compute.
  - reflexivity.
Defined.

Lemma login_user_outcomes_witness :
  @login_user sample_libraries sample_users 0 "nobody@example.com" "password"
  = unauthorized "Incorrect email".
Proof.
  apply (proj1 (@login_user_outcomes sample_libraries sample_users 0
                  "nobody@example.com" "password")).
  by vm_compute.
Defined.

Lemma get_current_user_hides_secrets_witness :
  let d := public_part (@registered_doc sample_libraries sample_registration
                          "$2b$12$password" (VStr "Hospital") 0) in
  d !! "password" = None ∧ d !! "_id" = None ∧
  ∃ stored payload email,
    @jwt_decode sample_libraries 0 "test@example.com" = Some payload ∧
    payload !! "sub" = Some email ∧
    find_one sample_users "email" email = Some stored ∧
    d = public_part stored ∧
    d !! "email" = Some email.
Proof.
  apply (@get_current_user_hides_secrets sample_libraries sample_users 0
           "test@example.com").
  by vm_compute.
Defined.

Lemma get_current_user_returns_or_401_witness :
  @get_current_user sample_libraries sample_users 0 "nobody@example.com"
    = Fail (HTTPException 401 "Could not validate credentials") ∧
  HTTPException 401 "Could not validate credentials"
    = HTTPException 401 "Could not validate credentials".
Proof.
  split; [by vm_compute|].
  apply (@get_current_user_returns_or_401 sample_libraries sample_users 0
           "nobody@example.com").
  - apply (@registered_step sample_libraries), (@registered_step sample_libraries),
      (@registered_empty sample_libraries).
  - by vm_compute.
Defined.


Lemma register_login_authenticate_witness :
  ∃ token,
    @login_user sample_libraries
      (@register_user sample_libraries [sample_facility] [] sample_registration).2
      0 "test@example.com" "password" = Ok token ∧
    @authenticate sample_libraries
      (@register_user sample_libraries [sample_facility] [] sample_registration).2
      1 (access_token token) = Ok sample_hospital_user.
Proof.
  pose proof (@register_login_authenticate sample_libraries [sample_facility] []
                sample_registration sample_facility "Hospital" [] 0%Z 1%Z
                sample_bcrypt_sound sample_jwt_sound) as H.
  simpl in H. rewrite app_nil_r in H. apply H.
  - by vm_compute.
  - by vm_compute.
  - by vm_compute.
  - by vm_compute.
Defined.

Lemma other_registered_facility_sees_the_post_witness :
  User.email sample_hospital_user ≠ User.email sample_clinic_user ∧
  User.facility_name sample_hospital_user ≠ User.facility_name sample_clinic_user ∧
  outcome (get_patient sample_clinic_user Sample.adult_search
             (store_after (add_visit sample_hospital_user Sample.now Sample.adult_upload
                             Sample.store))) =
    Returned (filter (from_other (User.facility_name sample_clinic_user))
                (ledger_of Sample.adult_search (found_doc 111 Sample.store)) ++
              [stored_visit sample_hospital_user Sample.now Sample.adult_upload]).
Proof.
  apply (@other_registered_facility_sees_the_post sample_libraries sample_users 0 1
           (@registered_doc sample_libraries sample_registration
              "$2b$12$password" (VStr "Hospital") 0)
           (@registered_doc sample_libraries sample_registration_clinic
              "$2b$12$secret" (VStr "Clinic") 1)
           sample_hospital_user sample_clinic_user Sample.now Sample.adult_upload
           Sample.store Sample.adult_search posted).
  - apply (@registered_step sample_libraries), (@registered_step sample_libraries),
      (@registered_empty sample_libraries).
  - by vm_compute.
  - by vm_compute.
  - discriminate.
  - by vm_compute.
  - by vm_compute.
  - by vm_compute.
  - split_and!; [reflexivity|reflexivity|discriminate].
Defined.

End UserRoutesSample.
